(** * Ingestion and enrichment pipeline of the evetari scrapers

    A shallow embedding of [scrape_twitter.py] and of the first module of
    [scrape_facebook.py]: the handle and timestamp normalizers, the
    demo-row predicate, the window and dedup loop, the record mappers, the
    two-commit persist/enrich flow and the ChatGPT client.

    Conventions of the embedding.
    - A Python [str] is a [string]; its characters are the code points
      below 256.
    - A JSON value returned by the actor or by the text-generation service
      is a [value]; JSON numbers are integers (the pipeline reads ids and
      counters only).
    - A Python dict used as a mapping is a [gmap string value].
    - Code that can raise returns a [result]; a [Raise] that leaves a
      function is the exception the Python caller would see.
    - What the interpreter's libraries and the host decide (the ISO and
      dateutil parsers, the system time zone, [urlparse], [repr] of
      containers, the text of an exception, the text a string column keeps
      for a bound value, the session's autoflush flag) is collected in the
      record [host]; the pipeline is parametric in it.
    - The remote actor and the text-generation service are oracles passed
      to the pipeline; every request sent to the latter is recorded. *)

From stdpp Require Import base strings gmap list pretty.
From Stdlib Require Import Ascii ZArith Lia.

#[local] Set Warnings "-register-all".
#[local] Open Scope Z_scope.
#[local] Open Scope string_scope.

(** ** Python strings *)

Module PyStr.

(** [str.isspace] on the code points below 256. *)
Definition is_space (c : ascii) : bool :=
  let n := Ascii.nat_of_ascii c in
  ((9 <=? n)%nat && (n <=? 13)%nat) || ((28 <=? n)%nat && (n <=? 32)%nat)
  || (n =? 133)%nat || (n =? 160)%nat.

(** Membership of a character in the argument of [strip]/[lstrip]. *)
Fixpoint mem (c : ascii) (chars : string) : bool :=
  match chars with
  | EmptyString => false
  | String d rest => Ascii.eqb c d || mem c rest
  end.

Fixpoint lstrip_by (p : ascii → bool) (s : string) : string :=
  match s with
  | EmptyString => EmptyString
  | String c rest => if p c then lstrip_by p rest else s
  end.

Fixpoint rstrip_by (p : ascii → bool) (s : string) : string :=
  match s with
  | EmptyString => EmptyString
  | String c rest =>
      match rstrip_by p rest with
      | EmptyString => if p c then EmptyString else String c EmptyString
      | r => String c r
      end
  end.

Definition strip_by (p : ascii → bool) (s : string) : string :=
  rstrip_by p (lstrip_by p s).

(** [s.strip()], [s.strip(chars)], [s.lstrip(chars)]. *)
Definition strip (s : string) : string := strip_by is_space s.
Definition strip_chars (chars s : string) : string :=
  strip_by (λ c, mem c chars) s.
Definition lstrip_chars (chars s : string) : string :=
  lstrip_by (λ c, mem c chars) s.

(** [s.startswith(pre)]. *)
Definition startswith (pre s : string) : bool := String.prefix pre s.

Fixpoint sdrop (n : nat) (s : string) : string :=
  match n, s with
  | O, _ => s
  | S n', String _ rest => sdrop n' rest
  | S _, EmptyString => EmptyString
  end.

(** The text before and after the leftmost occurrence of [sep]. *)
Fixpoint find_sub (sep s : string) : option (string * string) :=
  if String.prefix sep s then Some (EmptyString, sdrop (String.length sep) s)
  else
    match s with
    | EmptyString => None
    | String c rest =>
        match find_sub sep rest with
        | Some (a, b) => Some (String c a, b)
        | None => None
        end
    end.

(** [sep in s]. *)
Definition contains (sep s : string) : bool :=
  match find_sub sep s with Some _ => true | None => false end.

(** [s.split(sep)] for a non-empty [sep]: left to right, occurrences do
    not overlap.  The fuel bounds the number of cuts by the length. *)
Fixpoint split_fuel (n : nat) (sep s : string) : list string :=
  match n with
  | O => [s]
  | S n' =>
      match find_sub sep s with
      | Some (a, b) => a :: split_fuel n' sep b
      | None => [s]
      end
  end.

Definition split (sep s : string) : list string :=
  split_fuel (String.length s) sep s.

(** [s.split(sep, 1)]. *)
Definition split1 (sep s : string) : list string :=
  match find_sub sep s with
  | Some (a, b) => [a; b]
  | None => [s]
  end.

Fixpoint join (sep : string) (parts : list string) : string :=
  match parts with
  | [] => EmptyString
  | [p] => p
  | p :: rest => p ++ sep ++ join sep rest
  end.

(** [s.replace(old, new)] for a non-empty [old]. *)
Definition replace (old new s : string) : string :=
  join new (split old s).

(** The double quote, the backslash and the line feed, for the prompt
    templates. *)
Definition dq : string := String (Ascii.ascii_of_nat 34) EmptyString.
Definition bs : string := String (Ascii.ascii_of_nat 92) EmptyString.
Definition nl : string := String (Ascii.ascii_of_nat 10) EmptyString.

End PyStr.

(** ** Python values and exceptions *)

Inductive exn : Type :=
  | AttributeError
  | TypeError
  | KeyError (key : string)
  | IndexError
  | ValueError
  | RequestError (text : string).

Inductive result (A : Type) : Type :=
  | Ok (a : A)
  | Raise (e : exn).

Arguments Ok {A} a.
Arguments Raise {A} e.

#[global] Instance result_ret : MRet result := λ A a, Ok a.
#[global] Instance result_bind : MBind result := λ A B k m,
  match m with
  | Ok a => k a
  | Raise e => Raise e
  end.
#[global] Instance result_fmap : FMap result := λ A B f m,
  match m with
  | Ok a => Ok (f a)
  | Raise e => Raise e
  end.

Inductive value : Type :=
  | VNull
  | VBool (b : bool)
  | VInt (z : Z)
  | VStr (s : string)
  | VList (l : list value)
  | VDict (d : gmap string value).

(** A raw item of the actor's dataset. *)
Abbreviation item := (gmap string value).

Module Py.

(** [not l] for a list. *)
Definition empty {A : Type} (l : list A) : bool :=
  match l with [] => true | _ => false end.

(** Truth value of an object, as [if], [or], [and] and [not] test it. *)
Definition truthy (v : value) : bool :=
  match v with
  | VNull => false
  | VBool b => b
  | VInt z => negb (z =? 0)%Z
  | VStr s => negb (String.eqb s "")
  | VList l => negb (empty l)
  | VDict d => negb (bool_decide (d = ∅))
  end.

(** [a or b] when evaluating [b] cannot raise. *)
Definition por (a b : value) : value := if truthy a then a else b.

(** [a or <b>] when evaluating [b] can raise: [b] is not evaluated when
    [a] is true. *)
Definition por_lazy (a : value) (b : result value) : result value :=
  if truthy a then Ok a else b.

(** [d.get(k)] and [d.get(k, dflt)] on a dict. *)
Definition get (k : string) (d : item) : value := default VNull (d !! k).
Definition get_or (k : string) (dflt : value) (d : item) : value :=
  default dflt (d !! k).

(** [v.get(k)] and [v.get(k, dflt)] on an arbitrary object: only a dict
    has the method. *)
Definition vget (v : value) (k : string) : result value :=
  match v with
  | VDict d => Ok (get k d)
  | _ => Raise AttributeError
  end.
Definition vget_or (v : value) (k : string) (dflt : value) : result value :=
  match v with
  | VDict d => Ok (get_or k dflt d)
  | _ => Raise AttributeError
  end.

(** [v.strip()]: only a str has the method. *)
Definition vstrip (v : value) : result string :=
  match v with
  | VStr s => Ok (PyStr.strip s)
  | _ => Raise AttributeError
  end.

(** [v[k]] for a str key. *)
Definition index_key (v : value) (k : string) : result value :=
  match v with
  | VDict d => match d !! k with Some x => Ok x | None => Raise (KeyError k) end
  | _ => Raise TypeError
  end.

(** [v[0]]. *)
Definition index_zero (v : value) : result value :=
  match v with
  | VList (x :: _) => Ok x
  | VList [] => Raise IndexError
  | VStr (String c _) => Ok (VStr (String c EmptyString))
  | VStr EmptyString => Raise IndexError
  | VDict _ => Raise (KeyError "0")
  | _ => Raise TypeError
  end.

(** [len(v)]: a number, a boolean and [None] have no length. *)
Definition len (v : value) : result nat :=
  match v with
  | VStr s => Ok (String.length s)
  | VList l => Ok (length l)
  | VDict d => Ok (size d)
  | _ => Raise TypeError
  end.

(** [k in v] for a str [k]. *)
Definition contains_key (k : string) (v : value) : result bool :=
  match v with
  | VDict d => Ok (bool_decide (is_Some (d !! k)))
  | VList l => Ok (existsb (λ x, match x with VStr s => String.eqb s k | _ => false end) l)
  | VStr s => Ok (PyStr.contains k s)
  | _ => Raise TypeError
  end.

End Py.

(** ** Dates and datetimes

    A [date] is a number of days, a [datetime] a wall-clock reading in
    microseconds counted from 0001-01-01T00:00:00 (the smallest value of
    Python's [datetime]) together with the UTC offset of its [tzinfo], in
    microseconds, or [None] for a naive value. *)

Record datetime : Type := { wall : Z; tzoff : option Z }.

Module DT.

Definition DAY : Z := 86400000000.

(** One past [datetime.max]: 9999-12-31 has ordinal 3652059. *)
Definition MAXWALL : Z := 3652059 * DAY.

Definition in_range (w : Z) : bool := (0 <=? w)%Z && (w <? MAXWALL)%Z.

(** [dt.replace(tzinfo=timezone.utc)]. *)
Definition replace_tzinfo_utc (dt : datetime) : datetime :=
  {| wall := wall dt; tzoff := Some 0 |}.

(** [dt.date()]: the calendar day of the wall-clock reading. *)
Definition date (dt : datetime) : Z := wall dt / DAY.

(** [datetime.combine(d, datetime.min.time(), tzinfo=timezone.utc)]. *)
Definition combine_utc (d : Z) : datetime :=
  {| wall := d * DAY; tzoff := Some 0 |}.

(** The absolute moment of an aware datetime, on the UTC axis. *)
Definition instant (dt : datetime) : Z := wall dt - default 0 (tzoff dt).

(** [a <= b] and [a < b] between aware datetimes. *)
Definition le (a b : datetime) : bool := (instant a <=? instant b)%Z.
Definition lt (a b : datetime) : bool := (instant a <? instant b)%Z.

End DT.

(** ** What the host decides *)

Record host : Type := {
  (** [str(v)] for a list or a dict. *)
  str_container : value → string;
  (** [str(e)] for an exception. *)
  exn_str : exn → string;
  (** [urlparse(u).path]; [urlparse] raises on some malformed inputs. *)
  urlparse_path : string → result string;
  (** [datetime.fromisoformat]; [None] when it raises. *)
  fromisoformat : string → option datetime;
  (** [dateutil.parser.parse]; [None] when it raises. *)
  dtparse : string → option datetime;
  (** UTC offset of the system time zone at a wall-clock reading, which
      [astimezone] presumes for a naive datetime; [None] when the platform
      call raises. *)
  local_utcoffset : Z → option Z;
  (** [d.isoformat()] for a date. *)
  date_isoformat : Z → string;
  (** The text a string column holds once a value that is not a str has
      been bound to it. *)
  column_text_other : value → string;
  (** Whether the session flushes pending objects before a query. *)
  autoflush : bool;
}.

Section Helpers.

Variable H : host.

(** [str(v)], also the [{v}] of an f-string. *)
Definition py_str (v : value) : string :=
  match v with
  | VNull => "None"
  | VBool true => "True"
  | VBool false => "False"
  | VInt z => pretty z
  | VStr s => s
  | VList _ | VDict _ => str_container H v
  end.

(** [dt.astimezone(timezone.utc)]; [None] when it raises. *)
Definition astimezone_utc (dt : datetime) : option datetime :=
  off ← (match tzoff dt with
         | Some off => Some off
         | None => local_utcoffset H (wall dt)
         end);
  let u := wall dt - off in
  if DT.in_range u then Some {| wall := u; tzoff := Some 0 |} else None.

(** *** scrape_twitter.py, helpers *)

Definition _normalize_handle (h : string) : result string :=
  if negb (Py.truthy (VStr h)) then Ok ""
  else
    let h := PyStr.strip h in
    if PyStr.startswith "http" h then
      p ← urlparse_path H h;
      let path := PyStr.strip_chars "/" p in
      Ok (PyStr.lstrip_chars "@"
            (if Py.truthy (VStr path)
             then default "" (head (PyStr.split1 "/" path))
             else ""))
    else Ok (PyStr.lstrip_chars "@" h).

Definition _pick_timestamp_raw (t : item) : result value :=
  Py.por_lazy (Py.get "createdAt" t)
 (Py.por_lazy (Py.get "created_at" t)
 (a ← Py.vget (Py.por (Py.get "legacy" t) (VDict ∅)) "created_at";
  Py.por_lazy a
 (b ← Py.vget (Py.por (Py.get "tweet" t) (VDict ∅)) "createdAt";
  Py.por_lazy b
 (c ← Py.vget (Py.por (Py.get "tweet" t) (VDict ∅)) "created_at";
  Ok (Py.por c (VStr "")))))).

(** The argument is whatever [_pick_timestamp_raw] returned.  A value
    that is not a str has no [replace] and is refused by dateutil; both
    exceptions are caught. *)
Definition _parse_timestamp (s : value) : option datetime :=
  if negb (Py.truthy s) then None
  else
    match s with
    | VStr s =>
        match fromisoformat H (PyStr.replace "Z" "+00:00" s) ≫= astimezone_utc with
        | Some dt => Some dt
        | None =>
            match dtparse H s with
            | Some dt =>
                match tzoff dt with
                | None => Some (DT.replace_tzinfo_utc dt)
                | Some _ => astimezone_utc dt
                end
            | None => None
            end
        end
    | _ => None
    end.

Definition _extract_author (t : item) : result (value * value) :=
  let author := Py.por (Py.get "author" t) (VDict ∅) in
  n ← Py.vget author "name";
  let name := Py.por n (VStr "") in
  u1 ← Py.vget author "username";
  username ← Py.por_lazy u1 (u2 ← Py.vget author "userName"; Ok (Py.por u2 (VStr "")));
  if negb (Py.truthy username) && Py.truthy (Py.get "user" t) then
    user ← Py.index_key (VDict t) "user";
    sn ← Py.vget user "screen_name";
    let username := Py.por sn (VStr "") in
    name ← Py.por_lazy name (un ← Py.vget user "name"; Ok (Py.por un (VStr "")));
    Ok (name, username)
  else Ok (name, username).

Definition _extract_text (t : item) : result string :=
  Py.vstrip (Py.por (Py.get "fullText" t) (Py.por (Py.get "text" t) (VStr ""))).

Definition first_media_url (media : value) : option (result value) :=
  match media with
  | VList (m :: _) =>
      Some (a ← Py.vget m "media_url_https";
            Py.por_lazy a (b ← Py.vget m "media_url"; Ok (Py.por b (VStr ""))))
  | _ => None
  end.

Definition _extract_photo_url (t : item) : result value :=
  let ent := Py.por (Py.get "entities" t) (VDict ∅) in
  m ← Py.vget ent "media";
  match first_media_url (Py.por m (VList [])) with
  | Some r => r
  | None =>
      let ext := Py.por (Py.get "extendedEntities" t)
                   (Py.por (Py.get "extended_entities" t) (VDict ∅)) in
      m2 ← Py.vget ext "media";
      match first_media_url (Py.por m2 (VList [])) with
      | Some r => r
      | None => Ok (VStr "")
      end
  end.

Definition _is_demo_item (t : item) : bool :=
  let keys : gset string := dom t in
  bool_decide (keys = {[ "demo" ]})
  || (bool_decide (keys = {[ "demo"; "type" ]})
      && negb (existsb (λ k, bool_decide (is_Some (t !! k))) ["id"; "text"; "fullText"])).

End Helpers.

(** ** models.py: the columns the pipeline reads or writes *)

Module Models.

Record TwitterProfile : Type := { twitter_handle : option string }.
Record FacebookPage : Type := { page_url : option string }.

Record User : Type := {
  id : Z;
  email : string;
  name : option string;
  preferred_language : option string;
  preferred_language_facebook : option string;
  twitter_profiles : list TwitterProfile;
  facebook_pages : list FacebookPage;
}.

(** A row keeps the attribute values as the pipeline assigned them; the
    enrichment columns are unset until the enrichment phase writes them. *)
Record ScrapedTweet : Type := {
  tweet_id : string;
  user_id : Z;
  text : string;
  full_text : value;
  lang : value;
  retweet_count : value;
  reply_count : value;
  like_count : value;
  quote_count : value;
  created_at : datetime;
  author_name : value;
  author_username : value;
  photo_url : value;
  chatgpt_title : option string;
  chatgpt_output : option string;
}.

End Models.

(** [x or dflt] for a nullable str column or environment variable. *)
Definition str_or (x : option string) (dflt : string) : string :=
  match x with
  | Some s => if Py.truthy (VStr s) then s else dflt
  | None => dflt
  end.

(** [not x] for a nullable str. *)
Definition str_falsy (x : option string) : bool :=
  match x with
  | Some s => negb (Py.truthy (VStr s))
  | None => true
  end.

(** [language_map], the same table in both scrapers. *)
Definition language_map : list (string * string) :=
  [
    ("af", "Afrikaans"); ("sq", "Albanian"); ("am", "Amharic");
    ("ar", "Arabic"); ("hy", "Armenian"); ("az", "Azerbaijani");
    ("eu", "Basque"); ("be", "Belarusian"); ("bn", "Bengali");
    ("bs", "Bosnian"); ("bg", "Bulgarian"); ("ca", "Catalan");
    ("ceb", "Cebuano"); ("ny", "Chichewa");
    ("zh-CN", "Chinese (Simplified)"); ("zh-TW", "Chinese (Traditional)");
    ("co", "Corsican"); ("hr", "Croatian"); ("cs", "Czech");
    ("da", "Danish"); ("nl", "Dutch"); ("en", "English");
    ("eo", "Esperanto"); ("et", "Estonian"); ("tl", "Filipino");
    ("fi", "Finnish"); ("fr", "French"); ("fy", "Frisian");
    ("gl", "Galician"); ("ka", "Georgian"); ("de", "German");
    ("el", "Greek"); ("gu", "Gujarati"); ("ht", "Haitian Creole");
    ("ha", "Hausa"); ("haw", "Hawaiian"); ("he", "Hebrew"); ("hi", "Hindi");
    ("hmn", "Hmong"); ("hu", "Hungarian"); ("is", "Icelandic");
    ("ig", "Igbo"); ("id", "Indonesian"); ("ga", "Irish"); ("it", "Italian");
    ("ja", "Japanese"); ("jw", "Javanese"); ("kn", "Kannada");
    ("kk", "Kazakh"); ("km", "Khmer"); ("rw", "Kinyarwanda");
    ("ko", "Korean"); ("ku", "Kurdish (Kurmanji)"); ("ky", "Kyrgyz");
    ("lo", "Lao"); ("la", "Latin"); ("lv", "Latvian"); ("lt", "Lithuanian");
    ("lb", "Luxembourgish"); ("mk", "Macedonian"); ("mg", "Malagasy");
    ("ms", "Malay"); ("ml", "Malayalam"); ("mt", "Maltese"); ("mi", "Maori");
    ("mr", "Marathi"); ("mn", "Mongolian"); ("my", "Myanmar (Burmese)");
    ("ne", "Nepali"); ("no", "Norwegian"); ("ps", "Pashto");
    ("fa", "Persian"); ("pl", "Polish"); ("pt", "Portuguese");
    ("pa", "Punjabi"); ("ro", "Romanian"); ("ru", "Russian");
    ("sm", "Samoan"); ("gd", "Scots Gaelic"); ("sr", "Serbian");
    ("st", "Sesotho"); ("sn", "Shona"); ("sd", "Sindhi"); ("si", "Sinhala");
    ("sk", "Slovak"); ("sl", "Slovenian"); ("so", "Somali");
    ("es", "Spanish"); ("su", "Sundanese"); ("sw", "Swahili");
    ("sv", "Swedish"); ("tg", "Tajik"); ("ta", "Tamil"); ("te", "Telugu");
    ("th", "Thai"); ("tr", "Turkish"); ("uk", "Ukrainian"); ("ur", "Urdu");
    ("uz", "Uzbek"); ("vi", "Vietnamese"); ("cy", "Welsh"); ("xh", "Xhosa");
    ("yi", "Yiddish"); ("yo", "Yoruba"); ("zu", "Zulu")
  ].

(** [language_map.get(code, "English")]. *)
Definition language_name (code : string) : string :=
  default "English" ((list_to_map language_map : gmap string string) !! code).

(** ** The text-generation client *)

Module Chat.

Inductive level : Type := INFO | ERROR.

(** A log record: level, message (or %-format) and its arguments. *)
Record log_record : Type := { lvl : level; msg : string; args : list string }.

(** One [requests.post] to the completions endpoint. *)
Record request : Type := {
  url : string;
  authorization : string;
  model : string;
  system_content : string;
  user_content : string;
  temperature : string;
}.

(** What the call returns: the exception of [requests.post] or of
    [resp.json()], or the decoded body. *)
Inductive post_outcome : Type :=
  | PostRaises (e : exn)
  | PostJson (data : value).

(** The service: the reply to the [n]-th request of an invocation. *)
Definition service : Type := nat → request → post_outcome.

Record state : Type := { requests : list request; log : list log_record }.

Definition empty : state := {| requests := []; log := [] |}.

Definition send (r : request) (s : state) : state :=
  {| requests := requests s ++ [r]; log := log s |}.

Definition emit (l : log_record) (s : state) : state :=
  {| requests := requests s; log := log s ++ [l] |}.

(** The body of the [try] after the response was decoded and logged. *)
Definition first_choice (data : value) : result string :=
  has ← Py.contains_key "choices" data;
  if has : bool then
    choices ← Py.index_key data "choices";
    if Py.truthy choices then
      c ← Py.index_zero choices;
      m ← Py.index_key c "message";
      content ← Py.index_key m "content";
      Py.vstrip content
    else Ok "No response from ChatGPT."
  else Ok "No response from ChatGPT.".

(** The same body in scrape_facebook.py, where the test on the choices
    is [len(data["choices"]) > 0]. *)
Definition first_choice_len (data : value) : result string :=
  has ← Py.contains_key "choices" data;
  if has : bool then
    choices ← Py.index_key data "choices";
    n ← Py.len choices;
    if (0 <? n)%nat then
      c ← Py.index_zero choices;
      m ← Py.index_key c "message";
      content ← Py.index_key m "content";
      Py.vstrip content
    else Ok "No response from ChatGPT."
  else Ok "No response from ChatGPT.".

(** [f"Bearer {OPENAI_API_KEY}"]. *)
Definition bearer (key : option string) : string :=
  "Bearer " ++ match key with Some k => k | None => "None" end.

End Chat.

(** ** The actor run

    The actor call raises, or returns a run; the run names a dataset or
    not; reading the dataset yields its items or raises. *)

Inductive actor_outcome : Type :=
  | ActorRaises (e : exn)
  | ActorRun (defaultDataset : option (result (list item))).

(** ** scrape_twitter.py *)

Module Twitter.
Import Models.

(** The module-level configuration, read from the environment. *)
Record config : Type := {
  OPENAI_API_KEY : option string;
  CHATGPT_MODEL : string;
  ACTOR_ID : string;
  SINCE_DAYS : Z;
  DEFAULT_MAX_ITEMS : Z;
  EXTRA_QUERY : string;
  USE_SEARCH_TERMS : bool;
}.

(** The two shapes of the actor input. *)
Inductive run_input : Type :=
  | SearchTerms (searchTerms : list string) (sort : string) (maxItems : Z)
  | TwitterHandles (twitterHandles : list string) (start end_ : string) (maxItems : Z).

Definition actor : Type := run_input → actor_outcome.

Record stats : Type := {
  demo : nat;
  missing : nat;
  out_of_window : nat;
  non_tweet : nat;
  duplicates : nat;
}.

Definition no_stats : stats :=
  {| demo := 0; missing := 0; out_of_window := 0; non_tweet := 0; duplicates := 0 |}.

(** The state of the filtering loop: the list [new_items] and the
    counters.  Every record is added to the session and appended to
    [new_items] in the same step, so the one list also stands for the
    objects pending in the session, in the order they were added. *)
Record loop_state : Type := {
  new_items : list ScrapedTweet;
  counts : stats;
}.

Definition loop_init : loop_state :=
  {| new_items := []; counts := no_stats |}.

Definition count (f : stats → stats) (st : loop_state) : loop_state :=
  {| new_items := new_items st; counts := f (counts st) |}.

Definition bump_demo (c : stats) : stats :=
  {| demo := S (demo c); missing := missing c; out_of_window := out_of_window c;
     non_tweet := non_tweet c; duplicates := duplicates c |}.
Definition bump_missing (c : stats) : stats :=
  {| demo := demo c; missing := S (missing c); out_of_window := out_of_window c;
     non_tweet := non_tweet c; duplicates := duplicates c |}.
Definition bump_out_of_window (c : stats) : stats :=
  {| demo := demo c; missing := missing c; out_of_window := S (out_of_window c);
     non_tweet := non_tweet c; duplicates := duplicates c |}.
Definition bump_non_tweet (c : stats) : stats :=
  {| demo := demo c; missing := missing c; out_of_window := out_of_window c;
     non_tweet := S (non_tweet c); duplicates := duplicates c |}.
Definition bump_duplicates (c : stats) : stats :=
  {| demo := demo c; missing := missing c; out_of_window := out_of_window c;
     non_tweet := non_tweet c; duplicates := S (duplicates c) |}.

(** [db.session.add(st)] followed by [new_items.append(st)]. *)
Definition add_new (r : ScrapedTweet) (st : loop_state) : loop_state :=
  {| new_items := new_items st ++ [r]; counts := counts st |}.

(** Where an invocation ended. *)
Inductive stage : Type :=
  | NoHandles
  | ActorFailed
  | NoDataset
  | NoItems
  | NothingNew
  | InsertedOnly
  | Enriched.

(** What an invocation leaves behind: the committed rows, the records it
    inserted with the attribute values the pipeline assigned to them, the
    discard counters, the number of records it counted as summarized and
    the traffic with the service.  What a column gives back once a row
    has been written and read again (a [DateTime] column without time
    zone returns [created_at] without its offset) is the database's and
    is not part of the record. *)
Record run_end : Type := {
  ended : stage;
  rows_after : list ScrapedTweet;
  inserted : list ScrapedTweet;
  discarded : stats;
  summarized : nat;
  chat : Chat.state;
}.

Definition set_enrichment (title summary : string) (r : ScrapedTweet) : ScrapedTweet :=
  {| tweet_id := tweet_id r; user_id := user_id r; text := text r;
     full_text := full_text r; lang := lang r; retweet_count := retweet_count r;
     reply_count := reply_count r; like_count := like_count r;
     quote_count := quote_count r; created_at := created_at r;
     author_name := author_name r; author_username := author_username r;
     photo_url := photo_url r;
     chatgpt_title := Some title; chatgpt_output := Some summary |}.

Definition parse_chatgpt_response (response_text : string) : string * string :=
  if PyStr.contains "Post Title:" response_text then
    let parts := PyStr.split "Post Title:" response_text in
    let summary := PyStr.strip (default "" (parts !! 0%nat)) in
    let title := PyStr.strip (default "" (parts !! 1%nat)) in
    (title, summary)
  else ("Untitled", response_text).

Section Scraper.

Variable H : host.
Variable cfg : config.

Fixpoint _build_search_terms (handles : list string) (start_d until_d : Z)
  : result (list string) :=
  match handles with
  | [] => Ok []
  | h :: rest =>
      u ← _normalize_handle H h;
      terms ← _build_search_terms rest start_d until_d;
      if negb (Py.truthy (VStr u)) then Ok terms
      else
        let q := "from:" ++ u ++ " since:" ++ date_isoformat H start_d
                 ++ " until:" ++ date_isoformat H until_d in
        let q := if Py.truthy (VStr (EXTRA_QUERY cfg))
                 then q ++ " " ++ EXTRA_QUERY cfg else q in
        Ok (q :: terms)
  end.

(** The [url], [headers] and [payload] of [call_chatgpt]. *)
Definition chat_request (prompt : string) : Chat.request :=
  {| Chat.url := "https://api.openai.com/v1/chat/completions";
     Chat.authorization := Chat.bearer (OPENAI_API_KEY cfg);
     Chat.model := CHATGPT_MODEL cfg;
     Chat.system_content := "You are ChatGPT-4. You are a helpful assistant.";
     Chat.user_content := prompt;
     Chat.temperature := "0.3" |}.

Definition call_chatgpt (svc : Chat.service) (prompt : string) (s : Chat.state)
  : string * Chat.state :=
  if str_falsy (OPENAI_API_KEY cfg) then ("OpenAI API key not set.", s)
  else
    let req := chat_request prompt in
    let failed (e : exn) (s : Chat.state) :=
      ("Error calling ChatGPT: " ++ exn_str H e,
       Chat.emit {| Chat.lvl := Chat.ERROR; Chat.msg := "Error calling ChatGPT: %s";
                    Chat.args := [exn_str H e] |} s) in
    let reply := svc (length (Chat.requests s)) req in
    let s := Chat.send req s in
    match reply with
    | Chat.PostRaises e => failed e s
    | Chat.PostJson data =>
        let s := Chat.emit {| Chat.lvl := Chat.INFO; Chat.msg := "OpenAI response: %s";
                              Chat.args := [py_str H data] |} s in
        match Chat.first_choice data with
        | Ok content => (content, s)
        | Raise e => failed e s
        end
    end.

(** What a query sees: the committed rows and, when the session
    flushes before a query, the objects added so far. *)
Definition visible (rows : list ScrapedTweet) (st : loop_state) : list ScrapedTweet :=
  rows ++ (if autoflush H then new_items st else []).

(** [ScrapedTweet.query.filter_by(user_id=uid, tweet_id=tid).first()]. *)
Definition query_first (table : list ScrapedTweet) (uid : Z) (tid : string)
  : option ScrapedTweet :=
  List.find (λ r, bool_decide (user_id r = uid) && String.eqb (tweet_id r) tid) table.

(** [v != "tweet"]. *)
Definition differs_from_str (v : value) (s : string) : bool :=
  match v with
  | VStr x => negb (String.eqb x s)
  | _ => true
  end.

(** The window test [start_utc <= dt_aware < until_utc]. *)
Definition in_window (start_utc until_utc dt_aware : datetime) : bool :=
  DT.le start_utc dt_aware && DT.lt dt_aware until_utc.

(** The end of an iteration, from [_extract_author] to the
    constructor call: the record of an item that passed the filter. *)
Definition make_record (user : User) (t : item) (tweet_id : string)
    (dt_aware : datetime) : result ScrapedTweet :=
  '(author_name, author_username) ← _extract_author t;
  text ← _extract_text t;
  photo_url ← _extract_photo_url t;
  let lang := Py.get_or "lang" (VStr "") t in
  Ok {| tweet_id := tweet_id;
        user_id := id user;
        text := text;
        full_text := Py.por (Py.get "fullText" t) (Py.por (Py.get "text" t) (VStr ""));
        lang := lang;
        retweet_count := Py.get_or "retweetCount" (VInt 0) t;
        reply_count := Py.get_or "replyCount" (VInt 0) t;
        like_count := Py.get_or "likeCount" (VInt 0) t;
        quote_count := Py.get_or "quoteCount" (VInt 0) t;
        created_at := dt_aware;
        author_name := author_name;
        author_username := author_username;
        photo_url := photo_url;
        chatgpt_title := None;
        chatgpt_output := None |}.

(** [str(t.get("id", "") or "")]. *)
Definition native_id (t : item) : string :=
  py_str H (Py.por (Py.get_or "id" (VStr "") t) (VStr "")).

(** One iteration of [for t in items]. *)
Definition loop_body (rows : list ScrapedTweet) (start_utc until_utc : datetime)
    (user : User) (st : loop_state) (t : item) : result loop_state :=
  if _is_demo_item t then Ok (count bump_demo st)
  else if Py.truthy (Py.get "type" t) && differs_from_str (Py.get "type" t) "tweet"
  then Ok (count bump_non_tweet st)
  else
    let tweet_id := native_id t in
    raw_ts ← _pick_timestamp_raw t;
    let dt_aware := if Py.truthy raw_ts then _parse_timestamp H raw_ts else None in
    match dt_aware with
    | None => Ok (count bump_missing st)
    | Some dt_aware =>
        if negb (Py.truthy (VStr tweet_id)) then Ok (count bump_missing st)
        else if negb (in_window start_utc until_utc dt_aware)
        then Ok (count bump_out_of_window st)
        else
          match query_first (visible rows st) (id user) tweet_id with
          | Some _ => Ok (count bump_duplicates st)
          | None =>
              r ← make_record user t tweet_id dt_aware;
              Ok (add_new r st)
          end
    end.

Fixpoint filter_loop (rows : list ScrapedTweet) (start_utc until_utc : datetime)
    (user : User) (st : loop_state) (items : list item) : result loop_state :=
  match items with
  | [] => Ok st
  | t :: rest =>
      st ← loop_body rows start_utc until_utc user st t;
      filter_loop rows start_utc until_utc user st rest
  end.

(** The prompt of the enrichment loop. *)
Definition prompt_for (lang_name : string) (st : ScrapedTweet) : string :=
  let author_name := Py.por (author_name st) (VStr "Unknown") in
  let tweet_text := Py.por (VStr (text st)) (Py.por (full_text st) (VStr "")) in
  "You are ChatGPT-4. Below is a tweet in its original language. "
  ++ "Please translate and adjust it so that it is readable in " ++ lang_name ++ ". "
  ++ "Start by saying: 'In the latest tweet from (" ++ py_str H author_name ++ ")...'. "
  ++ "Then provide a summary in two paragraphs or less, explaining the context or importance of the tweet, "
  ++ "and finally repeat the original tweet as is. Please do it in " ++ lang_name ++ ". "
  ++ "At the end, on a new line, output the short title in the format: 'Post Title: [Title]'."
  ++ PyStr.nl ++ PyStr.nl
  ++ "Original Tweet: " ++ py_str H tweet_text.

(** One iteration of [for st in new_items]: the record as the
    iteration leaves it, and whether it was counted. *)
Definition enrich_body (svc : Chat.service) (lang_name : string)
    (st : ScrapedTweet) (s : Chat.state) : ScrapedTweet * bool * Chat.state :=
  let '(response, s) := call_chatgpt svc (prompt_for lang_name st) s in
  let '(title, summary) := parse_chatgpt_response response in
  if Py.truthy (VStr title) && Py.truthy (VStr summary)
  then (set_enrichment title summary st, true, s)
  else (st, false, s).

Fixpoint enrich_loop (svc : Chat.service) (lang_name : string)
    (new_items : list ScrapedTweet) (summarized : nat) (s : Chat.state)
  : list ScrapedTweet * nat * Chat.state :=
  match new_items with
  | [] => ([], summarized, s)
  | st :: rest =>
      let '(st, counted, s) := enrich_body svc lang_name st s in
      let '(rest, summarized, s) :=
        enrich_loop svc lang_name rest (if counted then S summarized else summarized) s in
      (st :: rest, summarized, s)
  end.

(** [p.twitter_handle for p in user.twitter_profiles if p.twitter_handle]. *)
Definition declared_handles (user : User) : list string :=
  omap (λ p, match twitter_handle p with
             | Some h => if Py.truthy (VStr h) then Some h else None
             | None => None
             end) (twitter_profiles user).

(** [h for h in handles if _normalize_handle(h)]. *)
Fixpoint valid_handles (handles : list string) : result (list string) :=
  match handles with
  | [] => Ok []
  | h :: rest =>
      u ← _normalize_handle H h;
      rest ← valid_handles rest;
      Ok (if Py.truthy (VStr u) then h :: rest else rest)
  end.

(** An invocation that ends before anything is committed. *)
Definition stopped (rows : list ScrapedTweet) (s : stage) (c : stats) : run_end :=
  {| ended := s; rows_after := rows; inserted := []; discarded := c;
     summarized := 0; chat := Chat.empty |}.

(** The invocation from [if not new_items] to its end: the two commits
    and the enrichment loop between them.

    The first commit appends the objects of [new_items] to the table;
    the enrichment loop assigns to these same objects and the second
    commit writes the assignments back, so the table ends with the
    records as the loop left them.  Both commits are taken to succeed: a
    commit the database refuses (a value the driver cannot bind) raises
    out of the invocation, which then does not return. *)
Definition persist_and_enrich (svc : Chat.service) (rows : list ScrapedTweet)
    (user : User) (st : loop_state) : run_end :=
  if Py.empty (new_items st) then stopped rows NothingNew (counts st)
  else
    let committed := (rows ++ new_items st)%list in
    if str_falsy (OPENAI_API_KEY cfg) then
      {| ended := InsertedOnly; rows_after := committed;
         inserted := new_items st; discarded := counts st;
         summarized := 0; chat := Chat.empty |}
    else
      let user_lang_code := str_or (preferred_language user) "en" in
      let lang_name := language_name user_lang_code in
      let '(enriched, summarized, s) :=
        enrich_loop svc lang_name (new_items st) 0 Chat.empty in
      {| ended := Enriched; rows_after := (rows ++ enriched)%list;
         inserted := enriched; discarded := counts st;
         summarized := summarized; chat := s |}.

(** The actor input, in either mode. *)
Definition build_run_input (handles : list string) (start_d until_d : Z)
  : result run_input :=
  if USE_SEARCH_TERMS cfg then
    search_terms ← _build_search_terms handles start_d until_d;
    Ok (SearchTerms search_terms "Latest" (DEFAULT_MAX_ITEMS cfg))
  else
    normalized ← mapM (_normalize_handle H) handles;
    Ok (TwitterHandles normalized (date_isoformat H start_d)
          (date_isoformat H until_d) (DEFAULT_MAX_ITEMS cfg)).

(** The invocation for one user.  [today] is [date.today()], [rows] the
    committed table.  Every [Raise] happens before the first commit:
    the table is then the one the invocation started from. *)
Definition scrape_and_store_tweets_for_user (today : Z) (act : actor)
    (svc : Chat.service) (rows : list ScrapedTweet) (user : User) : result run_end :=
  handles ← valid_handles (declared_handles user);
  if Py.empty handles then Ok (stopped rows NoHandles no_stats)
  else
    let until_d := today + 1 in
    let start_d := until_d - SINCE_DAYS cfg in
    run_input ← build_run_input handles start_d until_d;
    match act run_input with
    | ActorRaises _ => Ok (stopped rows ActorFailed no_stats)
    | ActorRun None => Ok (stopped rows NoDataset no_stats)
    | ActorRun (Some (Raise e)) => Raise e
    | ActorRun (Some (Ok items)) =>
        if Py.empty items then Ok (stopped rows NoItems no_stats)
        else
          let start_utc := DT.combine_utc start_d in
          let until_utc := DT.combine_utc until_d in
          st ← filter_loop rows start_utc until_utc user loop_init items;
          Ok (persist_and_enrich svc rows user st)
    end.

End Scraper.

End Twitter.

(** ** scrape_facebook.py (the module up to its [main]) *)

Module Facebook.
Import Models.

Definition FACEBOOK_ACTOR_NAME : string := "apify/facebook-posts-scraper".
Definition RESULTS_LIMIT : Z := 3.
Definition CHATGPT_MODEL : string := "gpt-4-turbo".

(** A row of [scraped_fb_post].  [post_id] is the text the string column
    holds; the other columns keep the values as assigned. *)
Record ScrapedFBPost : Type := {
  post_id : string;
  user_id : Z;
  page_name : value;
  post_url : value;
  post_text : value;
  time_of_posting : value;
  number_of_likes : value;
  number_of_comments : value;
  number_of_shares : value;
  first_post_picture : value;
  profile_picture : value;
  posttitle : string;
  chatgpt_output : string;
}.

(** An entry of [processed_data]. *)
Record processed : Type := {
  p_post_id : value;
  p_page_name : value;
  p_post_url : value;
  p_post_text : value;
  p_time_of_posting : value;
  p_number_of_likes : value;
  p_number_of_comments : value;
  p_number_of_shares : value;
  p_first_post_picture : value;
  p_profile_picture : value;
  p_posttitle : string;
  p_chatgpt_output : string;
}.

Record run_input : Type := {
  startUrls : list string;
  resultsLimit : Z;
  apifyProxyGroups : list string;
}.

Definition actor : Type := run_input → actor_outcome.

Inductive stage : Type :=
  | NoPages
  | ActorFailed
  | NoDataset
  | NoItems
  | NothingNew
  | Enriched.

(** What an invocation leaves behind: the committed rows, the accepted
    raw items and the traffic with the service. *)
Record run_end : Type := {
  ended : stage;
  rows_after : list ScrapedFBPost;
  accepted : list item;
  chat : Chat.state;
}.

Definition set_enrichment (title summary : string) (r : ScrapedFBPost) : ScrapedFBPost :=
  {| post_id := post_id r; user_id := user_id r; page_name := page_name r;
     post_url := post_url r; post_text := post_text r;
     time_of_posting := time_of_posting r; number_of_likes := number_of_likes r;
     number_of_comments := number_of_comments r;
     number_of_shares := number_of_shares r;
     first_post_picture := first_post_picture r;
     profile_picture := profile_picture r;
     posttitle := title; chatgpt_output := summary |}.

(** The body of the [try] of [parse_chatgpt_response]. *)
Definition parse_body (response_text : string) : result (string * string) :=
  let parts := PyStr.split "Title:" response_text in
  if (length parts <? 2)%nat then Ok ("Untitled", response_text)
  else
    let after_title := default "" (parts !! 1%nat) in
    match PyStr.split1 PyStr.nl after_title with
    | [title_line; rest] =>
        let article_parts := PyStr.split "Original Post:" rest in
        let article_summary :=
          PyStr.strip (PyStr.replace "Article:" "" (default "" (article_parts !! 0%nat))) in
        Ok (PyStr.strip title_line, article_summary)
    | _ => Raise ValueError
    end.

Section Scraper.

Variable H : host.
Variable OPENAI_API_KEY : option string.

(** The text a [String] column holds for a bound value. *)
Definition column_text (v : value) : string :=
  match v with
  | VStr s => s
  | _ => column_text_other H v
  end.

(** The [url], [headers] and [payload] of [call_chatgpt]. *)
Definition chat_request (prompt : string) : Chat.request :=
  {| Chat.url := "https://api.openai.com/v1/chat/completions";
     Chat.authorization := Chat.bearer OPENAI_API_KEY;
     Chat.model := CHATGPT_MODEL;
     Chat.system_content := "You are ChatGPT-4. You are a helpful assistant.";
     Chat.user_content := prompt;
     Chat.temperature := "0.2" |}.

Definition call_chatgpt (svc : Chat.service) (prompt : string) (s : Chat.state)
  : string * Chat.state :=
  let req := chat_request prompt in
  let failed (e : exn) (s : Chat.state) :=
    ("Error calling ChatGPT: " ++ exn_str H e,
     Chat.emit {| Chat.lvl := Chat.ERROR;
                  Chat.msg := "Error calling ChatGPT: " ++ exn_str H e;
                  Chat.args := [] |} s) in
  let reply := svc (length (Chat.requests s)) req in
  let s := Chat.send req s in
  match reply with
  | Chat.PostRaises e => failed e s
  | Chat.PostJson data =>
      let s := Chat.emit {| Chat.lvl := Chat.INFO; Chat.msg := "OpenAI response: %s";
                            Chat.args := [py_str H data] |} s in
      match Chat.first_choice_len data with
      | Ok content => (content, s)
      | Raise e => failed e s
      end
  end.

Definition parse_chatgpt_response (response_text : string) (s : Chat.state)
  : string * string * Chat.state :=
  match parse_body response_text with
  | Ok (title, summary) => (title, summary, s)
  | Raise e =>
      ("Untitled", response_text,
       Chat.emit {| Chat.lvl := Chat.ERROR;
                    Chat.msg := "Error parsing ChatGPT response: " ++ exn_str H e;
                    Chat.args := [] |} s)
  end.

(** [ScrapedFBPost.query.filter_by(user_id=uid, post_id=key)]: the
    position of the first matching row. *)
Definition query_first (table : list ScrapedFBPost) (uid : Z) (key : value)
  : option (nat * ScrapedFBPost) :=
  list_find (λ r, user_id r = uid ∧ post_id r = column_text key) table.

(** [str(t.get('postId', t.get('id', '')))]. *)
Definition native_id (t : item) : value :=
  Py.get_or "postId" (Py.get_or "id" (VStr "") t) t.

(** [parser.parse(post_time_str).date()]; [None] when it raises. *)
Definition parsed_date (post_time_str : value) : option Z :=
  match post_time_str with
  | VStr s => DT.date <$> dtparse H s
  | _ => None
  end.

(** One iteration of the filtering loop over the raw items. *)
Definition loop_body (rows : list ScrapedFBPost) (today_date : Z) (user : User)
    (new_items : list item) (t : item) : list item :=
  let post_id := py_str H (native_id t) in
  let post_time_str := Py.get_or "time" (VStr "") t in
  if Py.truthy (VStr post_id) && Py.truthy post_time_str then
    match parsed_date post_time_str with
    | None => new_items
    | Some dt =>
        if negb (dt =? today_date)%Z then new_items
        else
          match query_first rows (id user) (VStr post_id) with
          | Some _ => new_items
          | None => (new_items ++ [t])%list
          end
    end
  else new_items.

Definition filter_loop (rows : list ScrapedFBPost) (today_date : Z) (user : User)
    (items : list item) : list item :=
  foldl (loop_body rows today_date user) [] items.

(** One iteration of the loop that fills [processed_data]. *)
Definition process (t : item) : result processed :=
  let media := Py.get_or "media" (VList []) t in
  thumbnail ←
    match media with
    | VList (m :: _) => Py.vget_or m "thumbnail" (VStr "")
    | _ => Ok (VStr "")
    end;
  let page_name_val := Py.get_or "pageName" (VStr "") t in
  let page_name_val :=
    match page_name_val with
    | VDict d => Py.get_or "name" (VStr "") d
    | _ => page_name_val
    end in
  profile_picture ← Py.vget_or (Py.get_or "user" (VDict ∅) t) "profilePic" (VStr "");
  Ok {| p_post_id := native_id t;
        p_page_name := page_name_val;
        p_post_url := Py.get_or "url" (VStr "") t;
        p_post_text := Py.get_or "text" (VStr "") t;
        p_time_of_posting := Py.get_or "time" (VStr "") t;
        p_number_of_likes := Py.get_or "likes" (VInt 0) t;
        p_number_of_comments := Py.get_or "comments" (VInt 0) t;
        p_number_of_shares := Py.get_or "shares" (VInt 0) t;
        p_first_post_picture := thumbnail;
        p_profile_picture := profile_picture;
        p_posttitle := "";
        p_chatgpt_output := "" |}.

(** [ScrapedFBPost(post_id=data["post_id"], user_id=user.id, ...)] as
    the table holds it. *)
Definition to_row (user : User) (data : processed) : ScrapedFBPost :=
  {| post_id := column_text (p_post_id data);
     user_id := id user;
     page_name := p_page_name data;
     post_url := p_post_url data;
     post_text := p_post_text data;
     time_of_posting := p_time_of_posting data;
     number_of_likes := p_number_of_likes data;
     number_of_comments := p_number_of_comments data;
     number_of_shares := p_number_of_shares data;
     first_post_picture := p_first_post_picture data;
     profile_picture := p_profile_picture data;
     posttitle := p_posttitle data;
     chatgpt_output := p_chatgpt_output data |}.

Definition prompt_for (fb_lang : string) (user : User) (fb_post : ScrapedFBPost) : string :=
  let page_name :=
    if Py.truthy (page_name fb_post) then py_str H (page_name fb_post)
    else str_or (name user) (email user) in
  let dq := PyStr.dq in
  let bs := PyStr.bs in
  let nl := PyStr.nl in
  "You are ChatGPT-4. Below is a Facebook post in its original language." ++ nl ++ nl
  ++ "Requirements:" ++ nl
  ++ "1) Begin the response with: " ++ dq ++ "Latest Facebook post from " ++ bs ++ dq
       ++ page_name ++ bs ++ dq ++ dq ++ nl
  ++ "2) Create an expanded article in " ++ fb_lang
       ++ " with a short title and a summary consisting of 3-5 sentences." ++ nl
  ++ "3) The title must include the Facebook page name (e.g., " ++ dq ++ page_name
       ++ ": [topic]" ++ dq ++ ")." ++ nl
  ++ "4) Under the header " ++ dq ++ "Article:" ++ dq
       ++ ", summarize the main content of the post including key details." ++ nl
  ++ "5) Use a formal and informative tone that emphasizes the significance or context of the post." ++ nl
  ++ "6) Finally, add a section " ++ dq ++ "Original Post:" ++ dq
       ++ " and include the full original post enclosed in quotes." ++ nl ++ nl
  ++ "Format your response exactly as follows:" ++ nl ++ nl
  ++ "Latest Facebook post from " ++ dq ++ page_name ++ dq ++ nl ++ nl
  ++ "Title: [Your generated title]" ++ nl ++ nl
  ++ "Article:" ++ nl ++ "[Your 3-5 sentence summary]" ++ nl ++ nl
  ++ "Original Post:" ++ nl ++ dq ++ py_str H (Py.por (post_text fb_post) (VStr "")) ++ dq.

(** One iteration of the enrichment loop: the row is looked up again
    by its key and the first match is assigned to. *)
Definition enrich_body (svc : Chat.service) (fb_lang : string) (user : User)
    (st : list ScrapedFBPost * Chat.state) (data : processed)
  : list ScrapedFBPost * Chat.state :=
  let '(table, s) := st in
  match query_first table (id user) (p_post_id data) with
  | Some (i, fb_post) =>
      let '(response, s) := call_chatgpt svc (prompt_for fb_lang user fb_post) s in
      let '(title, summary, s) := parse_chatgpt_response response s in
      (<[i := set_enrichment title summary fb_post]> table, s)
  | None => (table, s)
  end.

(** An invocation that ends before anything is committed. *)
Definition stopped (rows : list ScrapedFBPost) (s : stage) : run_end :=
  {| ended := s; rows_after := rows; accepted := []; chat := Chat.empty |}.

(** The invocation from [if not new_items] to its end: the mapping
    loop, the first commit, the enrichment loop and the second commit.
    Both commits are taken to succeed: a commit the database refuses (a
    null [post_id], a value the driver cannot bind) raises out of the
    invocation, which then does not return. *)
Definition persist_and_enrich (svc : Chat.service) (rows : list ScrapedFBPost)
    (user : User) (new_items : list item) : result run_end :=
  if Py.empty new_items then Ok (stopped rows NothingNew)
  else
    processed_data ← mapM process new_items;
    let committed := (rows ++ (to_row user <$> processed_data))%list in
    let user_lang_code := str_or (preferred_language_facebook user) "en" in
    let fb_lang := language_name user_lang_code in
    let '(table, s) :=
      foldl (enrich_body svc fb_lang user) (committed, Chat.empty) processed_data in
    Ok {| ended := Enriched; rows_after := table; accepted := new_items; chat := s |}.

(** [p.page_url for p in user.facebook_pages if p.page_url]. *)
Definition declared_pages (user : User) : list string :=
  omap (λ p, match page_url p with
             | Some u => if Py.truthy (VStr u) then Some u else None
             | None => None
             end) (facebook_pages user).

(** The invocation for one user.  [today_date] is
    [datetime.utcnow().date()], [rows] the committed table.  Every
    [Raise] happens before the first commit. *)
Definition scrape_and_store_fb_posts_for_user (today_date : Z) (act : actor)
    (svc : Chat.service) (rows : list ScrapedFBPost) (user : User) : result run_end :=
  let pages := declared_pages user in
  if Py.empty pages then Ok (stopped rows NoPages)
  else
    let run_input := {| startUrls := pages; resultsLimit := RESULTS_LIMIT;
                        apifyProxyGroups := ["RESIDENTIAL"] |} in
    match act run_input with
    | ActorRaises _ => Ok (stopped rows ActorFailed)
    | ActorRun None => Ok (stopped rows NoDataset)
    | ActorRun (Some (Raise e)) => Raise e
    | ActorRun (Some (Ok items)) =>
        if Py.empty items then Ok (stopped rows NoItems)
        else persist_and_enrich svc rows user (filter_loop rows today_date user items)
    end.

End Scraper.

End Facebook.

(** ** A sample host and sample data

    A host that knows a handful of timestamps around 2024-01-10, runs on
    Central European Time and splits plain [scheme://host/path] URLs.  It
    serves to run the pipeline on concrete inputs. *)

Module Sample.
Import Models.

(** 2024-01-10, in days since 0001-01-01. *)
Definition D0 : Z := 738894.

Definition at_ (day h m s : Z) : Z := day * DT.DAY + ((h * 60 + m) * 60 + s) * 1000000.

Definition HOUR : Z := 3600 * 1000000.

Definition utc (w : Z) : datetime := {| wall := w; tzoff := Some 0 |}.

(** The strings [datetime.fromisoformat] accepts on this host. *)
Definition iso_table : list (string * datetime) :=
  [ ("2024-01-10T00:00:00+00:00", utc (at_ D0 0 0 0));
    ("2024-01-10T09:00:00+00:00", utc (at_ D0 9 0 0));
    ("2024-01-11T00:00:00+00:00", utc (at_ (D0 + 1) 0 0 0));
    ("2024-01-10T09:00:00", {| wall := at_ D0 9 0 0; tzoff := None |});
    ("2024-01-10T02:00:00+05:00", {| wall := at_ D0 2 0 0; tzoff := Some (5 * HOUR) |}) ].

(** The strings dateutil accepts on this host: the above, their [Z]
    spellings and the actor's older format. *)
Definition dateutil_table : list (string * datetime) :=
  iso_table ++
  [ ("2024-01-10T00:00:00Z", utc (at_ D0 0 0 0));
    ("2024-01-10T09:00:00Z", utc (at_ D0 9 0 0));
    ("2024-01-11T00:00:00Z", utc (at_ (D0 + 1) 0 0 0));
    ("Wed Jan 10 09:00:00 +0000 2024", utc (at_ D0 9 0 0)) ].

Definition lookup_table (table : list (string * datetime)) (s : string) : option datetime :=
  snd <$> List.find (λ e, String.eqb (fst e) s) table.

(** The path of [scheme://host/path?query#fragment]; the whole input
    when there is no [://]. *)
Definition split_path (u : string) : string :=
  match PyStr.find_sub "://" u with
  | None => u
  | Some (_, rest) =>
      let after_host :=
        match PyStr.find_sub "/" rest with
        | Some (_, p) => "/" ++ p
        | None => ""
        end in
      let no_fragment := default "" (head (PyStr.split1 "#" after_host)) in
      default "" (head (PyStr.split1 "?" no_fragment))
  end.

Definition two_digits (n : Z) : string :=
  if (n <? 10)%Z then "0" ++ pretty n else pretty n.

Definition four_digits (n : Z) : string :=
  (if (n <? 10)%Z then "000" else if (n <? 100)%Z then "00"
   else if (n <? 1000)%Z then "0" else "") ++ pretty n.

(** [YYYY-MM-DD] of a day number, by the usual era arithmetic. *)
Definition isoformat (d : Z) : string :=
  let z := d + 306 in
  let era := z / 146097 in
  let doe := z - era * 146097 in
  let yoe := (doe - doe / 1460 + doe / 36524 - doe / 146096) / 365 in
  let doy := doe - (365 * yoe + yoe / 4 - yoe / 100) in
  let mp := (5 * doy + 2) / 153 in
  let day := doy - (153 * mp + 2) / 5 + 1 in
  let month := if (mp <? 10)%Z then mp + 3 else mp - 9 in
  let year := yoe + era * 400 + (if (month <=? 2)%Z then 1 else 0) in
  four_digits year ++ "-" ++ two_digits month ++ "-" ++ two_digits day.

Definition exn_text (e : exn) : string :=
  match e with
  | AttributeError => "object has no such attribute"
  | TypeError => "object is not subscriptable"
  | KeyError k => "'" ++ k ++ "'"
  | IndexError => "index out of range"
  | ValueError => "not enough values to unpack (expected 2, got 1)"
  | RequestError t => t
  end.

Definition cet : host :=
  {| str_container := λ _, "{...}";
     exn_str := exn_text;
     urlparse_path := λ u, Ok (split_path u);
     fromisoformat := lookup_table iso_table;
     dtparse := lookup_table dateutil_table;
     local_utcoffset := λ _, Some HOUR;
     date_isoformat := isoformat;
     column_text_other := λ v, match v with VInt z => pretty z | _ => "" end;
     autoflush := true |}.

Definition cfg (key : option string) (since_days : Z) : Twitter.config :=
  {| Twitter.OPENAI_API_KEY := key;
     Twitter.CHATGPT_MODEL := "gpt-4-turbo";
     Twitter.ACTOR_ID := "apidojo/tweet-scraper";
     Twitter.SINCE_DAYS := since_days;
     Twitter.DEFAULT_MAX_ITEMS := 250;
     Twitter.EXTRA_QUERY := "";
     Twitter.USE_SEARCH_TERMS := false |}.

Definition alice : User :=
  {| id := 1; email := "alice@example.org"; name := Some "Alice";
     preferred_language := Some "de"; preferred_language_facebook := None;
     twitter_profiles := [ {| twitter_handle := Some "@user" |} ];
     facebook_pages := [ {| page_url := Some "https://facebook.com/page" |} ] |}.

Definition tweet (tid created text : string) : item :=
  {[ "id" := VStr tid; "createdAt" := VStr created; "text" := VStr text ]}.

(** The two items of the scenario of the specification. *)
Definition item_A : item := tweet "A" "2024-01-10T09:00:00Z" "first".
Definition item_B : item := tweet "B" "2024-01-11T00:00:00Z" "second".

(** An item dated exactly at the start of 2024-01-10. *)
Definition item_C : item := tweet "C" "2024-01-10T00:00:00Z" "third".

Definition demo_item : item := {[ "demo" := VBool true ]}.
Definition demo_typed_item : item := {[ "demo" := VBool true; "type" := VStr "tweet" ]}.

Definition post (pid time text : string) : item :=
  {[ "postId" := VStr pid; "time" := VStr time; "text" := VStr text ]}.

(** A post written at 02:00 local time, five hours ahead of UTC: the
    moment is 2024-01-09T21:00:00Z. *)
Definition post_east : item := post "p1" "2024-01-10T02:00:00+05:00" "east".

Definition post_utc : item := post "p2" "2024-01-10T09:00:00Z" "noon".

(** The records the Twitter pipeline builds from [item_A] and [item_C]. *)
Definition record (tid text : string) (created : datetime) : ScrapedTweet :=
  {| tweet_id := tid; user_id := 1; text := text; full_text := VStr text;
     lang := VStr ""; retweet_count := VInt 0; reply_count := VInt 0;
     like_count := VInt 0; quote_count := VInt 0; created_at := created;
     author_name := VStr ""; author_username := VStr ""; photo_url := VStr "";
     chatgpt_title := None; chatgpt_output := None |}.
Definition record_A : ScrapedTweet := record "A" "first" (utc (at_ D0 9 0 0)).
Definition record_C : ScrapedTweet := record "C" "third" (utc (at_ D0 0 0 0)).

(** An actor that returns the same dataset whatever it is asked. *)
Definition tw_actor (items : list item) : Twitter.actor :=
  λ _, ActorRun (Some (Ok items)).
Definition fb_actor (items : list item) : Facebook.actor :=
  λ _, ActorRun (Some (Ok items)).

(** A service whose every call fails in transport. *)
Definition svc_down : Chat.service :=
  λ _ _, Chat.PostRaises (RequestError "connection timed out").

(** A service that answers with an error body and no choices. *)
Definition svc_unauthorized : Chat.service :=
  λ _ _, Chat.PostJson (VDict {[ "error" := VStr "invalid api key" ]}).

Definition reply (content : string) : Chat.post_outcome :=
  Chat.PostJson
    (VDict {[ "choices" :=
                VList [ VDict {[ "message" := VDict {[ "content" := VStr content ]} ]} ] ]}).

(** A service whose first call fails in transport and whose later calls
    answer. *)
Definition svc_first_fails : Chat.service :=
  λ n _, match n with
         | O => Chat.PostRaises (RequestError "connection timed out")
         | _ => reply "A summary. Post Title: A title"
         end.

End Sample.

(** ** The two attempts of the timestamp normalizer, named *)

Module Attempt.

(** The ISO attempt: parse with [Z] rewritten, then convert to UTC. *)
Definition iso_attempt (H : host) (s : string) : option datetime :=
  fromisoformat H (PyStr.replace "Z" "+00:00" s) ≫= astimezone_utc H.

(** The dateutil attempt: a naive result is labelled UTC, an aware one
    is converted. *)
Definition dateutil_attempt (H : host) (s : string) : option datetime :=
  dt ← dtparse H s;
  match tzoff dt with
  | None => Some (DT.replace_tzinfo_utc dt)
  | Some _ => astimezone_utc H dt
  end.

End Attempt.

(** ** What one reply does to one record, named *)

Module Outcome.
Import Models.

(** The text [call_chatgpt] returns for a reply of the service. *)
Definition response_of (H : host) (reply : Chat.post_outcome) : string :=
  match reply with
  | Chat.PostRaises e => "Error calling ChatGPT: " ++ exn_str H e
  | Chat.PostJson data =>
      match Chat.first_choice data with
      | Ok content => content
      | Raise e => "Error calling ChatGPT: " ++ exn_str H e
      end
  end.

(** The records [call_chatgpt] of the Twitter pipeline logs for a reply. *)
Definition failure_record (H : host) (e : exn) : Chat.log_record :=
  {| Chat.lvl := Chat.ERROR; Chat.msg := "Error calling ChatGPT: %s";
     Chat.args := [exn_str H e] |}.

Definition response_record (H : host) (data : value) : Chat.log_record :=
  {| Chat.lvl := Chat.INFO; Chat.msg := "OpenAI response: %s";
     Chat.args := [py_str H data] |}.

Definition log_of (H : host) (reply : Chat.post_outcome) : list Chat.log_record :=
  match reply with
  | Chat.PostRaises e => [failure_record H e]
  | Chat.PostJson data =>
      response_record H data
      :: match Chat.first_choice data with
         | Ok _ => []
         | Raise e => [failure_record H e]
         end
  end.

(** The decoded body offers no choice: the key [choices] is absent or its
    value is false. *)
Definition no_choices (data : value) : bool :=
  match Py.contains_key "choices" data with
  | Ok true =>
      match Py.index_key data "choices" with
      | Ok choices => negb (Py.truthy choices)
      | Raise _ => false
      end
  | Ok false => true
  | Raise _ => false
  end.

(** The replies that are failures, with the text [call_chatgpt] returns
    for them and the record that logs them: an exception of the transport
    or of the decoding, a body that cannot be read, a body without
    choices. *)
Definition failure (H : host) (reply : Chat.post_outcome)
  : option (string * Chat.log_record) :=
  match reply with
  | Chat.PostRaises e => Some ("Error calling ChatGPT: " ++ exn_str H e, failure_record H e)
  | Chat.PostJson data =>
      match Chat.first_choice data with
      | Raise e => Some ("Error calling ChatGPT: " ++ exn_str H e, failure_record H e)
      | Ok _ =>
          if no_choices data
          then Some ("No response from ChatGPT.", response_record H data)
          else None
      end
  end.

(** Whether the Twitter pipeline counts a response as summarized. *)
Definition counted (response : string) : bool :=
  let '(title, summary) := Twitter.parse_chatgpt_response response in
  Py.truthy (VStr title) && Py.truthy (VStr summary).

(** The record of the Twitter pipeline after a response was parsed and
    assigned. *)
Definition apply_response (response : string) (r : ScrapedTweet) : ScrapedTweet :=
  let '(title, summary) := Twitter.parse_chatgpt_response response in
  if Py.truthy (VStr title) && Py.truthy (VStr summary)
  then Twitter.set_enrichment title summary r
  else r.

(** The reply to the request for a record when that request is the
    [n]-th of the invocation, and the record this reply leaves. *)
Definition reply_at (H : host) (cfg : Twitter.config) (svc : Chat.service)
    (lang_name : string) (n : nat) (r : ScrapedTweet) : Chat.post_outcome :=
  svc n (Twitter.chat_request cfg (Twitter.prompt_for H lang_name r)).

Definition enriched_at (H : host) (cfg : Twitter.config) (svc : Chat.service)
    (lang_name : string) (n : nat) (r : ScrapedTweet) : ScrapedTweet :=
  apply_response (response_of H (reply_at H cfg svc lang_name n r)) r.

(** Whether the loop counts the record [r] as summarized when the
    request for it is the [n]-th of the invocation. *)
Definition counted_at (H : host) (cfg : Twitter.config) (svc : Chat.service)
    (lang_name : string) (n : nat) (r : ScrapedTweet) : bool :=
  counted (response_of H (reply_at H cfg svc lang_name n r)).

(** The number of records of [items] the loop counts as summarized when
    the request for the first of them is the [n]-th of the invocation. *)
Fixpoint count_from (H : host) (cfg : Twitter.config) (svc : Chat.service)
    (lang_name : string) (n : nat) (items : list ScrapedTweet) : nat :=
  match items with
  | [] => 0
  | r :: rest =>
      ((if counted_at H cfg svc lang_name n r then 1 else 0)
       + count_from H cfg svc lang_name (S n) rest)%nat
  end.

(** A record whose enrichment columns are unset. *)
Definition unset (r : ScrapedTweet) : Prop :=
  chatgpt_title r = None ∧ chatgpt_output r = None.

End Outcome.

(** ** Items that reach the window test, and what a run leaves *)

Module Reach.
Import Models.



(** The Twitter table holds a record with the key [(uid, tid)]. *)
Definition key_in (table : list ScrapedTweet) (uid : Z) (tid : string) : Prop :=
  ∃ r, r ∈ table ∧ user_id r = uid ∧ tweet_id r = tid.

(** The Facebook table holds a row with the key [(uid, key)]. *)
Definition fb_key_in (table : list Facebook.ScrapedFBPost) (uid : Z) (key : string) : Prop :=
  ∃ r, r ∈ table ∧ Facebook.user_id r = uid ∧ Facebook.post_id r = key.

(** The tests of the Facebook loop that come before the existence
    query: an id, a timestamp, and a timestamp dated today. *)
Definition facebook_passes (H : host) (today_date : Z) (t : item) : bool :=
  Py.truthy (VStr (py_str H (Facebook.native_id t)))
  && Py.truthy (Py.get_or "time" (VStr "") t)
  && match Facebook.parsed_date H (Py.get_or "time" (VStr "") t) with
     | Some dt => (dt =? today_date)%Z
     | None => false
     end.

(** The table keeps the native id of an item as the text the filter
    looks up. *)
Definition id_kept_as_text (H : host) (t : item) : Prop :=
  Facebook.column_text H (Facebook.native_id t) = py_str H (Facebook.native_id t).

(** The window of a Twitter invocation run on the day [today]. *)
Definition start_utc (cfg : Twitter.config) (today : Z) : datetime :=
  DT.combine_utc (today + 1 - Twitter.SINCE_DAYS cfg).
Definition until_utc (today : Z) : datetime := DT.combine_utc (today + 1).

(** What a run leaves in the table and with the service. *)
Definition twitter_left (r : Twitter.run_end)
  : list ScrapedTweet * list ScrapedTweet * Chat.state :=
  (Twitter.rows_after r, Twitter.inserted r, Twitter.chat r).
Definition facebook_left (r : Facebook.run_end)
  : list Facebook.ScrapedFBPost * list item * Chat.state :=
  (Facebook.rows_after r, Facebook.accepted r, Facebook.chat r).

End Reach.

(** ** Properties stated by the specification, in its own words *)

Module Spec.

(** "strip a single leading [@]". *)
Definition strip_single_at (s : string) : string :=
  match s with
  | String "@" rest => rest
  | _ => s
  end.

(** "the item's key set is exactly [{demo}] or exactly [{demo, type}]". *)
Definition demo_keys (t : item) : Prop :=
  dom t = ({[ "demo" ]} : gset string) ∨ dom t = ({[ "demo"; "type" ]} : gset string).

End Spec.

(** ** What a run is measured by *)

Module Tally.
Import Models.

(** The items the filtering loop of the Twitter pipeline discarded, all
    five counters together. *)
Definition discard_total (c : Twitter.stats) : nat :=
  (Twitter.demo c + Twitter.missing c + Twitter.out_of_window c
   + Twitter.non_tweet c + Twitter.duplicates c)%nat.

(** The key the existence check of the Twitter pipeline looks up. *)
Definition key (r : ScrapedTweet) : Z * string := (user_id r, tweet_id r).

(** The key the existence check of the Facebook pipeline looks up. *)
Definition fb_key (r : Facebook.ScrapedFBPost) : Z * string :=
  (Facebook.user_id r, Facebook.post_id r).

(** A record as the filtering loop built it: the enrichment columns
    are put back to unset. *)
Definition ingested (r : ScrapedTweet) : ScrapedTweet :=
  {| tweet_id := tweet_id r; user_id := user_id r; text := text r;
     full_text := full_text r; lang := lang r; retweet_count := retweet_count r;
     reply_count := reply_count r; like_count := like_count r;
     quote_count := quote_count r; created_at := created_at r;
     author_name := author_name r; author_username := author_username r;
     photo_url := photo_url r;
     chatgpt_title := None; chatgpt_output := None |}.

(** A record with both enrichment columns set, to non-empty texts. *)
Definition enriched (r : ScrapedTweet) : Prop :=
  ∃ title summary, chatgpt_title r = Some title ∧ chatgpt_output r = Some summary
                   ∧ title ≠ "" ∧ summary ≠ "".

(** A record the enrichment loop assigned to. *)
Definition titled (r : ScrapedTweet) : bool :=
  match chatgpt_title r with Some _ => true | None => false end.

(** A value a chain [a or b or ""] can yield: true, or the empty str. *)
Definition or_empty (v : value) : Prop := Py.truthy v = true ∨ v = VStr "".

(** A truthy object without the method [get]. *)
Definition no_get (v : value) : bool :=
  Py.truthy v && match v with VDict _ => false | _ => true end.

End Tally.

Module Reached.
Import Models.

(** The record [r] is what the Twitter loop builds from the item [t]:
    [t] passes the demo, type, id, timestamp and window tests and the
    mapper returns [r]. *)
Definition accepted (H : host) (start_utc until_utc : datetime) (user : User)
    (t : item) (r : ScrapedTweet) : Prop :=
  ∃ raw dt,
    _is_demo_item t = false
    ∧ Py.truthy (Py.get "type" t) && Twitter.differs_from_str (Py.get "type" t) "tweet"
      = false
    ∧ Twitter.native_id H t ≠ ""
    ∧ _pick_timestamp_raw t = Ok raw
    ∧ _parse_timestamp H raw = Some dt
    ∧ Twitter.in_window start_utc until_utc dt = true
    ∧ Twitter.make_record user t (Twitter.native_id H t) dt = Ok r.

(** The item [t] passes every test of the Facebook loop: an id, a
    timestamp dated today, and no row with its key in the table. *)
Definition facebook_accepts (H : host) (rows : list Facebook.ScrapedFBPost)
    (today_date : Z) (user : User) (t : item) : bool :=
  Reach.facebook_passes H today_date t
  && match Facebook.query_first H rows (id user)
             (VStr (py_str H (Facebook.native_id t))) with
     | Some _ => false
     | None => true
     end.

(** The first element of [media] is no dict, or [user] is present and no
    dict: what makes [process] fail on an item. *)
Definition facebook_unreadable (t : item) : Prop :=
  (∃ m rest, Py.get_or "media" (VList []) t = VList (m :: rest) ∧ ∀ d, m ≠ VDict d)
  ∨ (∃ u, t !! "user" = Some u ∧ ∀ d, u ≠ VDict d).

End Reached.

(** ** Items and replies that probe the edges *)

Module Probe.

(** An item without a top-level timestamp whose [legacy] is a text. *)
Definition legacy_text_item : item :=
  {[ "id" := VStr "M"; "legacy" := VStr "Wed Jan 10 09:00:00 +0000 2024" ]}.

(** An item whose author has a user name, beside a [user] that is a text. *)
Definition authored_item : item :=
  {[ "author" := VDict {[ "name" := VStr "Ann"; "username" := VStr "ann" ]};
     "user" := VStr "ann" ]}.

(** An item with a photo under [entities] and a text under
    [extendedEntities]. *)
Definition photo_item : item :=
  {[ "entities" :=
       VDict {[ "media" := VList [VDict {[ "media_url_https" := VStr "https://p/1.jpg" ]}] ]};
     "extendedEntities" := VStr "none" ]}.

(** An item whose [fullText] has white space around it. *)
Definition padded_item : item := {[ "fullText" := VStr "  hello  " ]}.

(** A post dated today whose [user] is null. *)
Definition null_user_post : item :=
  {[ "postId" := VStr "p3"; "time" := VStr "2024-01-10T09:00:00Z"; "user" := VNull ]}.

End Probe.

(** ** The two [main] functions

    [main] reads the users once and runs the invocation for each of them
    in turn; an exception leaves [main] and ends the sweep.  The day, the
    actor and the service are what they are at each invocation, counted
    from [k]. *)

Module Sweep.
Import Models.

Fixpoint twitter_main (H : host) (cfg : Twitter.config) (today : nat → Z)
    (act : nat → Twitter.actor) (svc : nat → Chat.service) (k : nat)
    (rows : list ScrapedTweet) (users : list User)
  : list ScrapedTweet * option exn :=
  match users with
  | [] => (rows, None)
  | user :: rest =>
      match Twitter.scrape_and_store_tweets_for_user H cfg (today k) (act k) (svc k)
              rows user with
      | Ok r => twitter_main H cfg today act svc (S k) (Twitter.rows_after r) rest
      | Raise e => (rows, Some e)
      end
  end.

Fixpoint facebook_main (H : host) (key : option string) (today_date : nat → Z)
    (act : nat → Facebook.actor) (svc : nat → Chat.service) (k : nat)
    (rows : list Facebook.ScrapedFBPost) (users : list User)
  : list Facebook.ScrapedFBPost * option exn :=
  match users with
  | [] => (rows, None)
  | user :: rest =>
      match Facebook.scrape_and_store_fb_posts_for_user H key (today_date k) (act k)
              (svc k) rows user with
      | Ok r => facebook_main H key today_date act svc (S k) (Facebook.rows_after r) rest
      | Raise e => (rows, Some e)
      end
  end.

End Sweep.

(** * Properties *)

(** ** Facts about the string operations *)

Module PyStrFacts.
Import PyStr.

Lemma app_cons (c : ascii) (a b : string) :
  String c a ++ b = String c (a ++ b).
Proof. reflexivity. Qed.

Lemma prefix_sdrop (sep s : string) :
  String.prefix sep s = true → s = sep ++ sdrop (String.length sep) s.
Proof.
  revert s. induction sep as [|c sep IH]; intros s Hp; [done|].
  destruct s as [|d s]; [done|]. simpl in Hp.
  destruct (Ascii.ascii_dec c d) as [->|]; [|done].
  rewrite app_cons. simpl. f_equal. by apply IH.
Qed.

Lemma find_sub_eq (sep s : string) :
  find_sub sep s =
    if String.prefix sep s then Some (EmptyString, sdrop (String.length sep) s)
    else match s with
         | EmptyString => None
         | String c rest =>
             match find_sub sep rest with
             | Some (a, b) => Some (String c a, b)
             | None => None
             end
         end.
Proof. by destruct s. Qed.

(** [find_sub] cuts the text around an occurrence of the separator. *)
Lemma find_sub_cut (sep s a b : string) :
  find_sub sep s = Some (a, b) → s = a ++ sep ++ b.
Proof.
  revert a b. induction s as [|c s IH]; intros a b; rewrite find_sub_eq.
  - destruct (String.prefix sep "") eqn:Hp; [|done].
    intros [= <- <-]. by apply prefix_sdrop in Hp.
  - destruct (String.prefix sep (String c s)) eqn:Hp.
    + intros [= <- <-]. by apply prefix_sdrop in Hp.
    + destruct (find_sub sep s) as [[a' b']|]; [|done].
      intros [= <- <-]. rewrite app_cons. f_equal. by apply IH.
Qed.

(** The text before the cut holds no occurrence of a one-character
    separator. *)
Lemma find_sub_char_before (c : ascii) (s a b : string) :
  find_sub (String c "") s = Some (a, b) → mem c a = false.
Proof.
  revert a b. induction s as [|d s IH]; intros a b; simpl; [done|].
  destruct (Ascii.ascii_dec c d) as [->|Hne].
  - destruct s; intros [= <- <-]; done.
  - destruct (find_sub (String c "") s) as [[a' b']|]; [|done].
    intros [= <- <-]. simpl. rewrite (IH a' b' eq_refl).
    destruct (Ascii.eqb_spec c d); done.
Qed.

Lemma find_sub_char_none (c : ascii) (s : string) :
  find_sub (String c "") s = None → mem c s = false.
Proof.
  induction s as [|d s IH]; simpl; [done|].
  destruct (Ascii.ascii_dec c d) as [->|Hne].
  - by destruct s.
  - destruct (find_sub (String c "") s) as [[a' b']|]; [done|].
    intros _. rewrite IH by done. destruct (Ascii.eqb_spec c d); done.
Qed.

(** [lstrip] removes a run of strippable characters and stops at the
    first character that is not strippable. *)
Lemma lstrip_by_spec (p : ascii → bool) (s : string) :
  ∃ pre, s = pre ++ lstrip_by p s
         ∧ (∀ c, mem c pre = true → p c = true)
         ∧ match lstrip_by p s with
           | EmptyString => True
           | String c _ => p c = false
           end.
Proof.
  induction s as [|c s (pre & Heq & Hpre & Hhd)]; simpl.
  - exists "". done.
  - destruct (p c) eqn:Hc.
    + exists (String c pre). split_and!; [rewrite app_cons; by f_equal|..|done].
      intros d. simpl. destruct (Ascii.eqb_spec d c) as [->|]; auto.
    + exists "". done.
Qed.

Lemma lstrip_by_fixed (p : ascii → bool) (s : string) :
  match s with EmptyString => True | String c _ => p c = false end →
  lstrip_by p s = s.
Proof. destruct s as [|c s]; simpl; [done|]. by intros ->. Qed.

Lemma lstrip_by_idem (p : ascii → bool) (s : string) :
  lstrip_by p (lstrip_by p s) = lstrip_by p s.
Proof.
  apply lstrip_by_fixed. by destruct (lstrip_by_spec p s) as (_ & _ & _ & ?).
Qed.

(** A text that contains the separator splits into two parts at least. *)
Lemma split_two_parts (sep s : string) :
  sep ≠ "" → contains sep s = true →
  ∃ a b rest, split sep s = a :: b :: rest.
Proof.
  intros Hsep. unfold contains, split.
  destruct (find_sub sep s) as [[a b]|] eqn:Hf; [intros _|done].
  destruct s as [|c s].
  - simpl in Hf. destruct sep; [done|]. done.
  - simpl String.length. cbn [split_fuel]. rewrite Hf.
    exists a. destruct (String.length s); cbn [split_fuel].
    + by exists b, [].
    + destruct (find_sub sep b) as [[a' b']|]; eauto.
Qed.

Lemma split_no_sep (sep s : string) :
  contains sep s = false → split sep s = [s].
Proof.
  unfold contains, split.
  destruct (find_sub sep s) eqn:Hf; [done|intros _].
  destruct (String.length s); cbn [split_fuel]; by rewrite ?Hf.
Qed.

End PyStrFacts.

(** ** The demo-row predicate *)

Section DemoItem.

Lemma demo_keys_no_content (t : item) (k : string) :
  dom t = ({[ "demo"; "type" ]} : gset string) →
  k ∈ ["id"; "text"; "fullText"] → bool_decide (is_Some (t !! k)) = false.
Proof.
  intros Hdom Hk. apply bool_decide_eq_false. rewrite <-elem_of_dom, Hdom.
  rewrite elem_of_union, !elem_of_singleton.
  apply list_elem_of_In in Hk. simpl in Hk.
  intros [->| ->]; destruct Hk as [|[|[|[]]]]; done.
Qed.

(** The conjunct about [id], [text] and [fullText] is true whenever it is
    evaluated. *)
Lemma is_demo_item_eq (t : item) :
  _is_demo_item t
  = bool_decide (dom t = ({[ "demo" ]} : gset string))
    || bool_decide (dom t = ({[ "demo"; "type" ]} : gset string)).
Proof.
  unfold _is_demo_item. f_equal.
  destruct (bool_decide (dom t = {[ "demo"; "type" ]})) eqn:Hd; [|done].
  apply bool_decide_eq_true in Hd. cbn [existsb andb].
  rewrite !(demo_keys_no_content t _ Hd); [done|apply list_elem_of_In; simpl; tauto..].
Qed.

Lemma is_demo_item_iff (t : item) : _is_demo_item t = true ↔ Spec.demo_keys t.
Proof.
  rewrite is_demo_item_eq, orb_true_iff, !bool_decide_eq_true. done.
Qed.

(** C10.  The demo-row predicate is a test of the key set alone: it
    holds exactly for the items whose keys are [{demo}] or
    [{demo, type}], and the conjunct about [id], [text] and [fullText]
    never changes its value. *)
Theorem is_demo_item_key_set (t : item) :
  (_is_demo_item t = true ↔ Spec.demo_keys t)
  ∧ _is_demo_item t
    = bool_decide (dom t = ({[ "demo" ]} : gset string))
      || bool_decide (dom t = ({[ "demo"; "type" ]} : gset string)).
Proof. split; [apply is_demo_item_iff|apply is_demo_item_eq]. Qed.

End DemoItem.

(** ** The handle normalizer *)

Section NormalizeHandle.

Variable H : host.

Lemma normalize_handle_empty : _normalize_handle H "" = Ok "".
Proof. reflexivity. Qed.

(** A reference that does not begin with [http] once trimmed. *)
Lemma normalize_handle_plain (h : string) :
  h ≠ "" → PyStr.startswith "http" (PyStr.strip h) = false →
  _normalize_handle H h = Ok (PyStr.lstrip_chars "@" (PyStr.strip h)).
Proof.
  intros Hh Hs. unfold _normalize_handle. destruct h; [done|].
  cbn [Py.truthy String.eqb negb]. by rewrite Hs.
Qed.

(** A reference that begins with [http] once trimmed. *)
Lemma normalize_handle_url (h p : string) :
  h ≠ "" → PyStr.startswith "http" (PyStr.strip h) = true →
  urlparse_path H (PyStr.strip h) = Ok p →
  _normalize_handle H h
  = Ok (PyStr.lstrip_chars "@"
          (default "" (head (PyStr.split1 "/" (PyStr.strip_chars "/" p))))).
Proof.
  intros Hh Hs Hp. unfold _normalize_handle. destruct h; [done|].
  cbn [Py.truthy String.eqb negb]. rewrite Hs, Hp. cbn [mbind result_bind].
  destruct (PyStr.strip_chars "/" p) eqn:Hpath; [done|]. done.
Qed.

(** The text before the first [/] of a path: it holds no [/], and the
    path is that text alone or that text, a [/] and a remainder. *)
Lemma first_segment_spec (path : string) :
  let seg := default "" (head (PyStr.split1 "/" path)) in
  PyStr.mem "/" seg = false ∧ (path = seg ∨ ∃ rest, path = seg ++ "/" ++ rest).
Proof.
  unfold PyStr.split1. destruct (PyStr.find_sub "/" path) as [[a b]|] eqn:Hf; simpl.
  - split; [by eapply PyStrFacts.find_sub_char_before|].
    right. exists b. by apply PyStrFacts.find_sub_cut.
  - split; [by apply PyStrFacts.find_sub_char_none|by left].
Qed.

(** The output never begins with [@], whatever the input. *)
Lemma normalize_handle_no_at (h out : string) :
  _normalize_handle H h = Ok out → PyStr.lstrip_chars "@" out = out.
Proof.
  unfold _normalize_handle.
  destruct (negb _); [by intros [= <-]|].
  destruct (PyStr.startswith _ _).
  - destruct (urlparse_path H _); [|done]. cbn [mbind result_bind].
    intros [= <-]. apply PyStrFacts.lstrip_by_idem.
  - intros [= <-]. apply PyStrFacts.lstrip_by_idem.
Qed.

(** C9 (amended).  Applying the normalizer to its own output returns the
    output unchanged whenever that output carries no surrounding white
    space and does not begin with [http]. *)
Theorem normalize_handle_idempotent_on_clean_output (h out : string) :
  _normalize_handle H h = Ok out →
  PyStr.strip out = out →
  PyStr.startswith "http" out = false →
  _normalize_handle H out = Ok out.
Proof.
  intros Hout Hstrip Hhttp.
  destruct out as [|c out]; [done|].
  rewrite normalize_handle_plain; rewrite ?Hstrip; [|done..].
  f_equal. by eapply normalize_handle_no_at.
Qed.

(** C4 (amended).  The three reference shapes of one identifier give the
    bare identifier, on a host whose [urlparse] finds the path [/user] in
    the URL.  In general a reference that begins with [http] once trimmed
    gives the first segment of the URL path with every leading [@]
    removed, and any other reference gives the trimmed input with every
    leading [@] removed. *)
Theorem normalize_handle_shapes :
  urlparse_path H "https://service/user" = Ok "/user" →
  (_normalize_handle H "@user" = Ok "user"
   ∧ _normalize_handle H "https://service/user" = Ok "user"
   ∧ _normalize_handle H "user" = Ok "user")
  ∧ (∀ h p, h ≠ "" → PyStr.startswith "http" (PyStr.strip h) = true →
       urlparse_path H (PyStr.strip h) = Ok p →
       ∃ seg, _normalize_handle H h = Ok (PyStr.lstrip_chars "@" seg)
              ∧ PyStr.mem "/" seg = false
              ∧ (PyStr.strip_chars "/" p = seg
                 ∨ ∃ rest, PyStr.strip_chars "/" p = seg ++ "/" ++ rest))
  ∧ (∀ h, h ≠ "" → PyStr.startswith "http" (PyStr.strip h) = false →
       ∃ ats out, _normalize_handle H h = Ok out
                  ∧ PyStr.strip h = ats ++ out
                  ∧ (∀ c, PyStr.mem c ats = true → c = "@"%char)
                  ∧ PyStr.startswith "@" out = false).
Proof.
  intros Hurl. split_and!.
  - reflexivity.
  - rewrite (normalize_handle_url _ "/user"); done.
  - reflexivity.
  - intros h p Hh Hs Hp. eexists. split; [by apply normalize_handle_url|].
    apply first_segment_spec.
  - intros h Hh Hs.
    destruct (PyStrFacts.lstrip_by_spec (λ c, PyStr.mem c "@") (PyStr.strip h))
      as (ats & Heq & Hats & Hhd).
    exists ats, (PyStr.lstrip_chars "@" (PyStr.strip h)).
    split_and!; [by apply normalize_handle_plain|done|..].
    + intros c Hc. apply Hats in Hc. simpl in Hc.
      destruct (Ascii.eqb_spec c "@"); [done|]. done.
    + unfold PyStr.lstrip_chars. destruct (PyStr.lstrip_by _ _) as [|c r]; [done|].
      unfold PyStr.startswith.
      change (String.prefix "@" (String c r))
        with (if Ascii.ascii_dec "@" c then String.prefix "" r else false).
      destruct (Ascii.ascii_dec "@" c) as [<-|]; [|done]. by cbn in Hhd.
Qed.

End NormalizeHandle.

Lemma normalize_handle_idempotent_on_clean_output_witness :
  (_normalize_handle Sample.cet "@user" = Ok "user"
   ∧ PyStr.strip "user" = "user"
   ∧ PyStr.startswith "http" "user" = false)
  ∧ _normalize_handle Sample.cet "user" = Ok "user".
Proof.
  split; [by vm_compute|].
  apply (normalize_handle_idempotent_on_clean_output Sample.cet "@user" "user");
    reflexivity.
Defined.

(** C9, as first stated, fails: the output of ["@ user"] is [" user"],
    which the normalizer trims to ["user"]. *)
Lemma normalize_handle_not_idempotent :
  ¬ (∀ (H : host) (h : string),
       _normalize_handle H h ≫= _normalize_handle H = _normalize_handle H h).
Proof.
  intros Hidem. specialize (Hidem Sample.cet "@ user").
  vm_compute in Hidem. discriminate Hidem.
Qed.

Lemma normalize_handle_shapes_witness :
  urlparse_path Sample.cet "https://service/user" = Ok "/user"
  ∧ _normalize_handle Sample.cet "@user" = Ok "user"
  ∧ _normalize_handle Sample.cet "https://service/user" = Ok "user"
  ∧ _normalize_handle Sample.cet "user" = Ok "user".
Proof.
  split; [reflexivity|].
  exact (proj1 (normalize_handle_shapes Sample.cet eq_refl)).
Defined.

(** C4, as first stated, fails on its general rule: a reference with two
    leading [@] loses both, not a single one. *)
Lemma normalize_handle_strips_every_at :
  ¬ (∀ (H : host) (h : string),
       PyStr.startswith "http" h = false →
       _normalize_handle H h = Ok (Spec.strip_single_at h)).
Proof.
  intros Hrule. specialize (Hrule Sample.cet "@@user" eq_refl).
  vm_compute in Hrule. discriminate Hrule.
Qed.

(** ** The timestamp normalizer *)

Section ParseTimestamp.

Variable H : host.

Abbreviation iso_attempt := (Attempt.iso_attempt H).
Abbreviation dateutil_attempt := (Attempt.dateutil_attempt H).

(** The order of resolution: the ISO attempt, then dateutil, then
    nothing. *)
Lemma parse_timestamp_order (s : string) :
  s ≠ "" →
  _parse_timestamp H (VStr s)
  = match iso_attempt s with
    | Some dt => Some dt
    | None => dateutil_attempt s
    end.
Proof.
  intros Hs. unfold _parse_timestamp, iso_attempt, dateutil_attempt,
    Attempt.iso_attempt, Attempt.dateutil_attempt.
  destruct s; [done|]. cbn [Py.truthy String.eqb negb].
  destruct (fromisoformat H _ ≫= astimezone_utc H); [done|].
  by destruct (dtparse H _).
Qed.

Lemma parse_timestamp_empty : _parse_timestamp H (VStr "") = None.
Proof. reflexivity. Qed.

Lemma astimezone_utc_aware (dt dt' : datetime) :
  astimezone_utc H dt = Some dt' → tzoff dt' = Some 0.
Proof.
  unfold astimezone_utc.
  destruct (match tzoff dt with Some _ => _ | None => _ end); [|done].
  cbn. destruct (DT.in_range _); [|done]. by intros [= <-].
Qed.

(** Every successful parse is an aware UTC datetime. *)
Lemma parse_timestamp_aware (v : value) (dt : datetime) :
  _parse_timestamp H v = Some dt → tzoff dt = Some 0.
Proof.
  unfold _parse_timestamp. destruct (negb _); [done|].
  destruct v as [| | |s| |]; try done.
  destruct (fromisoformat H _ ≫= astimezone_utc H) as [dt0|] eqn:Hiso.
  - intros [= <-]. destruct (fromisoformat H _) as [d|]; [|done].
    by eapply astimezone_utc_aware.
  - destruct (dtparse H s) as [d|]; [|done].
    destruct (tzoff d) eqn:Hd.
    + apply astimezone_utc_aware.
    + by intros [= <-].
Qed.

(** A naive timestamp that only dateutil accepts is assumed UTC. *)
Lemma parse_timestamp_naive_dateutil (s : string) (dt : datetime) :
  s ≠ "" → iso_attempt s = None → dtparse H s = Some dt → tzoff dt = None →
  _parse_timestamp H (VStr s) = Some {| wall := wall dt; tzoff := Some 0 |}.
Proof.
  intros Hs Hiso Hdt Hnaive. rewrite parse_timestamp_order, Hiso by done.
  unfold Attempt.dateutil_attempt. rewrite Hdt. cbn. by rewrite Hnaive.
Qed.

(** C3, where the code departs from it.  A naive timestamp that the ISO
    parser accepts is converted with [astimezone], which reads it in the
    time zone of the host: the result is the wall-clock reading minus the
    host's offset, and is the UTC reading of the same wall clock only
    when that offset is zero. *)
Theorem parse_timestamp_naive_iso_reads_host_zone (s : string) (dt : datetime) (off : Z) :
  s ≠ "" →
  fromisoformat H (PyStr.replace "Z" "+00:00" s) = Some dt →
  tzoff dt = None →
  local_utcoffset H (wall dt) = Some off →
  DT.in_range (wall dt - off) = true →
  _parse_timestamp H (VStr s) = Some {| wall := wall dt - off; tzoff := Some 0 |}
  ∧ (off ≠ 0 → _parse_timestamp H (VStr s) ≠ Some (DT.replace_tzinfo_utc dt)).
Proof.
  intros Hs Hiso Hnaive Hoff Hrange.
  assert (_parse_timestamp H (VStr s)
          = Some {| wall := wall dt - off; tzoff := Some 0 |}) as Heq.
  { rewrite parse_timestamp_order by done. unfold Attempt.iso_attempt.
    rewrite Hiso. cbn. unfold astimezone_utc. rewrite Hnaive, Hoff. cbn.
    by rewrite Hrange. }
  split; [done|]. rewrite Heq. unfold DT.replace_tzinfo_utc.
  intros Hne [= Hw]. lia.
Qed.

End ParseTimestamp.

Lemma parse_timestamp_naive_iso_reads_host_zone_witness :
  _parse_timestamp Sample.cet (VStr "2024-01-10T09:00:00")
  = Some (Sample.utc (Sample.at_ Sample.D0 8 0 0))
  ∧ _parse_timestamp Sample.cet (VStr "2024-01-10T09:00:00")
    ≠ Some (Sample.utc (Sample.at_ Sample.D0 9 0 0)).
Proof.
  destruct (parse_timestamp_naive_iso_reads_host_zone Sample.cet
              "2024-01-10T09:00:00"
              {| wall := Sample.at_ Sample.D0 9 0 0; tzoff := None |}
              Sample.HOUR) as [Heq Hne]; [done|reflexivity..|].
  split; [exact Heq|]. apply Hne. done.
Defined.

(** ** The filtering loop of the Twitter pipeline *)

(** From here on [++] appends lists and [+:+] appends strings. *)
#[local] Open Scope list_scope.

Section TwitterFilter.
Import Models Twitter.

Variable H : host.
Variable rows : list ScrapedTweet.
Variable start_utc until_utc : datetime.
Variable user : User.

Lemma in_window_spec (dt : datetime) :
  in_window start_utc until_utc dt = true
  ↔ DT.instant start_utc ≤ DT.instant dt < DT.instant until_utc.
Proof. unfold in_window, DT.le, DT.lt. rewrite andb_true_iff. lia. Qed.

Lemma loop_body_demo (st : loop_state) (t : item) :
  _is_demo_item t = true →
  loop_body H rows start_utc until_utc user st t = Ok (count bump_demo st).
Proof. intros Hd. unfold loop_body. by rewrite Hd. Qed.


(** Counters do not steer the loop: bumping the demo counter before an
    iteration or after it is the same. *)
Lemma loop_body_count_demo (st : loop_state) (t : item) :
  loop_body H rows start_utc until_utc user (count bump_demo st) t
  = count bump_demo <$> loop_body H rows start_utc until_utc user st t.
Proof.
  unfold loop_body.
  destruct (_is_demo_item t); [done|].
  destruct (_ && _); [done|].
  destruct (_pick_timestamp_raw t) as [raw|]; [|done]. cbn [mbind result_bind].
  destruct (if Py.truthy raw then _ else _) as [dt|]; [|done].
  destruct (negb (Py.truthy _)); [done|].
  destruct (negb (in_window _ _ _)); [done|].
  change (visible H rows (count bump_demo st)) with (visible H rows st).
  destruct (query_first _ _ _); [done|].
  by destruct (make_record user t _ dt).
Qed.

Lemma filter_loop_count_demo (st : loop_state) (items : list item) :
  filter_loop H rows start_utc until_utc user (count bump_demo st) items
  = count bump_demo <$> filter_loop H rows start_utc until_utc user st items.
Proof.
  revert st. induction items as [|t items IH]; intros st; [done|].
  cbn [filter_loop]. rewrite loop_body_count_demo.
  destruct (loop_body H rows start_utc until_utc user st t) as [st'|]; [|done].
  apply IH.
Qed.

Lemma filter_loop_app (st : loop_state) (l1 l2 : list item) :
  filter_loop H rows start_utc until_utc user st (l1 ++ l2)
  = filter_loop H rows start_utc until_utc user st l1
    ≫= λ st', filter_loop H rows start_utc until_utc user st' l2.
Proof.
  revert st. induction l1 as [|t l1 IH]; intros st; [done|].
  cbn [app filter_loop].
  destruct (loop_body H rows start_utc until_utc user st t) as [st'|]; [|done].
  apply IH.
Qed.

(** Removing a demo row from the dataset changes the outcome of the loop
    by the demo counter alone. *)
Lemma filter_loop_skips_demo (st : loop_state) (before after : list item) (t : item) :
  _is_demo_item t = true →
  filter_loop H rows start_utc until_utc user st (before ++ t :: after)
  = count bump_demo <$> filter_loop H rows start_utc until_utc user st (before ++ after).
Proof.
  intros Hd. rewrite !filter_loop_app.
  destruct (filter_loop H rows start_utc until_utc user st before) as [st'|]; [|done].
  cbn [mbind result_bind filter_loop]. rewrite loop_body_demo by done.
  cbn [mbind result_bind]. apply filter_loop_count_demo.
Qed.

Lemma make_record_key (t : item) (tid : string) (dt : datetime) (r : ScrapedTweet) :
  make_record user t tid dt = Ok r →
  user_id r = id user ∧ tweet_id r = tid ∧ Outcome.unset r.
Proof.
  unfold make_record.
  destruct (_extract_author t) as [[an au]|]; [|done]. cbn [mbind result_bind].
  destruct (_extract_text t) as [tx|]; [|done]. cbn [mbind result_bind].
  destruct (_extract_photo_url t) as [ph|]; [|done]. cbn [mbind result_bind].
  by intros [= <-].
Qed.

(** Every record the loop adds has its enrichment columns unset, and the
    list only grows. *)
Lemma loop_body_grows (st st' : loop_state) (t : item) :
  loop_body H rows start_utc until_utc user st t = Ok st' →
  new_items st' = new_items st
  ∨ ∃ r, new_items st' = new_items st ++ [r]
         ∧ user_id r = id user ∧ tweet_id r = native_id H t ∧ Outcome.unset r
         ∧ query_first (visible H rows st) (id user) (native_id H t) = None.
Proof.
  unfold loop_body.
  destruct (_is_demo_item t); [intros [= <-]; by left|].
  destruct (_ && _); [intros [= <-]; by left|].
  destruct (_pick_timestamp_raw t) as [raw|]; [|done]. cbn [mbind result_bind].
  destruct (if Py.truthy raw then _ else _) as [dt|]; [|intros [= <-]; by left].
  destruct (negb (Py.truthy _)); [intros [= <-]; by left|].
  destruct (negb (in_window _ _ _)); [intros [= <-]; by left|].
  destruct (query_first _ _ _) eqn:Hq; [intros [= <-]; by left|].
  destruct (make_record user t _ dt) as [r|] eqn:Hr; [|done].
  cbn [mbind result_bind]. intros [= <-]. right. exists r.
  apply make_record_key in Hr as (? & ? & ?). done.
Qed.

Lemma filter_loop_grows (st st' : loop_state) (items : list item) :
  filter_loop H rows start_utc until_utc user st items = Ok st' →
  ∃ extra, new_items st' = new_items st ++ extra ∧ Forall Outcome.unset extra.
Proof.
  revert st. induction items as [|t items IH]; intros st.
  - intros [= <-]. exists []. by rewrite app_nil_r.
  - cbn [filter_loop].
    destruct (loop_body H rows start_utc until_utc user st t) as [st1|] eqn:Hb; [|done].
    cbn [mbind result_bind]. intros (extra & Heq & Hun)%IH.
    destruct (loop_body_grows _ _ _ Hb) as [Hsame|(r & Hr & _ & _ & Hr' & _)].
    + exists extra. by rewrite Heq, Hsame.
    + exists (r :: extra). rewrite Heq, Hr, <-app_assoc. split; [done|].
      by constructor.
Qed.

End TwitterFilter.

(** ** The filtering loop of the Facebook pipeline *)

Section FacebookFilter.
Import Models Facebook.

Variable H : host.
Variable rows : list ScrapedFBPost.
Variable today_date : Z.
Variable user : User.



(** A row with the demo key set has neither [postId] nor [id]: its id
    is the empty string and the iteration leaves the list as it is. *)
Lemma fb_loop_body_demo (acc : list item) (t : item) :
  Spec.demo_keys t → loop_body H rows today_date user acc t = acc.
Proof.
  intros Hkeys.
  assert (∀ k, k ≠ "demo" → k ≠ "type" → t !! k = None) as Hnone.
  { intros k Hk1 Hk2. apply not_elem_of_dom.
    destruct Hkeys as [-> | ->]; rewrite ?elem_of_union, !elem_of_singleton; tauto. }
  unfold loop_body, native_id, Py.get_or.
  rewrite (Hnone "postId"), (Hnone "id") by done. done.
Qed.

Lemma fb_filter_loop_from (acc : list item) (items : list item) :
  foldl (loop_body H rows today_date user) acc items
  = acc ++ filter_loop H rows today_date user items.
Proof.
  unfold filter_loop. revert acc.
  induction items as [|t items IH] using rev_ind; intros acc.
  - by rewrite app_nil_r.
  - rewrite !foldl_app. cbn [foldl]. rewrite IH.
    generalize (foldl (loop_body H rows today_date user) [] items). intros l.
    unfold loop_body.
    destruct (_ && _); [|done].
    destruct (parsed_date H _); [|done].
    destruct (negb _); [done|].
    destruct (query_first _ _ _ _); [done|]. by rewrite app_assoc.
Qed.

Lemma fb_filter_loop_skips_demo (before after : list item) (t : item) :
  Spec.demo_keys t →
  filter_loop H rows today_date user (before ++ t :: after)
  = filter_loop H rows today_date user (before ++ after).
Proof.
  intros Hkeys. unfold filter_loop. rewrite !foldl_app. cbn [foldl].
  by rewrite fb_loop_body_demo.
Qed.

End FacebookFilter.

(** ** The window test *)




(** ** Demo rows *)

Section DemoRows.

Variable H : host.

Lemma empty_app_cons {A : Type} (l1 l2 : list A) (x : A) :
  Py.empty (l1 ++ x :: l2) = false.
Proof. by destruct l1. Qed.

Lemma twitter_persist_count_demo cfg svc rows user st :
  Reach.twitter_left
    (Twitter.persist_and_enrich H cfg svc rows user (Twitter.count Twitter.bump_demo st))
  = Reach.twitter_left (Twitter.persist_and_enrich H cfg svc rows user st).
Proof.
  unfold Twitter.persist_and_enrich. cbn [Twitter.new_items Twitter.count].
  destruct (Py.empty _); [done|]. destruct (str_falsy _); [done|].
  by destruct (Twitter.enrich_loop _ _ _ _ _ _ _) as [[? ?] ?].
Qed.

(** A dataset with a demo row and the dataset without it leave the same
    table, the same inserted records and the same traffic. *)
Lemma twitter_run_skips_demo cfg today svc rows user before after t
    (act act' : Twitter.actor) :
  _is_demo_item t = true →
  (∀ ri, act ri = ActorRun (Some (Ok (before ++ t :: after)))) →
  (∀ ri, act' ri = ActorRun (Some (Ok (before ++ after)))) →
  Reach.twitter_left
    <$> Twitter.scrape_and_store_tweets_for_user H cfg today act svc rows user
  = Reach.twitter_left
      <$> Twitter.scrape_and_store_tweets_for_user H cfg today act' svc rows user.
Proof.
  intros Hdemo Hact Hact'. unfold Twitter.scrape_and_store_tweets_for_user.
  destruct (Twitter.valid_handles H _) as [handles|]; [|done]. cbn [mbind result_bind].
  destruct (Py.empty handles); [done|].
  destruct (Twitter.build_run_input H cfg handles _ _) as [ri|]; [|done].
  cbn [mbind result_bind]. rewrite Hact, Hact', empty_app_cons.
  rewrite filter_loop_skips_demo by done.
  destruct (Py.empty (before ++ after)) eqn:Hempty.
  - by destruct before, after.
  - destruct (Twitter.filter_loop H rows _ _ user Twitter.loop_init (before ++ after))
      as [st|]; [|done].
    cbn. f_equal. apply twitter_persist_count_demo.
Qed.

Lemma facebook_run_skips_demo key today_date svc rows user before after t
    (act act' : Facebook.actor) :
  Spec.demo_keys t →
  (∀ ri, act ri = ActorRun (Some (Ok (before ++ t :: after)))) →
  (∀ ri, act' ri = ActorRun (Some (Ok (before ++ after)))) →
  Reach.facebook_left
    <$> Facebook.scrape_and_store_fb_posts_for_user H key today_date act svc rows user
  = Reach.facebook_left
      <$> Facebook.scrape_and_store_fb_posts_for_user H key today_date act' svc rows user.
Proof.
  intros Hdemo Hact Hact'. unfold Facebook.scrape_and_store_fb_posts_for_user.
  destruct (Py.empty (Facebook.declared_pages user)); [done|].
  rewrite Hact, Hact', empty_app_cons.
  rewrite fb_filter_loop_skips_demo by done.
  destruct (Py.empty (before ++ after)) eqn:Hempty; [|done].
  by destruct before, after.
Qed.

(** C5.  An item whose key set is exactly the demo marker, or the marker
    and a type tag, is discarded by both pipelines, whatever the window,
    the table and the items around it: the iteration that meets it adds
    nothing, and a run over a dataset that holds it leaves the table,
    the inserted records and the traffic of the run over the dataset
    without it. *)
Theorem demo_item_is_discarded (t : item) :
  Spec.demo_keys t →
  (∀ rows start_utc until_utc user st,
     Twitter.loop_body H rows start_utc until_utc user st t
     = Ok (Twitter.count Twitter.bump_demo st))
  ∧ (∀ rows today_date user acc,
       Facebook.loop_body H rows today_date user acc t = acc)
  ∧ (∀ cfg today svc rows user before after (act act' : Twitter.actor),
       (∀ ri, act ri = ActorRun (Some (Ok (before ++ t :: after)))) →
       (∀ ri, act' ri = ActorRun (Some (Ok (before ++ after)))) →
       Reach.twitter_left
         <$> Twitter.scrape_and_store_tweets_for_user H cfg today act svc rows user
       = Reach.twitter_left
           <$> Twitter.scrape_and_store_tweets_for_user H cfg today act' svc rows user)
  ∧ (∀ key today_date svc rows user before after (act act' : Facebook.actor),
       (∀ ri, act ri = ActorRun (Some (Ok (before ++ t :: after)))) →
       (∀ ri, act' ri = ActorRun (Some (Ok (before ++ after)))) →
       Reach.facebook_left
         <$> Facebook.scrape_and_store_fb_posts_for_user H key today_date act svc rows user
       = Reach.facebook_left
           <$> Facebook.scrape_and_store_fb_posts_for_user H key today_date act' svc
                 rows user).
Proof.
  intros Hkeys.
  assert (_is_demo_item t = true) as Hdemo by by apply is_demo_item_iff.
  split_and!.
  - intros. by apply loop_body_demo.
  - intros. by apply fb_loop_body_demo.
  - intros. by eapply twitter_run_skips_demo.
  - intros. by eapply facebook_run_skips_demo.
Qed.

End DemoRows.

Lemma demo_item_is_discarded_witness :
  Spec.demo_keys Sample.demo_typed_item
  ∧ Twitter.loop_body Sample.cet [] (Reach.start_utc (Sample.cfg None 1) Sample.D0)
      (Reach.until_utc Sample.D0) Sample.alice Twitter.loop_init Sample.demo_typed_item
    = Ok (Twitter.count Twitter.bump_demo Twitter.loop_init)
  ∧ Facebook.loop_body Sample.cet [] Sample.D0 Sample.alice [] Sample.demo_typed_item = [].
Proof.
  assert (Spec.demo_keys Sample.demo_typed_item) as Hkeys.
  { right. by vm_compute. }
  split; [exact Hkeys|].
  destruct (demo_item_is_discarded Sample.cet Sample.demo_typed_item Hkeys)
    as (Htw & Hfb & _).
  split; [apply Htw|apply Hfb].
Defined.

(** ** The enrichment loop of the Twitter pipeline *)

Section TwitterEnrich.
Import Models Twitter.

Variable H : host.
Variable cfg : config.
Variable svc : Chat.service.
Variable lang_name : string.

Lemma enrich_loop_length (items : list ScrapedTweet) (n : nat) (s : Chat.state) :
  length (enrich_loop H cfg svc lang_name items n s).1.1 = length items.
Proof.
  revert n s. induction items as [|r items IH]; intros n s; [done|].
  cbn [enrich_loop].
  destruct (enrich_body H cfg svc lang_name r s) as [[r' c] s1].
  specialize (IH (if c then S n else n) s1).
  destruct (enrich_loop H cfg svc lang_name items _ s1) as [[out n'] s2].
  cbn in *. by rewrite IH.
Qed.



(** With a credential, one iteration sends one request; the record, the
    counter and the log are decided by the reply to that request. *)
Lemma enrich_body_keyed (r : ScrapedTweet) (s : Chat.state) :
  str_falsy (OPENAI_API_KEY cfg) = false →
  let req := chat_request cfg (prompt_for H lang_name r) in
  let reply := svc (length (Chat.requests s)) req in
  enrich_body H cfg svc lang_name r s
  = (Outcome.enriched_at H cfg svc lang_name (length (Chat.requests s)) r,
     Outcome.counted (Outcome.response_of H reply),
     {| Chat.requests := Chat.requests s ++ [req];
        Chat.log := Chat.log s ++ Outcome.log_of H reply |}).
Proof.
  intros Hkey req reply.
  unfold enrich_body, call_chatgpt, Outcome.enriched_at, Outcome.apply_response,
    Outcome.counted, Outcome.reply_at. rewrite Hkey. fold req. fold reply.
  unfold Outcome.response_of, Outcome.log_of, Outcome.failure_record.
  destruct reply as [e|data].
  - destruct (parse_chatgpt_response _) as [title summary].
    destruct (_ && _); reflexivity.
  - destruct (Chat.first_choice data) as [content|e];
      destruct (parse_chatgpt_response _) as [title summary];
      destruct (_ && _); unfold Chat.emit, Chat.send; cbn; by rewrite <-?app_assoc.
Qed.

(** With a credential, the loop sends one request for every record, in
    order, and leaves every record, and the log, as the reply to the
    record's own request decides. *)
Lemma enrich_loop_keyed (items : list ScrapedTweet) (n : nat) (s : Chat.state) :
  str_falsy (OPENAI_API_KEY cfg) = false →
  let n0 := length (Chat.requests s) in
  let '(out, _, s') := enrich_loop H cfg svc lang_name items n s in
  out = imap (λ j, Outcome.enriched_at H cfg svc lang_name (n0 + j)) items
  ∧ Chat.requests s'
    = Chat.requests s ++ (chat_request cfg ∘ prompt_for H lang_name <$> items)
  ∧ Chat.log s'
    = Chat.log s
      ++ concat (imap (λ j r, Outcome.log_of H (Outcome.reply_at H cfg svc lang_name
                                                  (n0 + j) r)) items).
Proof.
  intros Hkey. revert n s. induction items as [|r items IH]; intros n s.
  - cbn. by rewrite !app_nil_r.
  - cbn [enrich_loop]. rewrite enrich_body_keyed by done.
    set (s1 := {| Chat.requests := _; Chat.log := _ |}).
    match goal with
    | |- context [enrich_loop H cfg svc lang_name items ?m s1] => specialize (IH m s1)
    end.
    cbn zeta in IH.
    destruct (enrich_loop H cfg svc lang_name items _ s1) as [[out n'] s2].
    destruct IH as (Hout & Hreq & Hlog).
    assert (length (Chat.requests s1) = S (length (Chat.requests s))) as Hlen.
    { unfold s1. cbn. rewrite length_app. cbn. lia. }
    rewrite Hlen in Hout, Hlog. cbn [imap concat]. rewrite !Nat.add_0_r.
    split_and!.
    + f_equal. rewrite Hout. apply imap_ext. intros j x _. cbn. f_equal. lia.
    + rewrite Hreq. unfold s1. cbn. by rewrite <-app_assoc.
    + rewrite Hlog. unfold s1. cbn [Chat.log]. rewrite <-app_assoc.
      do 3 f_equal. apply imap_ext. intros j x _. cbn. do 2 f_equal. lia.
Qed.

(** With a credential, the counter goes up by one for every record
    whose response the loop counts. *)
Lemma enrich_loop_counter (items : list ScrapedTweet) (n : nat) (s : Chat.state) :
  str_falsy (OPENAI_API_KEY cfg) = false →
  (enrich_loop H cfg svc lang_name items n s).1.2
  = (n + Outcome.count_from H cfg svc lang_name (length (Chat.requests s)) items)%nat.
Proof.
  intros Hkey. revert n s. induction items as [|r items IH]; intros n s.
  - cbn. lia.
  - cbn [enrich_loop Outcome.count_from]. rewrite enrich_body_keyed by done.
    set (s1 := {| Chat.requests := _; Chat.log := _ |}).
    match goal with
    | |- context [enrich_loop H cfg svc lang_name items ?m s1] => specialize (IH m s1)
    end.
    assert (length (Chat.requests s1) = S (length (Chat.requests s))) as Hlen.
    { unfold s1. cbn. rewrite length_app. cbn. lia. }
    rewrite Hlen in IH.
    destruct (enrich_loop H cfg svc lang_name items _ s1) as [[out n'] s2].
    cbn [fst snd] in *. rewrite IH. unfold Outcome.counted_at, Outcome.reply_at.
    destruct (Outcome.counted _); lia.
Qed.

Lemma count_from_app (n : nat) (l1 l2 : list ScrapedTweet) :
  Outcome.count_from H cfg svc lang_name n (l1 ++ l2)
  = (Outcome.count_from H cfg svc lang_name n l1
     + Outcome.count_from H cfg svc lang_name (n + length l1) l2)%nat.
Proof.
  revert n. induction l1 as [|r l1 IH]; intros n.
  - cbn. by rewrite Nat.add_0_r.
  - cbn [app Outcome.count_from length]. rewrite IH.
    replace (S n + length l1)%nat with (n + S (length l1))%nat by lia. lia.
Qed.

End TwitterEnrich.

(** ** A failed enrichment call *)

Section FailedEnrichment.
Import Models Twitter.

Variable H : host.
Variable cfg : config.
Variable svc : Chat.service.
Variable lang_name : string.

Lemma no_choices_response (data : value) :
  Outcome.no_choices data = true →
  Chat.first_choice data = Ok "No response from ChatGPT.".
Proof.
  unfold Outcome.no_choices, Chat.first_choice.
  destruct (Py.contains_key "choices" data) as [[|]|]; [|done..].
  cbn [mbind result_bind].
  destruct (Py.index_key data "choices") as [choices|]; [|done].
  cbn [mbind result_bind]. by destruct (Py.truthy choices).
Qed.

(** A failure is returned in band as a non-empty text, and is logged. *)
Lemma failure_response (reply : Chat.post_outcome) (text : string)
    (record : Chat.log_record) :
  Outcome.failure H reply = Some (text, record) →
  Outcome.response_of H reply = text
  ∧ record ∈ Outcome.log_of H reply
  ∧ Py.truthy (VStr text) = true.
Proof.
  unfold Outcome.failure, Outcome.response_of, Outcome.log_of.
  destruct reply as [e|data].
  - intros [= <- <-]. split_and!; [done|by left|done].
  - destruct (Chat.first_choice data) as [content|e] eqn:Hc.
    + destruct (Outcome.no_choices data) eqn:Hno; [|done].
      intros [= <- <-]. rewrite (no_choices_response _ Hno) in Hc.
      injection Hc as <-. split_and!; [done|by left|done].
    + intros [= <- <-]. split_and!; [done|by right; left|done].
Qed.

Lemma apply_failure_response (text : string) (r : ScrapedTweet) :
  Py.truthy (VStr text) = true →
  PyStr.contains "Post Title:" text = false →
  Outcome.apply_response text r = set_enrichment "Untitled" text r.
Proof.
  intros Htext Hmark. unfold Outcome.apply_response, parse_chatgpt_response.
  by rewrite Hmark, Htext.
Qed.

(** C6 (amended).  When the call for one record fails (an exception of
    the transport, a reply that cannot be read, or a reply without
    choices), the failure is logged and every record of the invocation
    still gets its own request and is left as the reply to that request
    decides.  The columns of the failed record are not left empty: the
    text that reports the failure is parsed like a reply, so that, when
    it holds no title marker, the title becomes [Untitled] and the summary
    becomes that text, and the record is counted as summarized: the
    counter ends at its start plus the records counted before the failed
    one, plus one for the failed one, plus the records counted after
    it. *)
Theorem failed_call_is_logged_stored_and_isolated
    (before after : list ScrapedTweet) (st : ScrapedTweet) (n : nat)
    (s : Chat.state) (text : string) (record : Chat.log_record) :
  str_falsy (OPENAI_API_KEY cfg) = false →
  Outcome.failure H
    (Outcome.reply_at H cfg svc lang_name (length (Chat.requests s) + length before) st)
  = Some (text, record) →
  PyStr.contains "Post Title:" text = false →
  let '(out, n', s') := enrich_loop H cfg svc lang_name (before ++ st :: after) n s in
  out !! length before = Some (set_enrichment "Untitled" text st)
  ∧ record ∈ Chat.log s'
  ∧ length (Chat.requests s')
    = (length (Chat.requests s) + length (before ++ st :: after))%nat
  ∧ (∀ j r, (before ++ st :: after) !! j = Some r →
       out !! j
       = Some (Outcome.enriched_at H cfg svc lang_name (length (Chat.requests s) + j) r))
  ∧ Outcome.counted text = true
  ∧ n' = (n + Outcome.count_from H cfg svc lang_name (length (Chat.requests s)) before
          + 1
          + Outcome.count_from H cfg svc lang_name
              (length (Chat.requests s) + length before + 1) after)%nat.
Proof.
  intros Hkey Hfail Hmark.
  apply failure_response in Hfail as (Hresp & Hrec & Htext).
  assert (Outcome.counted text = true) as Hcounted.
  { unfold Outcome.counted, parse_chatgpt_response. by rewrite Hmark, Htext. }
  pose proof (enrich_loop_keyed H cfg svc lang_name (before ++ st :: after) n s Hkey)
    as Hloop. cbn zeta in Hloop.
  pose proof (enrich_loop_counter H cfg svc lang_name (before ++ st :: after) n s Hkey)
    as Hcount.
  destruct (enrich_loop H cfg svc lang_name (before ++ st :: after) n s)
    as [[out n'] s'].
  destruct Hloop as (-> & Hreq & Hlog). cbn [fst snd] in Hcount.
  assert ((before ++ st :: after) !! length before = Some st) as Hst.
  { by rewrite list_lookup_middle. }
  split; [|split; [|split; [|split; [|split; [done|]]]]].
  5:{ rewrite Hcount, count_from_app. cbn [Outcome.count_from].
      unfold Outcome.counted_at at 1. rewrite Hresp, Hcounted.
      replace (S (length (Chat.requests s) + length before))
        with (length (Chat.requests s) + length before + 1)%nat by lia.
      lia. }
  - rewrite list_lookup_imap, Hst. cbn. f_equal.
    unfold Outcome.enriched_at. rewrite Hresp. by apply apply_failure_response.
  - rewrite Hlog. apply elem_of_app. right.
    apply list_elem_of_In, in_concat.
    eexists. split; [|apply list_elem_of_In, Hrec].
    apply list_elem_of_In, list_elem_of_lookup. exists (length before).
    by rewrite list_lookup_imap, Hst.
  - by rewrite Hreq, length_app, length_fmap.
  - intros j r Hj. by rewrite list_lookup_imap, Hj.
Qed.

End FailedEnrichment.

Lemma failed_call_is_logged_stored_and_isolated_witness :
  let run :=
    Twitter.enrich_loop Sample.cet (Sample.cfg (Some "sk") 1) Sample.svc_first_fails
      "German" [Sample.record_A; Sample.record_C] 0 Chat.empty in
  fst (fst run)
  = [Twitter.set_enrichment "Untitled" "Error calling ChatGPT: connection timed out"
       Sample.record_A;
     Twitter.set_enrichment "A title" "A summary." Sample.record_C]
  ∧ Outcome.failure_record Sample.cet (RequestError "connection timed out")
    ∈ Chat.log (snd run)
  ∧ snd (fst run) = 2%nat.
Proof.
  intros run.
  pose proof (failed_call_is_logged_stored_and_isolated Sample.cet
                (Sample.cfg (Some "sk") 1) Sample.svc_first_fails "German"
                [] [Sample.record_C] Sample.record_A 0 Chat.empty
                "Error calling ChatGPT: connection timed out"
                (Outcome.failure_record Sample.cet (RequestError "connection timed out"))
                eq_refl eq_refl eq_refl) as Hthm.
  split; [by vm_compute|].
  change (Twitter.enrich_loop _ _ _ _ _ _ _) with run in Hthm.
  destruct run as [[out n'] s'].
  destruct Hthm as (_ & Hlog & _ & _ & _ & Hcount). split; [exact Hlog|].
  cbn [fst snd]. rewrite Hcount. vm_compute. reflexivity.
Defined.

(** C6, as first stated, fails on the columns: after a run whose first
    enrichment call times out, the first inserted record carries a title
    and a summary, and the run counts both of its records as
    summarized. *)
Lemma failed_enrichment_fills_the_columns :
  match Twitter.scrape_and_store_tweets_for_user Sample.cet (Sample.cfg (Some "sk") 1)
          Sample.D0 (Sample.tw_actor [Sample.item_A; Sample.item_C])
          Sample.svc_first_fails [] Sample.alice with
  | Ok r =>
      ∃ st, Twitter.inserted r !! 0%nat = Some st
            ∧ Models.tweet_id st = "A"
            ∧ Models.chatgpt_title st = Some "Untitled"
            ∧ Models.chatgpt_output st = Some "Error calling ChatGPT: connection timed out"
            ∧ ¬ Outcome.unset st
            ∧ Twitter.summarized r = 2%nat
  | Raise _ => False
  end.
Proof.
  vm_compute. eexists. split; [reflexivity|].
  split_and!; [reflexivity..| |reflexivity]. by intros [? _].
Qed.

(** ** Runs that enrich nothing *)

Section QuietRuns.

Variable H : host.

Lemma empty_nil {A : Type} (l : list A) : Py.empty l = true ↔ l = [].
Proof. by destruct l. Qed.

(** The end of a Twitter invocation whose filter accepted nothing. *)
Lemma twitter_persist_nothing cfg svc rows user st :
  Twitter.new_items st = [] →
  Twitter.persist_and_enrich H cfg svc rows user st
  = Twitter.stopped rows Twitter.NothingNew (Twitter.counts st).
Proof. intros Hnone. unfold Twitter.persist_and_enrich. by rewrite Hnone. Qed.

Lemma twitter_persist_inserted cfg svc rows user st :
  Twitter.inserted (Twitter.persist_and_enrich H cfg svc rows user st) = [] →
  Twitter.new_items st = [].
Proof.
  unfold Twitter.persist_and_enrich.
  destruct (Py.empty (Twitter.new_items st)) eqn:Hempty; [by apply empty_nil in Hempty|].
  destruct (str_falsy _); [done|].
  pose proof (enrich_loop_length H cfg svc
                (language_name (str_or (Models.preferred_language user) "en"))
                (Twitter.new_items st) 0 Chat.empty) as Hlen.
  destruct (Twitter.enrich_loop _ _ _ _ _ _ _) as [[out n'] s']. cbn in *.
  intros ->. by destruct (Twitter.new_items st).
Qed.

(** Without a credential the Twitter invocation sends no request and
    writes no enrichment column, and what it inserted is committed. *)
Lemma twitter_no_key_skips_enrichment cfg today act svc rows user r :
  str_falsy (Twitter.OPENAI_API_KEY cfg) = true →
  Twitter.scrape_and_store_tweets_for_user H cfg today act svc rows user = Ok r →
  Twitter.chat r = Chat.empty
  ∧ Forall Outcome.unset (Twitter.inserted r)
  ∧ Twitter.rows_after r = rows ++ Twitter.inserted r.
Proof.
  intros Hkey. unfold Twitter.scrape_and_store_tweets_for_user.
  assert (∀ s c, let r := Twitter.stopped rows s c in
                 Twitter.chat r = Chat.empty
                 ∧ Forall Outcome.unset (Twitter.inserted r)
                 ∧ Twitter.rows_after r = rows ++ Twitter.inserted r) as Hstop.
  { intros s c. cbn. by rewrite app_nil_r. }
  destruct (Twitter.valid_handles H _) as [handles|]; [|done]. cbn [mbind result_bind].
  destruct (Py.empty handles); [intros [= <-]; apply Hstop|].
  destruct (Twitter.build_run_input H cfg handles _ _) as [ri|]; [|done].
  cbn [mbind result_bind].
  destruct (act ri) as [|[[items|]|]]; try done; try (intros [= <-]; apply Hstop).
  destruct (Py.empty items); [intros [= <-]; apply Hstop|].
  destruct (Twitter.filter_loop H rows _ _ user Twitter.loop_init items) as [st|] eqn:Hloop;
    [|done].
  cbn [mbind result_bind]. intros [= <-].
  unfold Twitter.persist_and_enrich.
  destruct (Py.empty _); [apply Hstop|]. rewrite Hkey. cbn. split_and!; [done| |done].
  by destruct (filter_loop_grows _ _ _ _ _ _ _ _ Hloop) as (extra & -> & Hun).
Qed.

(** C8.  An invocation whose filter accepts no item ends without
    entering the enrichment phase and without a commit: the table is the
    one it started from and no request was sent.  This holds for both
    pipelines. *)
Theorem nothing_accepted_nothing_changed :
  (∀ cfg svc rows user st,
     Twitter.new_items st = [] →
     Twitter.persist_and_enrich H cfg svc rows user st
     = Twitter.stopped rows Twitter.NothingNew (Twitter.counts st))
  ∧ (∀ cfg today act svc rows user r,
       Twitter.scrape_and_store_tweets_for_user H cfg today act svc rows user = Ok r →
       Twitter.inserted r = [] →
       Twitter.rows_after r = rows ∧ Twitter.chat r = Chat.empty
       ∧ Twitter.ended r ≠ Twitter.InsertedOnly ∧ Twitter.ended r ≠ Twitter.Enriched)
  ∧ (∀ key svc rows user,
       Facebook.persist_and_enrich H key svc rows user []
       = Ok (Facebook.stopped rows Facebook.NothingNew))
  ∧ (∀ key today_date act svc rows user r,
       Facebook.scrape_and_store_fb_posts_for_user H key today_date act svc rows user
       = Ok r →
       Facebook.accepted r = [] →
       Facebook.rows_after r = rows ∧ Facebook.chat r = Chat.empty
       ∧ Facebook.ended r ≠ Facebook.Enriched).
Proof.
  split_and!.
  - intros. by apply twitter_persist_nothing.
  - intros cfg today act svc rows user r.
    unfold Twitter.scrape_and_store_tweets_for_user.
    destruct (Twitter.valid_handles H _) as [handles|]; [|done]. cbn [mbind result_bind].
    destruct (Py.empty handles); [by intros [= <-]|].
    destruct (Twitter.build_run_input H cfg handles _ _) as [ri|]; [|done].
    cbn [mbind result_bind].
    destruct (act ri) as [|[[items|]|]]; try done; try (by intros [= <-]).
    destruct (Py.empty items); [by intros [= <-]|].
    destruct (Twitter.filter_loop H rows _ _ user Twitter.loop_init items) as [st|]; [|done].
    cbn [mbind result_bind]. intros [= <-] Hnone%twitter_persist_inserted.
    by rewrite twitter_persist_nothing.
  - done.
  - intros key today_date act svc rows user r.
    unfold Facebook.scrape_and_store_fb_posts_for_user.
    destruct (Py.empty (Facebook.declared_pages user)); [by intros [= <-]|].
    destruct (act _) as [|[[items|]|]]; try done; try (by intros [= <-]).
    destruct (Py.empty items); [by intros [= <-]|].
    unfold Facebook.persist_and_enrich.
    destruct (Py.empty (Facebook.filter_loop H rows today_date user items)) eqn:Hempty;
      [by intros [= <-]|].
    destruct (mapM Facebook.process _) as [processed_data|]; [|done].
    cbn [mbind result_bind].
    destruct (foldl _ _ _) as [table s]. intros [= <-]. cbn. intros Hnone.
    by rewrite Hnone in Hempty.
Qed.

End QuietRuns.

Lemma nothing_accepted_nothing_changed_witness :
  match Twitter.scrape_and_store_tweets_for_user Sample.cet (Sample.cfg (Some "sk") 1)
          Sample.D0 (Sample.tw_actor [Sample.item_B; Sample.demo_item])
          Sample.svc_down [Sample.record_C] Sample.alice with
  | Ok r => Twitter.ended r = Twitter.NothingNew
            ∧ Twitter.rows_after r = [Sample.record_C]
            ∧ Twitter.chat r = Chat.empty
  | Raise _ => False
  end.
Proof.
  destruct (Twitter.scrape_and_store_tweets_for_user Sample.cet (Sample.cfg (Some "sk") 1)
              Sample.D0 (Sample.tw_actor [Sample.item_B; Sample.demo_item])
              Sample.svc_down [Sample.record_C] Sample.alice) as [r|e] eqn:Hrun.
  - assert (Twitter.inserted r = []) as Hnone.
    { vm_compute in Hrun. by injection Hrun as <-. }
    destruct (proj1 (proj2 (nothing_accepted_nothing_changed Sample.cet))
                _ _ _ _ _ _ _ Hrun Hnone) as (Hrows & Hchat & _).
    split_and!; [|done..]. vm_compute in Hrun. by injection Hrun as <-.
  - vm_compute in Hrun. discriminate Hrun.
Defined.

(** C7, where the code departs from it.  Run without a credential, the
    Facebook pipeline still sends a request for the post it inserted, with
    the header [Bearer None], and writes the title and the summary it
    reads from the reply. *)
Theorem facebook_enriches_without_credential :
  (λ r, (Facebook.ended r,
         Chat.authorization <$> Chat.requests (Facebook.chat r),
         (λ x, (Facebook.post_id x, Facebook.posttitle x, Facebook.chatgpt_output x))
           <$> Facebook.rows_after r))
    <$> Facebook.scrape_and_store_fb_posts_for_user Sample.cet None Sample.D0
          (Sample.fb_actor [Sample.post_utc]) Sample.svc_unauthorized [] Sample.alice
  = Ok (Facebook.Enriched, ["Bearer None"],
        [("p2", "Untitled", "No response from ChatGPT.")]).
Proof. by vm_compute. Qed.

(** ** Running an invocation again: the Twitter pipeline *)

Section TwitterRerun.
Import Models Twitter.

Variable H : host.
Variable start_utc until_utc : datetime.
Variable user : User.

Abbreviation key_in := Reach.key_in.

Lemma query_first_is_Some (table : list ScrapedTweet) (uid : Z) (tid : string) :
  is_Some (query_first table uid tid) ↔ key_in table uid tid.
Proof.
  unfold query_first, Reach.key_in. split.
  - intros [r Hr]. apply List.find_some in Hr as [Hin Hp].
    exists r. apply list_elem_of_In in Hin.
    apply andb_true_iff in Hp as [Hu%bool_decide_eq_true Ht%String.eqb_eq]. done.
  - intros (r & Hin & Hu & Ht).
    destruct (List.find _ table) as [x|] eqn:Hf; [by eexists|].
    apply list_elem_of_In in Hin. eapply List.find_none in Hf; [|exact Hin].
    cbn in Hf. rewrite Hu, Ht, bool_decide_eq_true_2, String.eqb_refl in Hf; done.
Qed.

Lemma key_in_app (l1 l2 : list ScrapedTweet) (uid : Z) (tid : string) :
  key_in (l1 ++ l2) uid tid ↔ key_in l1 uid tid ∨ key_in l2 uid tid.
Proof.
  unfold Reach.key_in. split.
  - intros (r & [Hin|Hin]%elem_of_app & Hk); [left|right]; by exists r.
  - intros [(r & Hin & Hk)|(r & Hin & Hk)]; exists r; rewrite elem_of_app; tauto.
Qed.




End TwitterRerun.

Lemma Forall2_reflexive {A : Type} (R : A → A → Prop) (l : list A) :
  (∀ x, R x x) → Forall2 R l l.
Proof. intros HR. induction l; constructor; auto. Qed.

Section TwitterRerunRun.
Import Models Twitter.

Variable H : host.
Variable cfg : config.



End TwitterRerunRun.

(** ** Running an invocation again: the Facebook pipeline *)

Section FacebookRerun.
Import Models Facebook.

Variable H : host.
Variable today_date : Z.
Variable user : User.

Lemma fb_query_first_is_Some (table : list ScrapedFBPost) (uid : Z) (key : value) :
  is_Some (query_first H table uid key) ↔ Reach.fb_key_in table uid (column_text H key).
Proof.
  unfold query_first, Reach.fb_key_in. split.
  - intros [[i r] (Hi & Hp & _)%list_find_Some].
    exists r. split; [by eapply list_elem_of_lookup_2|done].
  - intros (r & Hin & Hu & Hk). by eapply list_find_elem_of.
Qed.

Lemma fb_key_in_app (l1 l2 : list ScrapedFBPost) (uid : Z) (key : string) :
  Reach.fb_key_in (l1 ++ l2) uid key
  ↔ Reach.fb_key_in l1 uid key ∨ Reach.fb_key_in l2 uid key.
Proof.
  unfold Reach.fb_key_in. split.
  - intros (r & [Hin|Hin]%elem_of_app & Hk); [left|right]; by exists r.
  - intros [(r & Hin & Hk)|(r & Hin & Hk)]; exists r; rewrite elem_of_app; tauto.
Qed.

Lemma fb_key_in_same_keys (l l' : list ScrapedFBPost) (uid : Z) (key : string) :
  Forall2 (λ r r', user_id r' = user_id r ∧ post_id r' = post_id r) l l' →
  Reach.fb_key_in l uid key → Reach.fb_key_in l' uid key.
Proof.
  intros Hkeys (r & Hin & Hu & Hk).
  apply list_elem_of_lookup in Hin as [i Hi].
  destruct (Forall2_lookup_l _ _ _ _ _ Hkeys Hi) as (r' & Hi' & Hu' & Hk').
  exists r'. split; [by eapply list_elem_of_lookup_2|]. by rewrite Hu', Hk'.
Qed.

(** One iteration, by the tests before the query and the query. *)
Lemma fb_loop_body_passes (rows : list ScrapedFBPost) (acc : list item) (t : item) :
  loop_body H rows today_date user acc t
  = if Reach.facebook_passes H today_date t then
      match query_first H rows (id user) (VStr (py_str H (native_id t))) with
      | Some _ => acc
      | None => acc ++ [t]
      end
    else acc.
Proof.
  unfold loop_body, Reach.facebook_passes.
  destruct (_ && _); [|done]. cbn [andb].
  destruct (parsed_date H _) as [dt|]; [|done].
  by destruct (dt =? today_date)%Z.
Qed.

Lemma fb_filter_loop_cons (rows : list ScrapedFBPost) (t : item) (items : list item) :
  filter_loop H rows today_date user (t :: items)
  = loop_body H rows today_date user [] t ++ filter_loop H rows today_date user items.
Proof. unfold filter_loop at 1. cbn [foldl]. apply fb_filter_loop_from. Qed.



Lemma mapM_process (items : list item) (processed_data : list processed) :
  mapM process items = Ok processed_data →
  Forall2 (λ t data, p_post_id data = native_id t) items processed_data.
Proof.
  revert processed_data. induction items as [|t items IH]; intros pd.
  - intros [= <-]. constructor.
  - cbn [mapM]. destruct (process t) as [data|] eqn:Hdata; [|done].
    cbn [mbind result_bind]. destruct (mapM process items) as [rest|]; [|done].
    cbn [mbind result_bind mret result_ret]. intros [= <-]. constructor; [|by apply IH].
    revert Hdata. unfold process.
    destruct (match Py.get_or "media" _ t with VList (m :: _) => _ | _ => _ end); [|done].
    cbn [mbind result_bind]. destruct (Py.vget_or _ _ _); [|done].
    cbn [mbind result_bind]. by intros [= <-].
Qed.

(** The enrichment loop assigns to rows and leaves every key alone. *)
Lemma fb_enrich_keeps_keys key svc fb_lang (processed_data : list processed)
    (table : list ScrapedFBPost) (s : Chat.state) :
  Forall2 (λ r r', user_id r' = user_id r ∧ post_id r' = post_id r) table
    (foldl (enrich_body H key svc fb_lang user) (table, s) processed_data).1.
Proof.
  revert table s. induction processed_data as [|data rest IH] using rev_ind;
    intros table s.
  - cbn. by apply Forall2_reflexive.
  - rewrite foldl_app. cbn [foldl]. specialize (IH table s).
    destruct (foldl _ (table, s) rest) as [table1 s1]. cbn [fst] in IH.
    unfold enrich_body.
    destruct (query_first H table1 (id user) (p_post_id data)) as [[i fb_post]|] eqn:Hq;
      [|done].
    destruct (call_chatgpt H key svc _ s1) as [response s2].
    destruct (parse_chatgpt_response H response s2) as [[title summary] s3]. cbn [fst].
    apply list_find_Some in Hq as (Hi & _ & _).
    apply Forall2_same_length_lookup_2; [by rewrite length_insert; eapply Forall2_length|].
    intros j r r' Hj Hj'.
    destruct (Forall2_lookup_l _ _ _ _ _ IH Hj) as (r1 & Hj1 & Hu & Hk).
    destruct (decide (i = j)) as [->|Hne].
    + rewrite list_lookup_insert_eq in Hj' by by eapply lookup_lt_Some.
      injection Hj' as <-. rewrite Hi in Hj1. injection Hj1 as <-. done.
    + rewrite list_lookup_insert_ne in Hj' by done.
      rewrite Hj1 in Hj'. by injection Hj' as <-.
Qed.


End FacebookRerun.

(** ** Idempotence of ingestion *)




(** ** The filtering loop of the Twitter pipeline, item by item *)

Section TwitterLoopSteps.
Import Models Twitter.

Variable H : host.
Variable rows : list ScrapedTweet.
Variable start_utc until_utc : datetime.
Variable user : User.

(** An iteration that returns either discards the item under one counter
    or appends the record built from it. *)
Lemma loop_body_cases (st st' : loop_state) (t : item) :
  loop_body H rows start_utc until_utc user st t = Ok st' →
  (new_items st' = new_items st
   ∧ Tally.discard_total (counts st') = S (Tally.discard_total (counts st)))
  ∨ (∃ r, new_items st' = new_items st ++ [r]
          ∧ counts st' = counts st
          ∧ Reached.accepted H start_utc until_utc user t r
          ∧ query_first (visible H rows st) (id user) (native_id H t) = None).
Proof.
  unfold loop_body.
  destruct (_is_demo_item t) eqn:Hdemo.
  { intros [= <-]. left. split; [done|]. unfold Tally.discard_total. cbn. lia. }
  destruct (_ && _) eqn:Htype.
  { intros [= <-]. left. split; [done|]. unfold Tally.discard_total. cbn. lia. }
  destruct (_pick_timestamp_raw t) as [raw|] eqn:Hraw; [|done].
  cbn [mbind result_bind].
  destruct (if Py.truthy raw then _ else _) as [dt|] eqn:Hdt.
  2:{ intros [= <-]. left. split; [done|]. unfold Tally.discard_total. cbn. lia. }
  destruct (negb (Py.truthy _)) eqn:Hid.
  { intros [= <-]. left. split; [done|]. unfold Tally.discard_total. cbn. lia. }
  destruct (negb (in_window _ _ _)) eqn:Hwin.
  { intros [= <-]. left. split; [done|]. unfold Tally.discard_total. cbn. lia. }
  destruct (query_first _ _ _) eqn:Hq.
  { intros [= <-]. left. split; [done|]. unfold Tally.discard_total. cbn. lia. }
  destruct (make_record user t _ dt) as [r|] eqn:Hr; [|done].
  cbn [mbind result_bind]. intros [= <-]. right. exists r.
  split_and!; try done.
  exists raw, dt. split_and!; try done.
  - intros Hnone. rewrite Hnone in Hid. done.
  - destruct (Py.truthy raw); [done|discriminate Hdt].
  - by apply negb_false_iff in Hwin.
Qed.

(** The loop over a whole dataset: the records it appends are built, in
    order, from a sub-sequence of the items, every other item was counted
    once, and no appended record has a key the query saw. *)
Lemma filter_loop_cases (st st' : loop_state) (items : list item) :
  filter_loop H rows start_utc until_utc user st items = Ok st' →
  ∃ kept extra,
    new_items st' = new_items st ++ extra
    ∧ sublist kept items
    ∧ Forall2 (Reached.accepted H start_utc until_utc user) kept extra
    ∧ (length extra + Tally.discard_total (counts st')
       = Tally.discard_total (counts st) + length items)%nat
    ∧ Forall (λ r, ¬ Reach.key_in rows (user_id r) (tweet_id r)) extra
    ∧ (autoflush H = true →
       NoDup (Tally.key <$> rows ++ new_items st) →
       NoDup (Tally.key <$> rows ++ new_items st')).
Proof.
  revert st. induction items as [|t items IH]; intros st.
  - intros [= <-]. exists [], []. rewrite app_nil_r. by split_and!.
  - cbn [filter_loop].
    destruct (loop_body H rows start_utc until_utc user st t) as [st1|] eqn:Hb; [|done].
    cbn [mbind result_bind].
    intros (kept & extra & Heq & Hsub & Hacc & Hlen & Hfresh & Hdup)%IH.
    destruct (loop_body_cases _ _ _ Hb) as [[Hsame Hcount]|(r & Hr & Hc & Hra & Hq)].
    + exists kept, extra. split_and!; try done.
      * by rewrite Heq, Hsame.
      * by apply sublist_cons.
      * cbn [length]. lia.
      * intros Hflush Hnodup. apply Hdup; [done|]. by rewrite Hsame.
    + exists (t :: kept), (r :: extra).
      assert (user_id r = id user ∧ tweet_id r = native_id H t) as [Hu Ht].
      { destruct Hra as (raw & dt & _ & _ & _ & _ & _ & _ & Hm).
        apply make_record_key in Hm as (? & ? & _). done. }
      split_and!; try done.
      * by rewrite Heq, Hr, <-app_assoc.
      * by apply sublist_skip.
      * by constructor.
      * cbn [length]. rewrite Hc in Hlen. lia.
      * constructor; [|done]. rewrite Hu, Ht. intros Hin.
        assert (is_Some (query_first (visible H rows st) (id user) (native_id H t)))
          as [x Hx]; [|by rewrite Hq in Hx].
        apply query_first_is_Some. unfold visible. apply key_in_app. by left.
      * intros Hflush Hnodup. apply Hdup; [done|].
        rewrite Hr, app_assoc, fmap_app. apply NoDup_app. split_and!; [done| |].
        -- intros k Hk Hk'.
           apply list_elem_of_fmap in Hk' as (r1 & -> & ->%list_elem_of_singleton).
           apply list_elem_of_fmap in Hk as (r0 & Hk & Hin).
           assert (is_Some (query_first (visible H rows st) (id user) (native_id H t)))
             as [x Hx]; [|by rewrite Hq in Hx].
           apply query_first_is_Some. unfold visible. rewrite Hflush.
           exists r0. unfold Tally.key in Hk. injection Hk as Hk1 Hk2.
           rewrite Hu in Hk1. rewrite Ht in Hk2. done.
        -- apply NoDup_singleton.
Qed.

End TwitterLoopSteps.

(** ** What the enrichment loop does to the records *)

Section TwitterEnrichTally.
Import Models Twitter.

Variable H : host.
Variable cfg : config.
Variable svc : Chat.service.
Variable lang_name : string.

Lemma ingested_unset (r : ScrapedTweet) : Outcome.unset r → Tally.ingested r = r.
Proof. destruct r. unfold Outcome.unset, Tally.ingested. cbn. by intros [-> ->]. Qed.

Lemma ingested_set_enrichment (title summary : string) (r : ScrapedTweet) :
  Tally.ingested (set_enrichment title summary r) = Tally.ingested r.
Proof. done. Qed.

Lemma truthy_str (s : string) : Py.truthy (VStr s) = true ↔ s ≠ "".
Proof.
  cbn. rewrite negb_true_iff. split.
  - intros Hs ->. done.
  - intros Hs. destruct (String.eqb s "") eqn:Heq; [|done].
    by apply String.eqb_eq in Heq.
Qed.

(** One iteration either leaves the record alone and does not count it,
    or sets both columns to non-empty texts and counts it. *)
Lemma enrich_body_tally (r : ScrapedTweet) (s : Chat.state) :
  let '(r', counted, _) := enrich_body H cfg svc lang_name r s in
  (counted = false ∧ r' = r)
  ∨ (counted = true ∧ Tally.enriched r' ∧ Tally.ingested r' = Tally.ingested r).
Proof.
  unfold enrich_body.
  destruct (call_chatgpt H cfg svc _ s) as [response s'].
  destruct (parse_chatgpt_response response) as [title summary].
  destruct (Py.truthy (VStr title)) eqn:Ht; [|by left].
  destruct (Py.truthy (VStr summary)) eqn:Hs; [|by left].
  right. split_and!; [done| |done].
  exists title, summary. cbn. split_and!; try done; by apply truthy_str.
Qed.

Lemma titled_unset (r : ScrapedTweet) : Outcome.unset r → Tally.titled r = false.
Proof. unfold Tally.titled. by intros [-> _]. Qed.

Lemma titled_enriched (r : ScrapedTweet) : Tally.enriched r → Tally.titled r = true.
Proof. unfold Tally.titled. by intros (? & ? & -> & _). Qed.

Lemma filter_titled_unset (l : list ScrapedTweet) :
  Forall Outcome.unset l → List.filter Tally.titled l = [].
Proof.
  induction 1 as [|r l Hr _ IH]; [done|].
  cbn [List.filter]. by rewrite (titled_unset r Hr).
Qed.

Lemma enrich_loop_tally (items : list ScrapedTweet) (n : nat) (s : Chat.state) :
  Forall Outcome.unset items →
  let '(out, n', _) := enrich_loop H cfg svc lang_name items n s in
  Forall2 (λ r r', Tally.ingested r' = r ∧ (r' = r ∨ Tally.enriched r')) items out
  ∧ n' = (n + length (List.filter Tally.titled out))%nat.
Proof.
  revert n s. induction items as [|r items IH]; intros n s Hun.
  - cbn. split; [constructor|lia].
  - apply Forall_cons in Hun as [Hr Hun]. cbn [enrich_loop].
    pose proof (enrich_body_tally r s) as Hbody.
    destruct (enrich_body H cfg svc lang_name r s) as [[r' counted] s1].
    match goal with
    | |- context [enrich_loop H cfg svc lang_name items ?m s1] =>
        specialize (IH m s1 Hun);
        destruct (enrich_loop H cfg svc lang_name items m s1) as [[out n'] s2]
    end.
    destruct IH as [Hall ->].
    destruct Hbody as [[-> ->]|(-> & Hen & Hing)].
    + split.
      * constructor; [|done]. split; [by apply ingested_unset|by left].
      * cbn [List.filter]. by rewrite (titled_unset r Hr).
    + split.
      * constructor; [|done]. split; [|by right].
        by rewrite Hing, ingested_unset.
      * cbn [List.filter]. rewrite (titled_enriched r' Hen). cbn [length]. lia.
Qed.

End TwitterEnrichTally.

(** ** What a Twitter invocation leaves *)

Section TwitterRunFacts.
Import Models Twitter.

Variable H : host.
Variable cfg : config.

(** The second half of an invocation, from [if not new_items] on. *)
Lemma persist_tally svc rows user st :
  Forall Outcome.unset (new_items st) →
  let r := persist_and_enrich H cfg svc rows user st in
  rows_after r = rows ++ inserted r
  ∧ discarded r = counts st
  ∧ Forall2 (λ r0 r', Tally.ingested r' = r0 ∧ (r' = r0 ∨ Tally.enriched r'))
      (new_items st) (inserted r)
  ∧ summarized r = length (List.filter Tally.titled (inserted r))
  ∧ (ended r = Enriched →
     length (Chat.requests (chat r)) = length (inserted r))
  ∧ (ended r ≠ Enriched → chat r = Chat.empty ∧ Forall Outcome.unset (inserted r))
  ∧ (ended r = Enriched ↔ inserted r ≠ [] ∧ str_falsy (OPENAI_API_KEY cfg) = false)
  ∧ (ended r = InsertedOnly ↔ inserted r ≠ [] ∧ str_falsy (OPENAI_API_KEY cfg) = true)
  ∧ (ended r = NothingNew ↔ inserted r = []).
Proof.
  intros Hun. unfold persist_and_enrich.
  destruct (Py.empty (new_items st)) eqn:Hempty.
  - apply empty_nil in Hempty. rewrite Hempty. cbn. rewrite app_nil_r.
    split_and!; try done; try constructor; try discriminate; try by intros [? _].
  - assert (new_items st ≠ []) as Hne.
    { intros Hnil. rewrite Hnil in Hempty. done. }
    destruct (str_falsy (OPENAI_API_KEY cfg)) eqn:Hkey.
    + cbn. split_and!; try done.
      * apply Forall2_same_length_lookup_2; [done|].
        intros i r0 r1 Hr0 Hr1. rewrite Hr0 in Hr1. injection Hr1 as <-.
        split; [|by left]. apply ingested_unset.
        by eapply Forall_lookup_1 in Hun.
      * by rewrite filter_titled_unset.
      * split; [done|]. by intros [_ ?].
    + pose proof (enrich_loop_tally H cfg svc
                    (language_name (str_or (preferred_language user) "en"))
                    (new_items st) 0 Chat.empty Hun) as Htally.
      pose proof (enrich_loop_keyed H cfg svc
                    (language_name (str_or (preferred_language user) "en"))
                    (new_items st) 0 Chat.empty Hkey) as Hkeyed.
      destruct (enrich_loop _ _ _ _ _ _ _) as [[out n'] s'].
      destruct Htally as [Hall ->]. destruct Hkeyed as (Hout & Hreq & _).
      assert (out ≠ []) as Hout_ne.
      { intros ->. apply Forall2_nil_inv_r in Hall. done. }
      cbn. split_and!; try done.
      * intros _. rewrite Hreq. cbn. rewrite length_fmap.
        by apply Forall2_length in Hall.
      * split; [done|]. by intros [_ ?].
Qed.

(** The ways an invocation returns. *)
Lemma twitter_run_inv today act svc rows user r :
  scrape_and_store_tweets_for_user H cfg today act svc rows user = Ok r →
  r = stopped rows NoHandles no_stats
  ∨ ∃ handles ri,
      valid_handles H (declared_handles user) = Ok handles
      ∧ handles ≠ []
      ∧ build_run_input H cfg handles (today + 1 - SINCE_DAYS cfg) (today + 1) = Ok ri
      ∧ ((∃ e, act ri = ActorRaises e ∧ r = stopped rows ActorFailed no_stats)
         ∨ (act ri = ActorRun None ∧ r = stopped rows NoDataset no_stats)
         ∨ (act ri = ActorRun (Some (Ok [])) ∧ r = stopped rows NoItems no_stats)
         ∨ (∃ items st,
              act ri = ActorRun (Some (Ok items))
              ∧ items ≠ []
              ∧ filter_loop H rows (Reach.start_utc cfg today) (Reach.until_utc today)
                  user loop_init items = Ok st
              ∧ r = persist_and_enrich H cfg svc rows user st)).
Proof.
  unfold scrape_and_store_tweets_for_user.
  destruct (valid_handles H _) as [handles|] eqn:Hv; [|done].
  cbn [mbind result_bind].
  destruct (Py.empty handles) eqn:Hh; [intros [= <-]; by left|].
  destruct (build_run_input H cfg handles _ _) as [ri|] eqn:Hri; [|done].
  cbn [mbind result_bind]. intros Hrun. right. exists handles, ri.
  split; [done|]. split; [by intros ->|]. split; [done|].
  destruct (act ri) as [e|[[items|]|]] eqn:Hact; try done.
  - left. exists e. by injection Hrun as <-.
  - destruct (Py.empty items) eqn:Hi.
    + apply empty_nil in Hi as ->. right. right. left. by injection Hrun as <-.
    + destruct (filter_loop H rows _ _ user loop_init items) as [st|] eqn:Hloop; [|done].
      cbn [mbind result_bind] in Hrun. injection Hrun as <-.
      right. right. right. exists items, st. split_and!; try done.
      by intros ->.
  - right. left. by injection Hrun as <-.
Qed.

(** The loop started on an empty list yields unset records. *)
Lemma filter_loop_init_unset rows start_utc until_utc user items st :
  filter_loop H rows start_utc until_utc user loop_init items = Ok st →
  Forall Outcome.unset (new_items st).
Proof.
  intros (extra & -> & Hun)%filter_loop_grows. done.
Qed.

End TwitterRunFacts.

(** ** The field extractors *)

Section Extractors.

Lemma or_empty_por (a : value) : Tally.or_empty (Py.por a (VStr "")).
Proof.
  unfold Tally.or_empty, Py.por. destruct (Py.truthy a) eqn:Ha; [by left|by right].
Qed.

(** [(v or {})] is a dict unless [v] is a true object of another type. *)
Lemma por_dict_cases (v : value) :
  (∃ d, Py.por v (VDict ∅) = VDict d) ∨ Tally.no_get v = true.
Proof.
  unfold Py.por, Tally.no_get. destruct (Py.truthy v) eqn:Hv; [|left; by eexists].
  destruct v; try (by right). left. by eexists.
Qed.

Lemma vget_raises (v : value) (k : string) (e : exn) :
  Py.vget v k = Raise e → e = AttributeError ∧ ∀ d, v ≠ VDict d.
Proof. destruct v; cbn; try (intros [= <-]; by split); done. Qed.

Lemma no_get_por (v : value) : Tally.no_get v = true → Py.por v (VDict ∅) = v.
Proof.
  unfold Tally.no_get, Py.por. by intros [-> _]%andb_true_iff.
Qed.

Lemma no_get_vget (v : value) (k : string) :
  Tally.no_get v = true → Py.vget v k = Raise AttributeError.
Proof. unfold Tally.no_get. intros [_ Hv]%andb_true_iff. by destruct v. Qed.

Lemma extract_author_ok (t : item) (n u : value) :
  _extract_author t = Ok (n, u) → Tally.or_empty n ∧ Tally.or_empty u.
Proof.
  unfold _extract_author.
  destruct (Py.por (Py.get "author" t) (VDict ∅)) as [| | | | |d]; try done.
  cbn [Py.vget mbind result_bind]. unfold Py.por_lazy.
  pose proof (or_empty_por (Py.get "name" d)) as Hname.
  destruct (Py.truthy (Py.get "username" d)) eqn:Hu1; cbn [mbind result_bind].
  { rewrite Hu1. cbn [andb negb]. intros [= <- <-]. split; [done|by left]. }
  pose proof (or_empty_por (Py.get "userName" d)) as Hu2.
  destruct (Py.truthy (Py.por (Py.get "userName" d) (VStr ""))) eqn:Hu;
    cbn [andb negb].
  { by intros [= <- <-]. }
  destruct (Py.truthy (Py.get "user" t)) eqn:Huser; [|by intros [= <- <-]].
  destruct (Py.index_key (VDict t) "user") as [user|]; [|done].
  cbn [mbind result_bind].
  destruct user as [| | | | |du]; try done. cbn [Py.vget mbind result_bind].
  destruct (Py.truthy (Py.por (Py.get "name" d) (VStr ""))) eqn:Hn;
    cbn [mbind result_bind].
  - intros [= <- <-]. split; [by left|apply or_empty_por].
  - intros [= <- <-]. split; apply or_empty_por.
Qed.

Lemma extract_author_raises (t : item) (e : exn) :
  _extract_author t = Raise e →
  e = AttributeError
  ∧ (Tally.no_get (Py.get "author" t) = true ∨ Tally.no_get (Py.get "user" t) = true).
Proof.
  unfold _extract_author.
  destruct (por_dict_cases (Py.get "author" t)) as [[d ->]|Hbad].
  2:{ rewrite (no_get_por _ Hbad), (no_get_vget _ "name" Hbad). cbn [mbind result_bind].
      intros [= <-]. split; [done|by left]. }
  cbn [Py.vget mbind result_bind]. unfold Py.por_lazy.
  destruct (Py.truthy (Py.get "username" d)) eqn:Hu1; cbn [mbind result_bind].
  { rewrite Hu1. by cbn [andb negb]. }
  destruct (Py.truthy (Py.por (Py.get "userName" d) (VStr ""))) eqn:Hu;
    cbn [andb negb]; [done|].
  destruct (Py.truthy (Py.get "user" t)) eqn:Huser; [|done].
  destruct (t !! "user") as [user|] eqn:Hlook.
  2:{ unfold Py.get in Huser. by rewrite Hlook in Huser. }
  assert (Py.get "user" t = user) as Hget by (unfold Py.get; by rewrite Hlook).
  rewrite Hget in *. unfold Py.index_key. rewrite Hlook. cbn [mbind result_bind].
  destruct user as [| | | | |du];
    try (cbn [Py.vget mbind result_bind]; intros [= <-]; split; [done|right];
         unfold Tally.no_get; by rewrite Huser).
  cbn [Py.vget mbind result_bind].
  destruct (Py.truthy (Py.por (Py.get "name" d) (VStr ""))); cbn [mbind result_bind]; done.
Qed.

Lemma extract_text_ok (t : item) (tx : string) :
  _extract_text t = Ok tx →
  ∃ s, Py.por (Py.get "fullText" t) (Py.por (Py.get "text" t) (VStr "")) = VStr s
       ∧ tx = PyStr.strip s.
Proof.
  unfold _extract_text. destruct (Py.por _ _) as [| | |s| |]; try done.
  cbn. intros [= <-]. by exists s.
Qed.

Lemma first_media_url_ok (media : value) (v : value) :
  first_media_url media = Some (Ok v) → Tally.or_empty v.
Proof.
  destruct media as [| | | |[|m l]|]; try done. cbn [first_media_url].
  destruct m as [| | | | |d]; try done. cbn [Py.vget mbind result_bind].
  unfold Py.por_lazy. destruct (Py.truthy (Py.get "media_url_https" d)) eqn:Ha.
  - intros [= <-]. by left.
  - cbn [mbind result_bind]. intros [= <-]. apply or_empty_por.
Qed.

Lemma first_media_url_raises (media : value) (e : exn) :
  first_media_url media = Some (Raise e) → e = AttributeError.
Proof.
  destruct media as [| | | |[|m l]|]; try done. cbn [first_media_url].
  destruct m as [| | | | |d]; try (by intros [= <-]).
  cbn [Py.vget mbind result_bind]. unfold Py.por_lazy.
  by destruct (Py.truthy _).
Qed.

Lemma extract_photo_url_ok (t : item) (v : value) :
  _extract_photo_url t = Ok v → Tally.or_empty v.
Proof.
  unfold _extract_photo_url.
  destruct (Py.vget (Py.por (Py.get "entities" t) (VDict ∅)) "media") as [m|]; [|done].
  cbn [mbind result_bind].
  destruct (first_media_url (Py.por m (VList []))) as [r|] eqn:Hm.
  { intros ->. by eapply first_media_url_ok. }
  destruct (Py.vget _ "media") as [m2|]; [|done]. cbn [mbind result_bind].
  destruct (first_media_url (Py.por m2 (VList []))) as [r|] eqn:Hm2.
  { intros ->. by eapply first_media_url_ok. }
  intros [= <-]. by right.
Qed.

Lemma extract_photo_url_raises (t : item) (e : exn) :
  _extract_photo_url t = Raise e → e = AttributeError.
Proof.
  unfold _extract_photo_url.
  destruct (Py.vget (Py.por (Py.get "entities" t) (VDict ∅)) "media") as [m|] eqn:Hv.
  2:{ cbn. intros [= ->]. by apply vget_raises in Hv as [-> _]. }
  cbn [mbind result_bind].
  destruct (first_media_url (Py.por m (VList []))) as [r|] eqn:Hm.
  { intros ->. by eapply first_media_url_raises. }
  match goal with
  | |- context [Py.vget ?x "media" ≫= _] => destruct (Py.vget x "media") as [m2|] eqn:Hv2
  end.
  2:{ cbn. intros [= ->]. by apply vget_raises in Hv2 as [-> _]. }
  cbn [mbind result_bind].
  destruct (first_media_url (Py.por m2 (VList []))) as [r|] eqn:Hm2; [|done].
  intros ->. by eapply first_media_url_raises.
Qed.

End Extractors.

(** ** The fields of an accepted record *)

Section AcceptedRecord.
Import Models Twitter.

Variable H : host.
Variable start_utc until_utc : datetime.
Variable user : User.

Lemma make_record_fields (t : item) (tid : string) (dt : datetime) (r : ScrapedTweet) :
  make_record user t tid dt = Ok r →
  created_at r = dt
  ∧ (∃ s, full_text r = VStr s ∧ text r = PyStr.strip s)
  ∧ Tally.or_empty (author_name r)
  ∧ Tally.or_empty (author_username r)
  ∧ Tally.or_empty (photo_url r).
Proof.
  unfold make_record.
  destruct (_extract_author t) as [[an au]|] eqn:Ha; [|done]. cbn [mbind result_bind].
  destruct (_extract_text t) as [tx|] eqn:Ht; [|done]. cbn [mbind result_bind].
  destruct (_extract_photo_url t) as [ph|] eqn:Hp; [|done]. cbn [mbind result_bind].
  intros [= <-]. cbn.
  apply extract_author_ok in Ha as [? ?].
  apply extract_text_ok in Ht as (s & ? & ?).
  apply extract_photo_url_ok in Hp.
  split_and!; try done. by exists s.
Qed.

Lemma accepted_fields (t : item) (r : ScrapedTweet) :
  Reached.accepted H start_utc until_utc user t r →
  user_id r = id user
  ∧ tweet_id r = native_id H t
  ∧ tweet_id r ≠ ""
  ∧ tzoff (created_at r) = Some 0
  ∧ DT.instant start_utc ≤ DT.instant (created_at r) < DT.instant until_utc
  ∧ (∃ s, full_text r = VStr s ∧ text r = PyStr.strip s)
  ∧ Tally.or_empty (author_name r)
  ∧ Tally.or_empty (author_username r)
  ∧ Tally.or_empty (photo_url r)
  ∧ Outcome.unset r.
Proof.
  intros (raw & dt & _ & _ & Hid & _ & Hparse & Hwin & Hmake).
  pose proof (make_record_key _ _ _ _ _ Hmake) as (Hu & Ht & Hun).
  pose proof (make_record_fields _ _ _ _ Hmake) as (Hc & Hs & Hn & Hun' & Hp).
  apply in_window_spec in Hwin as [? ?].
  apply parse_timestamp_aware in Hparse.
  rewrite Hc, Ht. by split_and!.
Qed.

End AcceptedRecord.

(** ** Properties of a Twitter invocation *)

(** X1.  Run over a dataset, the Twitter invocation accounts for every
    item: the number of records it inserted and the five discard
    counters (demo, missing, out of window, non-tweet, duplicates) add
    up to the size of the dataset. *)
Theorem twitter_every_item_is_counted_or_inserted
    (H : host) (cfg : Twitter.config) (today : Z) (act : Twitter.actor)
    (svc : Chat.service) (rows : list Models.ScrapedTweet) (user : Models.User)
    (items : list item) (r : Twitter.run_end) :
  (∀ ri, act ri = ActorRun (Some (Ok items))) →
  Twitter.scrape_and_store_tweets_for_user H cfg today act svc rows user = Ok r →
  Twitter.ended r ≠ Twitter.NoHandles →
  (length (Twitter.inserted r) + Tally.discard_total (Twitter.discarded r))%nat
  = length items.
Proof.
  intros Hact Hrun Hended.
  destruct (twitter_run_inv _ _ _ _ _ _ _ _ Hrun)
    as [->|(handles & ri & _ & _ & _ & Hcases)]; [done|].
  rewrite Hact in Hcases.
  destruct Hcases as [(e & [=] & _)|[[[=] _]|[[[= ->] ->]|Hloop]]]; [done|].
  destruct Hloop as (items' & st & [= <-] & _ & Hloop & ->).
  pose proof (filter_loop_init_unset _ _ _ _ _ _ _ Hloop) as Hun.
  destruct (persist_tally H cfg svc rows user st Hun) as (_ & -> & Hall & _).
  apply Forall2_length in Hall. rewrite <-Hall.
  apply filter_loop_cases in Hloop as (kept & extra & -> & _ & _ & Hlen & _).
  cbn in Hlen. cbn. lia.
Qed.

Lemma twitter_every_item_is_counted_or_inserted_witness :
  ∃ r, Twitter.scrape_and_store_tweets_for_user Sample.cet (Sample.cfg (Some "sk") 1)
         Sample.D0 (Sample.tw_actor [Sample.item_A; Sample.item_B; Sample.demo_item])
         Sample.svc_first_fails [Sample.record_C] Sample.alice = Ok r
       ∧ (length (Twitter.inserted r) + Tally.discard_total (Twitter.discarded r))%nat
         = 3%nat.
Proof.
  destruct (Twitter.scrape_and_store_tweets_for_user Sample.cet (Sample.cfg (Some "sk") 1)
              Sample.D0 (Sample.tw_actor [Sample.item_A; Sample.item_B; Sample.demo_item])
              Sample.svc_first_fails [Sample.record_C] Sample.alice) as [r|e] eqn:Hrun.
  - exists r. split; [done|].
    apply (twitter_every_item_is_counted_or_inserted _ _ _ _ _ _ _
             [Sample.item_A; Sample.item_B; Sample.demo_item] r (λ _, eq_refl) Hrun).
    vm_compute in Hrun. injection Hrun as <-. discriminate.
  - vm_compute in Hrun. discriminate Hrun.
Defined.

(** X2.  The records a Twitter invocation inserts follow the dataset:
    they are built, in the order of arrival, from a sub-sequence of the
    items, and each of them is, its enrichment columns aside, the record
    the mapper returns for an item that is no demo row, has the expected
    type, an id and a timestamp that parses into the ingest window. *)
Theorem twitter_inserted_records_follow_the_dataset
    (H : host) (cfg : Twitter.config) (today : Z) (act : Twitter.actor)
    (svc : Chat.service) (rows : list Models.ScrapedTweet) (user : Models.User)
    (items : list item) (r : Twitter.run_end) :
  (∀ ri, act ri = ActorRun (Some (Ok items))) →
  Twitter.scrape_and_store_tweets_for_user H cfg today act svc rows user = Ok r →
  ∃ kept,
    sublist kept items
    ∧ Forall2 (λ t r', Reached.accepted H (Reach.start_utc cfg today)
                         (Reach.until_utc today) user t (Tally.ingested r'))
        kept (Twitter.inserted r).
Proof.
  intros Hact Hrun.
  destruct (twitter_run_inv _ _ _ _ _ _ _ _ Hrun)
    as [->|(handles & ri & _ & _ & _ & Hcases)].
  { exists []. split; [apply sublist_nil_l|constructor]. }
  rewrite Hact in Hcases.
  destruct Hcases as [(e & [=] & _)|[[[=] _]|[[_ ->]|Hloop]]].
  { exists []. split; [apply sublist_nil_l|constructor]. }
  destruct Hloop as (items' & st & [= <-] & _ & Hloop & ->).
  pose proof (filter_loop_init_unset _ _ _ _ _ _ _ Hloop) as Hun.
  destruct (persist_tally H cfg svc rows user st Hun) as (_ & _ & Hall & _).
  apply filter_loop_cases in Hloop as (kept & extra & Hnew & Hsub & Hacc & _).
  cbn in Hnew. rewrite Hnew in Hall. exists kept. split; [done|].
  clear Hnew Hun Hsub. revert Hall. generalize (Twitter.inserted
    (Twitter.persist_and_enrich H cfg svc rows user st)).
  induction Hacc as [|t r0 kept extra Ht _ IH]; intros out Hall.
  - apply Forall2_nil_inv_l in Hall as ->. constructor.
  - apply Forall2_cons_inv_l in Hall as (r' & out' & [Hing _] & Hall & ->).
    constructor; [by rewrite Hing|by apply IH].
Qed.

Lemma twitter_inserted_records_follow_the_dataset_witness :
  ∃ r kept,
    Twitter.scrape_and_store_tweets_for_user Sample.cet (Sample.cfg (Some "sk") 1)
      Sample.D0 (Sample.tw_actor [Sample.item_A; Sample.item_B; Sample.demo_item])
      Sample.svc_first_fails [Sample.record_C] Sample.alice = Ok r
    ∧ sublist kept [Sample.item_A; Sample.item_B; Sample.demo_item]
    ∧ Forall2 (λ t r', Reached.accepted Sample.cet
                         (Reach.start_utc (Sample.cfg (Some "sk") 1) Sample.D0)
                         (Reach.until_utc Sample.D0) Sample.alice t (Tally.ingested r'))
        kept (Twitter.inserted r).
Proof.
  destruct (Twitter.scrape_and_store_tweets_for_user Sample.cet (Sample.cfg (Some "sk") 1)
              Sample.D0 (Sample.tw_actor [Sample.item_A; Sample.item_B; Sample.demo_item])
              Sample.svc_first_fails [Sample.record_C] Sample.alice) as [r|e] eqn:Hrun.
  - destruct (twitter_inserted_records_follow_the_dataset _ _ _ _ _ _ _
                [Sample.item_A; Sample.item_B; Sample.demo_item] r (λ _, eq_refl) Hrun)
      as (kept & Hsub & Hall).
    by exists r, kept.
  - vm_compute in Hrun. discriminate Hrun.
Defined.



Lemma ingested_same_keys (P : Models.ScrapedTweet → Models.ScrapedTweet → Prop)
    (l l' : list Models.ScrapedTweet) :
  Forall2 (λ r0 r', Tally.ingested r' = r0 ∧ P r0 r') l l' →
  Tally.key <$> l' = Tally.key <$> l.
Proof.
  induction 1 as [|r0 r' l l' [Hing _] _ IH]; [done|].
  cbn [fmap list_fmap]. f_equal; [|done]. by rewrite <-Hing.
Qed.

(** X4.  A Twitter invocation never inserts a record whose key (user,
    tweet id) the table already held; and when the session flushes before
    a query, a table in which every key occurs once is left as such a
    table, whatever the dataset repeats. *)
Theorem twitter_keys_stay_unique
    (H : host) (cfg : Twitter.config) (today : Z) (act : Twitter.actor)
    (svc : Chat.service) (rows : list Models.ScrapedTweet) (user : Models.User)
    (r : Twitter.run_end) :
  Twitter.scrape_and_store_tweets_for_user H cfg today act svc rows user = Ok r →
  Forall (λ r', ¬ Reach.key_in rows (Models.user_id r') (Models.tweet_id r'))
    (Twitter.inserted r)
  ∧ (autoflush H = true →
     NoDup (Tally.key <$> rows) → NoDup (Tally.key <$> Twitter.rows_after r)).
Proof.
  intros Hrun.
  destruct (twitter_run_inv _ _ _ _ _ _ _ _ Hrun)
    as [->|(handles & ri & _ & _ & _ & Hcases)]; [by split|].
  destruct Hcases as [(e & _ & ->)|[[_ ->]|[[_ ->]|Hloop]]]; try by split.
  destruct Hloop as (items & st & _ & _ & Hloop & ->).
  pose proof (filter_loop_init_unset _ _ _ _ _ _ _ Hloop) as Hun.
  destruct (persist_tally H cfg svc rows user st Hun) as (-> & _ & Hall & _).
  pose proof (ingested_same_keys _ _ _ Hall) as Hkeys.
  apply filter_loop_cases in Hloop as (kept & extra & Hnew & _ & _ & _ & Hfresh & Hdup).
  cbn in Hnew. split.
  - rewrite Hnew in Hall. apply Forall_lookup_2. intros i r' Hr'.
    destruct (Forall2_lookup_r _ _ _ _ _ Hall Hr') as (r0 & Hr0 & Hing & _).
    eapply Forall_lookup_1 in Hfresh; [|done]. by rewrite <-Hing in Hfresh.
  - intros Hflush Hnodup. rewrite fmap_app, Hkeys, <-fmap_app.
    apply Hdup; [done|]. cbn. by rewrite app_nil_r.
Qed.

Lemma twitter_keys_stay_unique_witness :
  ∃ r, Twitter.scrape_and_store_tweets_for_user Sample.cet (Sample.cfg (Some "sk") 1)
         Sample.D0 (Sample.tw_actor [Sample.item_A; Sample.item_A; Sample.item_C])
         Sample.svc_first_fails [Sample.record_C] Sample.alice = Ok r
       ∧ Tally.key <$> Twitter.rows_after r = [(1, "C"); (1, "A")]
       ∧ NoDup (Tally.key <$> Twitter.rows_after r).
Proof.
  destruct (Twitter.scrape_and_store_tweets_for_user Sample.cet (Sample.cfg (Some "sk") 1)
              Sample.D0 (Sample.tw_actor [Sample.item_A; Sample.item_A; Sample.item_C])
              Sample.svc_first_fails [Sample.record_C] Sample.alice) as [r|e] eqn:Hrun.
  - exists r. split; [done|]. split.
    + vm_compute in Hrun. by injection Hrun as <-.
    + apply (proj2 (twitter_keys_stay_unique _ _ _ _ _ _ _ r Hrun)); [reflexivity|].
      cbn. apply NoDup_singleton.
  - vm_compute in Hrun. discriminate Hrun.
Defined.

(** X5.  A Twitter invocation only appends: the table it leaves is the
    table it started from followed by the records it inserted, so no
    stored record is changed or removed.  It ends in the enrichment phase
    exactly when it inserted a record and the credential is set, and
    after the first commit exactly when it inserted a record and the
    credential is missing. *)
Theorem twitter_run_only_appends
    (H : host) (cfg : Twitter.config) (today : Z) (act : Twitter.actor)
    (svc : Chat.service) (rows : list Models.ScrapedTweet) (user : Models.User)
    (r : Twitter.run_end) :
  Twitter.scrape_and_store_tweets_for_user H cfg today act svc rows user = Ok r →
  Twitter.rows_after r = rows ++ Twitter.inserted r
  ∧ (Twitter.ended r = Twitter.Enriched
     ↔ Twitter.inserted r ≠ [] ∧ str_falsy (Twitter.OPENAI_API_KEY cfg) = false)
  ∧ (Twitter.ended r = Twitter.InsertedOnly
     ↔ Twitter.inserted r ≠ [] ∧ str_falsy (Twitter.OPENAI_API_KEY cfg) = true).
Proof.
  intros Hrun.
  assert (∀ s c, s ≠ Twitter.Enriched → s ≠ Twitter.InsertedOnly →
            let r := Twitter.stopped rows s c in
            Twitter.rows_after r = rows ++ Twitter.inserted r
            ∧ (Twitter.ended r = Twitter.Enriched
               ↔ Twitter.inserted r ≠ [] ∧ str_falsy (Twitter.OPENAI_API_KEY cfg) = false)
            ∧ (Twitter.ended r = Twitter.InsertedOnly
               ↔ Twitter.inserted r ≠ [] ∧ str_falsy (Twitter.OPENAI_API_KEY cfg) = true))
    as Hstopped.
  { intros s c Hs1 Hs2. cbn. rewrite app_nil_r.
    split; [done|]. split; (split; [by intros ->|by intros [? _]]). }
  destruct (twitter_run_inv _ _ _ _ _ _ _ _ Hrun)
    as [->|(handles & ri & _ & _ & _ & Hcases)]; [by apply Hstopped|].
  destruct Hcases as [(e & _ & ->)|[[_ ->]|[[_ ->]|Hloop]]]; try by apply Hstopped.
  destruct Hloop as (items & st & _ & _ & Hloop & ->).
  pose proof (filter_loop_init_unset _ _ _ _ _ _ _ Hloop) as Hun.
  destruct (persist_tally H cfg svc rows user st Hun)
    as (? & _ & _ & _ & _ & _ & ? & ? & _).
  done.
Qed.

Lemma twitter_run_only_appends_witness :
  ∃ r, Twitter.scrape_and_store_tweets_for_user Sample.cet (Sample.cfg None 1)
         Sample.D0 (Sample.tw_actor [Sample.item_A; Sample.item_B])
         Sample.svc_down [Sample.record_C] Sample.alice = Ok r
       ∧ Twitter.rows_after r = Sample.record_C :: Twitter.inserted r
       ∧ Twitter.ended r = Twitter.InsertedOnly.
Proof.
  destruct (Twitter.scrape_and_store_tweets_for_user Sample.cet (Sample.cfg None 1)
              Sample.D0 (Sample.tw_actor [Sample.item_A; Sample.item_B])
              Sample.svc_down [Sample.record_C] Sample.alice) as [r|e] eqn:Hrun.
  - exists r. split; [done|].
    destruct (twitter_run_only_appends _ _ _ _ _ _ _ r Hrun) as (Hrows & _ & Hstage).
    split; [done|]. apply Hstage. split; [|reflexivity].
    vm_compute in Hrun. by injection Hrun as <-.
  - vm_compute in Hrun. discriminate Hrun.
Defined.

(** X6.  After a Twitter invocation every inserted record has both
    enrichment columns unset or both set to non-empty texts; the number
    the invocation reports as summarized is the number of inserted records
    with a title; an invocation that reaches the enrichment phase sends
    one request per inserted record, and any other sends none and leaves
    the columns of what it inserted unset. *)
Theorem twitter_enrichment_is_all_or_nothing
    (H : host) (cfg : Twitter.config) (today : Z) (act : Twitter.actor)
    (svc : Chat.service) (rows : list Models.ScrapedTweet) (user : Models.User)
    (r : Twitter.run_end) :
  Twitter.scrape_and_store_tweets_for_user H cfg today act svc rows user = Ok r →
  Forall (λ r', Outcome.unset r' ∨ Tally.enriched r') (Twitter.inserted r)
  ∧ Twitter.summarized r = length (List.filter Tally.titled (Twitter.inserted r))
  ∧ (Twitter.ended r = Twitter.Enriched →
     length (Chat.requests (Twitter.chat r)) = length (Twitter.inserted r))
  ∧ (Twitter.ended r ≠ Twitter.Enriched →
     Twitter.chat r = Chat.empty ∧ Forall Outcome.unset (Twitter.inserted r)).
Proof.
  intros Hrun.
  destruct (twitter_run_inv _ _ _ _ _ _ _ _ Hrun)
    as [->|(handles & ri & _ & _ & _ & Hcases)]; [by split_and!|].
  destruct Hcases as [(e & _ & ->)|[[_ ->]|[[_ ->]|Hloop]]]; try by split_and!.
  destruct Hloop as (items & st & _ & _ & Hloop & ->).
  pose proof (filter_loop_init_unset _ _ _ _ _ _ _ Hloop) as Hun.
  destruct (persist_tally H cfg svc rows user st Hun)
    as (_ & _ & Hall & ? & ? & ? & _).
  split_and!; try done.
  apply Forall_lookup_2. intros i r' Hr'.
  destruct (Forall2_lookup_r _ _ _ _ _ Hall Hr') as (r0 & Hr0 & Hing & [->|?]);
    [left|by right].
  by eapply Forall_lookup_1 in Hun.
Qed.

Lemma twitter_enrichment_is_all_or_nothing_witness :
  ∃ r, Twitter.scrape_and_store_tweets_for_user Sample.cet (Sample.cfg (Some "sk") 1)
         Sample.D0 (Sample.tw_actor [Sample.item_A; Sample.item_C])
         Sample.svc_first_fails [] Sample.alice = Ok r
       ∧ Twitter.summarized r = 2%nat
       ∧ Twitter.summarized r = length (List.filter Tally.titled (Twitter.inserted r)).
Proof.
  destruct (Twitter.scrape_and_store_tweets_for_user Sample.cet (Sample.cfg (Some "sk") 1)
              Sample.D0 (Sample.tw_actor [Sample.item_A; Sample.item_C])
              Sample.svc_first_fails [] Sample.alice) as [r|e] eqn:Hrun.
  - exists r. split; [done|]. split.
    + vm_compute in Hrun. by injection Hrun as <-.
    + exact (proj1 (proj2 (twitter_enrichment_is_all_or_nothing _ _ _ _ _ _ _ r Hrun))).
  - vm_compute in Hrun. discriminate Hrun.
Defined.

(** ** More facts about the string operations *)

Module PyStrMore.
Import PyStr.

Lemma rstrip_by_keep (p : ascii → bool) (c : ascii) (s : string) :
  p c = false → rstrip_by p (String c s) = String c (rstrip_by p s).
Proof. intros Hc. cbn. rewrite Hc. by destruct (rstrip_by p s). Qed.

Lemma rstrip_by_idem (p : ascii → bool) (s : string) :
  rstrip_by p (rstrip_by p s) = rstrip_by p s.
Proof.
  induction s as [|c s IH]; [done|]. cbn.
  destruct (rstrip_by p s) as [|d r] eqn:Hr.
  - destruct (p c) eqn:Hc; [done|]. cbn. by rewrite Hc.
  - cbn in IH |- *. by rewrite IH.
Qed.

Lemma lstrip_rstrip (p : ascii → bool) (s : string) :
  match s with EmptyString => True | String c _ => p c = false end →
  lstrip_by p (rstrip_by p s) = rstrip_by p s.
Proof.
  destruct s as [|c s]; [done|]. intros Hc.
  rewrite (rstrip_by_keep p c s Hc). cbn. by rewrite Hc.
Qed.

Lemma lstrip_by_head (p : ascii → bool) (s : string) :
  match lstrip_by p s with EmptyString => True | String c _ => p c = false end.
Proof.
  induction s as [|c s IH]; [done|]. cbn. destruct (p c) eqn:Hc; [done|]. done.
Qed.

(** [s.strip().strip() == s.strip()]. *)
Lemma strip_by_idem (p : ascii → bool) (s : string) :
  strip_by p (strip_by p s) = strip_by p s.
Proof.
  unfold strip_by. rewrite (lstrip_rstrip p _ (lstrip_by_head p s)).
  apply rstrip_by_idem.
Qed.

End PyStrMore.

(** ** The timestamp picker *)

Section PickTimestamp.

Lemma por_same_dict (d : item) : Py.por (VDict d) (VDict ∅) = VDict d.
Proof.
  unfold Py.por. cbn. destruct (bool_decide (d = ∅)) eqn:Hd; [|done].
  apply bool_decide_eq_true in Hd. by rewrite Hd.
Qed.

Lemma pick_timestamp_raw_ok (t : item) (v : value) :
  _pick_timestamp_raw t = Ok v → Tally.or_empty v.
Proof.
  unfold _pick_timestamp_raw, Py.por_lazy.
  destruct (Py.truthy (Py.get "createdAt" t)) eqn:H1; [intros [= <-]; by left|].
  destruct (Py.truthy (Py.get "created_at" t)) eqn:H2; [intros [= <-]; by left|].
  destruct (Py.vget (Py.por (Py.get "legacy" t) (VDict ∅)) "created_at") as [a|];
    [|done].
  cbn [mbind result_bind].
  destruct (Py.truthy a) eqn:H3; [intros [= <-]; by left|].
  destruct (Py.vget (Py.por (Py.get "tweet" t) (VDict ∅)) "createdAt") as [b|];
    [|done].
  cbn [mbind result_bind].
  destruct (Py.truthy b) eqn:H4; [intros [= <-]; by left|].
  destruct (Py.vget (Py.por (Py.get "tweet" t) (VDict ∅)) "created_at") as [c|];
    [|done].
  cbn [mbind result_bind]. intros [= <-]. apply or_empty_por.
Qed.

Lemma pick_timestamp_raw_raises (t : item) (e : exn) :
  _pick_timestamp_raw t = Raise e
  ↔ e = AttributeError
    ∧ Py.truthy (Py.get "createdAt" t) = false
    ∧ Py.truthy (Py.get "created_at" t) = false
    ∧ (Tally.no_get (Py.get "legacy" t) = true
       ∨ ∃ d, Py.por (Py.get "legacy" t) (VDict ∅) = VDict d
              ∧ Py.truthy (Py.get "created_at" d) = false
              ∧ Tally.no_get (Py.get "tweet" t) = true).
Proof.
  unfold _pick_timestamp_raw, Py.por_lazy.
  destruct (Py.truthy (Py.get "createdAt" t)) eqn:H1.
  { split; [done|]. by intros (_ & ? & _). }
  destruct (Py.truthy (Py.get "created_at" t)) eqn:H2.
  { split; [done|]. by intros (_ & _ & ? & _). }
  destruct (por_dict_cases (Py.get "legacy" t)) as [[d Hd]|Hbad].
  2:{ rewrite (no_get_por _ Hbad), (no_get_vget _ "created_at" Hbad).
      cbn [mbind result_bind]. split.
      - intros [= <-]. split_and!; try done. by left.
      - by intros (-> & _). }
  assert (Tally.no_get (Py.get "legacy" t) = false) as Hlegacy.
  { unfold Tally.no_get. unfold Py.por in Hd.
    destruct (Py.truthy (Py.get "legacy" t)); [|done]. by rewrite Hd. }
  rewrite Hd. cbn [Py.vget mbind result_bind].
  destruct (Py.truthy (Py.get "created_at" d)) eqn:H3.
  { split; [done|]. intros (_ & _ & _ & [Hl|(d' & [= <-] & Hf & _)]).
    - by rewrite Hl in Hlegacy.
    - by rewrite Hf in H3. }
  destruct (por_dict_cases (Py.get "tweet" t)) as [[d2 Hd2]|Hbad].
  2:{ rewrite (no_get_por _ Hbad), (no_get_vget _ "createdAt" Hbad).
      cbn [mbind result_bind]. split.
      - intros [= <-]. split_and!; try done. right. by exists d.
      - by intros (-> & _). }
  assert (Tally.no_get (Py.get "tweet" t) = false) as Htweet.
  { unfold Tally.no_get. unfold Py.por in Hd2.
    destruct (Py.truthy (Py.get "tweet" t)); [|done]. by rewrite Hd2. }
  rewrite Hd2. cbn [Py.vget mbind result_bind].
  split.
  - by destruct (Py.truthy (Py.get "createdAt" d2)).
  - intros (_ & _ & _ & [Hl|(d' & _ & _ & Hf)]).
    + by rewrite Hl in Hlegacy.
    + by rewrite Hf in Htweet.
Qed.

End PickTimestamp.

(** X7.  [_pick_timestamp_raw] returns the first true value among the
    top-level [createdAt], the top-level [created_at], [legacy.created_at],
    [tweet.createdAt] and [tweet.created_at], and the empty str when there
    is none, so what it returns is never null.  It raises, an
    [AttributeError], exactly when neither top-level timestamp is true and
    [legacy] is a true object that is no dict, or [legacy] has no true
    [created_at] and [tweet] is a true object that is no dict. *)
Theorem pick_timestamp_raw_cases (t : item) :
  (∀ v, _pick_timestamp_raw t = Ok v → Tally.or_empty v)
  ∧ (Py.truthy (Py.get "createdAt" t) = true →
     _pick_timestamp_raw t = Ok (Py.get "createdAt" t))
  ∧ (Py.truthy (Py.get "createdAt" t) = false →
     Py.truthy (Py.get "created_at" t) = true →
     _pick_timestamp_raw t = Ok (Py.get "created_at" t))
  ∧ (∀ e, _pick_timestamp_raw t = Raise e
          ↔ e = AttributeError
            ∧ Py.truthy (Py.get "createdAt" t) = false
            ∧ Py.truthy (Py.get "created_at" t) = false
            ∧ (Tally.no_get (Py.get "legacy" t) = true
               ∨ ∃ d, Py.por (Py.get "legacy" t) (VDict ∅) = VDict d
                      ∧ Py.truthy (Py.get "created_at" d) = false
                      ∧ Tally.no_get (Py.get "tweet" t) = true)).
Proof.
  split_and!.
  - apply pick_timestamp_raw_ok.
  - intros H1. unfold _pick_timestamp_raw, Py.por_lazy. by rewrite H1.
  - intros H1 H2. unfold _pick_timestamp_raw, Py.por_lazy. by rewrite H1, H2.
  - apply pick_timestamp_raw_raises.
Qed.

Lemma pick_timestamp_raw_cases_witness :
  _pick_timestamp_raw Sample.item_A = Ok (VStr "2024-01-10T09:00:00Z")
  ∧ _pick_timestamp_raw Probe.legacy_text_item = Raise AttributeError.
Proof.
  split.
  - apply (proj1 (proj2 (pick_timestamp_raw_cases Sample.item_A))). reflexivity.
  - apply (proj2 (proj2 (proj2 (pick_timestamp_raw_cases Probe.legacy_text_item)))).
    split_and!; [reflexivity..|]. left. reflexivity.
Defined.

(** ** An item the loop cannot read *)

Section MalformedItem.
Import Models Twitter.

Variable H : host.

Lemma loop_body_pick_raises rows start_utc until_utc user st t e :
  _is_demo_item t = false →
  Py.truthy (Py.get "type" t) && differs_from_str (Py.get "type" t) "tweet" = false →
  _pick_timestamp_raw t = Raise e →
  loop_body H rows start_utc until_utc user st t = Raise e.
Proof. intros Hd Ht Hp. unfold loop_body. by rewrite Hd, Ht, Hp. Qed.

Lemma filter_loop_raises rows start_utc until_utc user items t :
  t ∈ items →
  (∀ st, ∃ e, loop_body H rows start_utc until_utc user st t = Raise e) →
  ∀ st, ∃ e, filter_loop H rows start_utc until_utc user st items = Raise e.
Proof.
  intros Hin Hraise. induction items as [|t' items IH]; intros st.
  - by apply elem_of_nil in Hin.
  - cbn [filter_loop]. apply elem_of_cons in Hin as [<-|Hin].
    + destruct (Hraise st) as [e ->]. by exists e.
    + destruct (loop_body H rows start_utc until_utc user st t') as [st1|e'].
      * cbn [mbind result_bind]. by apply IH.
      * by exists e'.
Qed.

End MalformedItem.

(** X8.  One item the timestamp picker cannot read loses the whole
    batch: when the dataset holds an item that is no demo row, has the
    expected type and makes [_pick_timestamp_raw] raise, the filtering
    loop raises whatever state it was started in, and an invocation over
    the dataset does not return unless it stopped for want of handles;
    nothing is inserted, not even for the items that came before. *)
Theorem twitter_unreadable_item_loses_the_batch
    (H : host) (cfg : Twitter.config) (today : Z) (act : Twitter.actor)
    (svc : Chat.service) (rows : list Models.ScrapedTweet) (user : Models.User)
    (items : list item) (t : item) (e : exn) :
  (∀ ri, act ri = ActorRun (Some (Ok items))) →
  t ∈ items →
  _is_demo_item t = false →
  Py.truthy (Py.get "type" t) && Twitter.differs_from_str (Py.get "type" t) "tweet"
  = false →
  _pick_timestamp_raw t = Raise e →
  (∀ start_utc until_utc st,
     ∃ e', Twitter.filter_loop H rows start_utc until_utc user st items = Raise e')
  ∧ (∀ r, Twitter.scrape_and_store_tweets_for_user H cfg today act svc rows user = Ok r →
          Twitter.ended r = Twitter.NoHandles ∧ Twitter.rows_after r = rows).
Proof.
  intros Hact Hin Hdemo Htype Hpick.
  assert (∀ start_utc until_utc st,
            ∃ e', Twitter.filter_loop H rows start_utc until_utc user st items = Raise e')
    as Hloop.
  { intros start_utc until_utc. apply filter_loop_raises with (t := t); [done|].
    intros st. exists e. by apply loop_body_pick_raises. }
  split; [done|]. intros r Hrun.
  destruct (twitter_run_inv _ _ _ _ _ _ _ _ Hrun)
    as [->|(handles & ri & _ & _ & _ & Hcases)]; [done|].
  rewrite Hact in Hcases.
  destruct Hcases as [(e0 & [=] & _)|[[[=] _]|[[[= Hnil] _]|Hok]]].
  - rewrite Hnil in Hin. by apply elem_of_nil in Hin.
  - destruct Hok as (items' & st & [= <-] & _ & Hst & _).
    destruct (Hloop (Reach.start_utc cfg today) (Reach.until_utc today)
                Twitter.loop_init) as [e' He'].
    by rewrite He' in Hst.
Qed.

Lemma twitter_unreadable_item_loses_the_batch_witness :
  Twitter.scrape_and_store_tweets_for_user Sample.cet (Sample.cfg None 1) Sample.D0
    (Sample.tw_actor [Sample.item_A; Probe.legacy_text_item]) Sample.svc_down []
    Sample.alice
  = Raise AttributeError
  ∧ ∃ e, Twitter.filter_loop Sample.cet []
           (Reach.start_utc (Sample.cfg None 1) Sample.D0) (Reach.until_utc Sample.D0)
           Sample.alice Twitter.loop_init [Sample.item_A; Probe.legacy_text_item]
         = Raise e.
Proof.
  split; [vm_compute; reflexivity|].
  apply (proj1 (twitter_unreadable_item_loses_the_batch Sample.cet (Sample.cfg None 1)
                  Sample.D0 (Sample.tw_actor [Sample.item_A; Probe.legacy_text_item])
                  Sample.svc_down [] Sample.alice
                  [Sample.item_A; Probe.legacy_text_item] Probe.legacy_text_item
                  AttributeError (λ _, eq_refl)
                  (list_elem_of_further _ _ _ (list_elem_of_here _ _))
                  eq_refl eq_refl eq_refl)).
Defined.

(** ** The extractors, as the record mapper uses them *)

(** X9.  [_extract_author] never yields null: the name and the user name
    are each a true value or the empty str.  It raises only
    [AttributeError], and only when [author] or [user] is a true object
    that is no dict; it does so whenever [author] is one.  When the author
    carries a true [username] the legacy [user] object is not read at all,
    whatever it is. *)
Theorem extract_author_cases (t : item) :
  (∀ n u, _extract_author t = Ok (n, u) → Tally.or_empty n ∧ Tally.or_empty u)
  ∧ (∀ e, _extract_author t = Raise e →
          e = AttributeError
          ∧ (Tally.no_get (Py.get "author" t) = true
             ∨ Tally.no_get (Py.get "user" t) = true))
  ∧ (Tally.no_get (Py.get "author" t) = true →
     _extract_author t = Raise AttributeError)
  ∧ (∀ d, Py.get "author" t = VDict d →
          Py.truthy (Py.get "username" d) = true →
          _extract_author t
          = Ok (Py.por (Py.get "name" d) (VStr ""), Py.get "username" d)).
Proof.
  split_and!.
  - apply extract_author_ok.
  - apply extract_author_raises.
  - intros Hbad. unfold _extract_author.
    by rewrite (no_get_por _ Hbad), (no_get_vget _ "name" Hbad).
  - intros d Hd Hu. unfold _extract_author. rewrite Hd, por_same_dict.
    cbn [Py.vget mbind result_bind]. unfold Py.por_lazy. rewrite Hu.
    cbn [mbind result_bind]. by rewrite Hu.
Qed.

Lemma extract_author_cases_witness :
  _extract_author Probe.authored_item = Ok (VStr "Ann", VStr "ann").
Proof.
  pose proof (proj2 (proj2 (proj2 (extract_author_cases Probe.authored_item)))
                {[ "name" := VStr "Ann"; "username" := VStr "ann" ]}
                eq_refl eq_refl) as Hcase.
  vm_compute in Hcase |- *. exact Hcase.
Defined.

(** X10.  [_extract_photo_url] never yields null, and raises only
    [AttributeError].  When [entities.media] is a list whose first element
    is a dict with a true [media_url_https], that value is the result and
    the extended entities are not read, whatever they are. *)
Theorem extract_photo_url_cases (t : item) :
  (∀ v, _extract_photo_url t = Ok v → Tally.or_empty v)
  ∧ (∀ e, _extract_photo_url t = Raise e → e = AttributeError)
  ∧ (∀ d m rest,
       Py.get "entities" t = VDict d →
       Py.get "media" d = VList (VDict m :: rest) →
       Py.truthy (Py.get "media_url_https" m) = true →
       _extract_photo_url t = Ok (Py.get "media_url_https" m)).
Proof.
  split_and!.
  - apply extract_photo_url_ok.
  - apply extract_photo_url_raises.
  - intros d m rest Hd Hm Hu. unfold _extract_photo_url.
    rewrite Hd, por_same_dict. cbn [Py.vget mbind result_bind]. rewrite Hm.
    cbn. unfold Py.por_lazy. by rewrite Hu.
Qed.

Lemma extract_photo_url_cases_witness :
  _extract_photo_url Probe.photo_item = Ok (VStr "https://p/1.jpg").
Proof.
  pose proof (proj2 (proj2 (extract_photo_url_cases Probe.photo_item))
                {[ "media" :=
                     VList [VDict {[ "media_url_https" := VStr "https://p/1.jpg" ]}] ]}
                {[ "media_url_https" := VStr "https://p/1.jpg" ]} []
                eq_refl eq_refl eq_refl) as Hcase.
  vm_compute in Hcase |- *. exact Hcase.
Defined.

(** X11.  The text [_extract_text] returns is the stripped form of the
    first true value among [fullText] and [text] (of the empty str when
    there is none), and stripping it again changes nothing.  It raises,
    an [AttributeError], exactly when that first true value is no str. *)
Theorem extract_text_cases (t : item) :
  let chosen := Py.por (Py.get "fullText" t) (Py.por (Py.get "text" t) (VStr "")) in
  (∀ tx, _extract_text t = Ok tx →
         PyStr.strip tx = tx ∧ ∃ s, chosen = VStr s ∧ tx = PyStr.strip s)
  ∧ (∀ e, _extract_text t = Raise e
          ↔ e = AttributeError ∧ Py.truthy chosen = true ∧ ∀ s, chosen ≠ VStr s).
Proof.
  intros chosen. split.
  - intros tx (s & Hs & ->)%extract_text_ok. split; [|by exists s].
    apply PyStrMore.strip_by_idem.
  - intros e. unfold _extract_text. fold chosen.
    assert (Tally.or_empty chosen) as Hor.
    { unfold chosen, Py.por. destruct (Py.truthy (Py.get "fullText" t)) eqn:H1;
        [by left|]. destruct (Py.truthy (Py.get "text" t)) eqn:H2; [by left|by right]. }
    destruct chosen as [| | |s| |] eqn:Hc; cbn [Py.vstrip].
    all: try (split; [intros [= <-]; split; [done|]; split; [|done];
                      by destruct Hor
                     |by intros (-> & _)]).
    split; [done|]. intros (_ & _ & Hs). by destruct (Hs s).
Qed.

Lemma extract_text_cases_witness :
  _extract_text Probe.padded_item = Ok "hello" ∧ PyStr.strip "hello" = "hello".
Proof.
  split; [reflexivity|].
  apply (proj1 (proj1 (extract_text_cases Probe.padded_item) "hello" eq_refl)).
Defined.

(** ** From the declared handles to the actor input *)

Section ActorInput.
Import Models Twitter.

Variable H : host.
Variable cfg : config.

(** A handle that survives [valid_handles]: it normalizes, to a
    non-empty name. *)
Lemma valid_handles_spec (hs handles : list string) :
  valid_handles H hs = Ok handles →
  sublist handles hs
  ∧ Forall (λ h, ∃ n, _normalize_handle H h = Ok n ∧ n ≠ "") handles.
Proof.
  revert handles. induction hs as [|h hs IH]; intros handles.
  - intros [= <-]. split; [done|constructor].
  - cbn [valid_handles].
    destruct (_normalize_handle H h) as [n|] eqn:Hn; [|done]. cbn [mbind result_bind].
    destruct (valid_handles H hs) as [rest|]; [|done]. cbn [mbind result_bind].
    destruct (IH rest eq_refl) as [Hsub Hall].
    destruct (Py.truthy (VStr n)) eqn:Ht; intros [= <-].
    + split; [by apply sublist_skip|]. constructor; [|done].
      exists n. split; [done|]. by apply truthy_str.
    + split; [by apply sublist_cons|done].
Qed.

Lemma build_search_terms_valid (handles : list string) (start_d until_d : Z) :
  Forall (λ h, ∃ n, _normalize_handle H h = Ok n ∧ n ≠ "") handles →
  ∃ terms,
    _build_search_terms H cfg handles start_d until_d = Ok terms
    ∧ Forall2 (λ h q, ∃ n,
                 _normalize_handle H h = Ok n
                 ∧ q = let q0 := "from:" +:+ n +:+ " since:" +:+ date_isoformat H start_d
                                 +:+ " until:" +:+ date_isoformat H until_d in
                       if Py.truthy (VStr (EXTRA_QUERY cfg))
                       then q0 +:+ " " +:+ EXTRA_QUERY cfg else q0)
        handles terms.
Proof.
  induction 1 as [|h handles (n & Hn & Hne) _ (terms & IH & Hall)].
  - exists []. split; [done|constructor].
  - cbn [_build_search_terms]. rewrite Hn, IH. cbn [mbind result_bind].
    rewrite (proj2 (truthy_str n) Hne). cbn [negb].
    eexists. split; [done|]. constructor; [|done]. by exists n.
Qed.

Lemma normalize_all_valid (handles : list string) :
  Forall (λ h, ∃ n, _normalize_handle H h = Ok n ∧ n ≠ "") handles →
  ∃ names,
    mapM (_normalize_handle H) handles = Ok names
    ∧ Forall2 (λ h n, _normalize_handle H h = Ok n
                      ∧ n ≠ "" ∧ PyStr.lstrip_chars "@" n = n)
        handles names.
Proof.
  induction 1 as [|h handles (n & Hn & Hne) _ (names & IH & Hall)].
  - exists []. split; [done|constructor].
  - cbn [mapM]. rewrite Hn. cbn [mbind result_bind]. rewrite IH.
    cbn [mbind result_bind mret result_ret].
    eexists. split; [done|]. constructor; [|done].
    split_and!; try done. by eapply normalize_handle_no_at.
Qed.

End ActorInput.

(** X12.  Once the declared handles have been validated, building the
    actor input cannot fail and drops nothing: in search mode there is one
    term per validated handle, [from:<name> since:<start> until:<until>]
    followed by the extra query when one is configured, sorted [Latest];
    in handle mode there is one name per validated handle, non-empty and
    without a leading [@], between the same two dates.  The validated
    handles are a sub-sequence of the handles given. *)
Theorem validated_handles_build_the_actor_input
    (H : host) (cfg : Twitter.config) (hs handles : list string) (start_d until_d : Z) :
  Twitter.valid_handles H hs = Ok handles →
  sublist handles hs
  ∧ ∃ ri,
      Twitter.build_run_input H cfg handles start_d until_d = Ok ri
      ∧ match ri with
        | Twitter.SearchTerms terms sort maxItems =>
            Twitter.USE_SEARCH_TERMS cfg = true
            ∧ sort = "Latest"
            ∧ maxItems = Twitter.DEFAULT_MAX_ITEMS cfg
            ∧ Forall2 (λ h q, ∃ n,
                         _normalize_handle H h = Ok n
                         ∧ n ≠ ""
                         ∧ q = let q0 := "from:" +:+ n +:+ " since:"
                                         +:+ date_isoformat H start_d +:+ " until:"
                                         +:+ date_isoformat H until_d in
                               if Py.truthy (VStr (Twitter.EXTRA_QUERY cfg))
                               then q0 +:+ " " +:+ Twitter.EXTRA_QUERY cfg else q0)
                handles terms
        | Twitter.TwitterHandles names start end_ maxItems =>
            Twitter.USE_SEARCH_TERMS cfg = false
            ∧ start = date_isoformat H start_d
            ∧ end_ = date_isoformat H until_d
            ∧ maxItems = Twitter.DEFAULT_MAX_ITEMS cfg
            ∧ Forall2 (λ h n, _normalize_handle H h = Ok n
                              ∧ n ≠ "" ∧ PyStr.lstrip_chars "@" n = n)
                handles names
        end.
Proof.
  intros [Hsub Hvalid]%valid_handles_spec. split; [done|].
  unfold Twitter.build_run_input.
  destruct (Twitter.USE_SEARCH_TERMS cfg) eqn:Hmode.
  - destruct (build_search_terms_valid H cfg handles start_d until_d Hvalid)
      as (terms & -> & Hall).
    cbn [mbind result_bind]. eexists. split; [done|]. split_and!; try done.
    apply Forall2_same_length_lookup_2; [by eapply Forall2_length|].
    intros i h q Hh Hq.
    destruct (Forall2_lookup_l _ _ _ _ _ Hall Hh) as (q' & Hq' & n & Hn & Heq).
    rewrite Hq in Hq'. injection Hq' as <-.
    eapply Forall_lookup_1 in Hvalid as (n' & Hn' & Hne); [|done].
    rewrite Hn in Hn'. injection Hn' as <-. by exists n.
  - destruct (normalize_all_valid H handles Hvalid) as (names & -> & Hall).
    cbn [mbind result_bind]. eexists. by split.
Qed.

Lemma validated_handles_build_the_actor_input_witness :
  Twitter.valid_handles Sample.cet ["@user"; "@"; "https://twitter.com/@other/status"]
  = Ok ["@user"; "https://twitter.com/@other/status"]
  ∧ Twitter.build_run_input Sample.cet (Sample.cfg None 7)
      ["@user"; "https://twitter.com/@other/status"] (Sample.D0 - 6) (Sample.D0 + 1)
    = Ok (Twitter.TwitterHandles ["user"; "other"] "2024-01-04" "2024-01-11" 250).
Proof.
  split; [vm_compute; reflexivity|].
  destruct (validated_handles_build_the_actor_input Sample.cet (Sample.cfg None 7)
              ["@user"; "@"; "https://twitter.com/@other/status"]
              ["@user"; "https://twitter.com/@other/status"]
              (Sample.D0 - 6) (Sample.D0 + 1) eq_refl) as (_ & ri & Hri & _).
  rewrite Hri. vm_compute in Hri. by injection Hri as <-.
Defined.

(** ** Cutting a text at a marker *)

Module PyStrCuts.
Import PyStr.

Lemma length_app (a b : string) :
  String.length (a +:+ b) = (String.length a + String.length b)%nat.
Proof.
  induction a as [|c a IH]; [done|].
  rewrite PyStrFacts.app_cons. cbn [String.length]. by rewrite IH.
Qed.

Lemma prefix_app (sep b : string) : String.prefix sep (sep +:+ b) = true.
Proof.
  induction sep as [|c sep IH]; [by destruct b|].
  rewrite PyStrFacts.app_cons. cbn. by destruct (Ascii.ascii_dec c c).
Qed.

Lemma sdrop_app (sep b : string) : sdrop (String.length sep) (sep +:+ b) = b.
Proof.
  induction sep as [|c sep IH]; [done|]. by rewrite PyStrFacts.app_cons.
Qed.

Lemma prefix_nil (s : string) : String.prefix "" s = true.
Proof. by destruct s. Qed.

Lemma mem_cons_false (c e : ascii) (r : string) :
  mem c (String e r) = false → c ≠ e ∧ mem c r = false.
Proof.
  cbn. intros [Hce Hr]%orb_false_iff. split; [|done].
  intros ->. by rewrite Ascii.eqb_refl in Hce.
Qed.

(** A marker whose first character does not occur again in it cannot
    begin inside the text before it. *)
Lemma prefix_straddle (c : ascii) (rest a y : string) :
  mem c rest = false →
  String.prefix rest a = false →
  String.prefix rest (a +:+ String c y) = false.
Proof.
  revert a. induction rest as [|e r IH]; intros a Hmem Hpre.
  - by rewrite prefix_nil in Hpre.
  - apply mem_cons_false in Hmem as [Hce Hmem].
    destruct a as [|f a].
    + change ("" +:+ String c y) with (String c y). cbn.
      destruct (Ascii.ascii_dec e c) as [->|]; [done|done].
    + rewrite PyStrFacts.app_cons. cbn in Hpre |- *.
      destruct (Ascii.ascii_dec e f); [|done]. by apply IH.
Qed.

(** The leftmost occurrence of such a marker in [a ++ sep ++ b] is the
    one written, when [a] holds none. *)
Lemma find_sub_first (c : ascii) (rest a b : string) :
  mem c rest = false →
  find_sub (String c rest) a = None →
  find_sub (String c rest) (a +:+ String c rest +:+ b) = Some (a, b).
Proof.
  intros Hmem. induction a as [|d a IH]; intros Hnone.
  - rewrite PyStrFacts.find_sub_eq.
    change ("" +:+ String c rest +:+ b) with (String c rest +:+ b).
    by rewrite prefix_app, sdrop_app.
  - rewrite PyStrFacts.find_sub_eq in Hnone.
    destruct (String.prefix (String c rest) (String d a)) eqn:Hpre; [done|].
    destruct (find_sub (String c rest) a) as [[x y]|] eqn:Hfind; [done|].
    rewrite PyStrFacts.app_cons, PyStrFacts.find_sub_eq.
    assert (String.prefix (String c rest) (String d (a +:+ String c rest +:+ b)) = false)
      as ->.
    { cbn in Hpre |- *. destruct (Ascii.ascii_dec c d); [|done].
      rewrite PyStrFacts.app_cons. by apply prefix_straddle. }
    by rewrite IH.
Qed.

Lemma find_sub_nil (sep : string) : sep ≠ "" → find_sub sep "" = None.
Proof. by destruct sep. Qed.

Lemma split_fuel_enough (sep : string) (n m : nat) (s : string) :
  sep ≠ "" → (String.length s ≤ n)%nat → (String.length s ≤ m)%nat →
  split_fuel n sep s = split_fuel m sep s.
Proof.
  intros Hsep. revert m s. induction n as [|n IH]; intros m s Hn Hm.
  - destruct s; [|cbn in Hn; lia]. destruct m; [done|].
    cbn [split_fuel]. by rewrite find_sub_nil.
  - destruct m as [|m].
    { destruct s; [|cbn in Hm; lia]. cbn [split_fuel]. by rewrite find_sub_nil. }
    cbn [split_fuel]. destruct (find_sub sep s) as [[a b]|] eqn:Hfind; [|done].
    f_equal. apply PyStrFacts.find_sub_cut in Hfind as ->.
    rewrite !length_app in Hn, Hm.
    destruct sep; [done|]. cbn [String.length] in Hn, Hm.
    apply IH; lia.
Qed.

(** [s.split(sep)] begins with the text before the first marker and goes
    on with the split of the text after it. *)
Lemma split_cut (sep s a b : string) :
  sep ≠ "" → find_sub sep s = Some (a, b) → split sep s = a :: split sep b.
Proof.
  intros Hsep Hfind. unfold split.
  pose proof (PyStrFacts.find_sub_cut _ _ _ _ Hfind) as Hs.
  assert (String.length b < String.length s)%nat as Hlen.
  { rewrite Hs, !length_app. destruct sep; [done|]. cbn [String.length]. lia. }
  destruct (String.length s) as [|n] eqn:Hn; [lia|].
  cbn [split_fuel]. rewrite Hfind. f_equal.
  apply split_fuel_enough; [done|lia|lia].
Qed.

Lemma contains_false (sep s : string) :
  contains sep s = false ↔ find_sub sep s = None.
Proof. unfold contains. by destruct (find_sub sep s). Qed.

Lemma contains_first (c : ascii) (rest a b : string) :
  mem c rest = false →
  contains (String c rest) a = false →
  find_sub (String c rest) (a +:+ String c rest +:+ b) = Some (a, b).
Proof. intros Hmem Ha%contains_false. by apply find_sub_first. Qed.

End PyStrCuts.

(** ** Reading the reply *)

Section ParseReply.

Lemma split_second (sep b : string) :
  sep ≠ "" →
  default "" (PyStr.split sep b !! 0%nat)
  = match PyStr.find_sub sep b with Some (b1, _) => b1 | None => b end.
Proof.
  intros Hsep. destruct (PyStr.find_sub sep b) as [[b1 b2]|] eqn:Hfind.
  - by rewrite (PyStrCuts.split_cut sep b b1 b2 Hsep Hfind).
  - rewrite PyStrFacts.split_no_sep; [done|]. by apply PyStrCuts.contains_false.
Qed.

Lemma twitter_parse_cut (a b : string) :
  PyStr.contains "Post Title:" a = false →
  Twitter.parse_chatgpt_response (a +:+ "Post Title:" +:+ b)
  = (PyStr.strip (match PyStr.find_sub "Post Title:" b with
                  | Some (b1, _) => b1
                  | None => b
                  end),
     PyStr.strip a).
Proof.
  intros Ha. unfold Twitter.parse_chatgpt_response.
  pose proof (PyStrCuts.contains_first "P" "ost Title:" a b eq_refl Ha) as Hfind.
  unfold PyStr.contains at 1. rewrite Hfind.
  rewrite (PyStrCuts.split_cut "Post Title:" _ a b); [|done|done].
  cbn [lookup list_lookup]. change (default "" (Some a)) with a.
  by rewrite <-(split_second "Post Title:" b).
Qed.

End ParseReply.

(** X13.  The Twitter parser reads a reply the way the prompt asks for
    it: for a reply [a ++ "Post Title:" ++ b] in which [a] does not hold
    the marker, the summary is [a] stripped and the title is [b], up to
    the next marker if there is one, stripped.  A reply that opens with
    the marker has an empty summary: it leaves the record as it was and
    is not counted. *)
Theorem twitter_parse_reads_title_and_summary (a b : string) :
  PyStr.contains "Post Title:" a = false →
  Twitter.parse_chatgpt_response (a +:+ "Post Title:" +:+ b)
  = (PyStr.strip (match PyStr.find_sub "Post Title:" b with
                  | Some (b1, _) => b1
                  | None => b
                  end),
     PyStr.strip a)
  ∧ (PyStr.contains "Post Title:" b = false →
     Twitter.parse_chatgpt_response (a +:+ "Post Title:" +:+ b)
     = (PyStr.strip b, PyStr.strip a))
  ∧ (PyStr.strip a = "" →
     Outcome.counted (a +:+ "Post Title:" +:+ b) = false
     ∧ ∀ r, Outcome.apply_response (a +:+ "Post Title:" +:+ b) r = r).
Proof.
  intros Ha. pose proof (twitter_parse_cut a b Ha) as Hparse. split_and!.
  - done.
  - intros Hb%PyStrCuts.contains_false. by rewrite Hparse, Hb.
  - intros Hempty. unfold Outcome.counted, Outcome.apply_response.
    rewrite Hparse, Hempty. cbn. rewrite andb_false_r. by split.
Qed.

Lemma twitter_parse_reads_title_and_summary_witness :
  Twitter.parse_chatgpt_response ("A summary. " +:+ "Post Title:" +:+ " A title")
  = ("A title", "A summary.").
Proof.
  pose proof (proj1 (proj2 (twitter_parse_reads_title_and_summary
                              "A summary. " " A title" eq_refl)) eq_refl) as Hcase.
  vm_compute in Hcase |- *. exact Hcase.
Defined.

Section ParseArticle.

Variable H : host.

Lemma facebook_parse_plain (response : string) :
  PyStr.contains "Title:" response = false →
  Facebook.parse_body response = Ok ("Untitled", response).
Proof.
  intros Hnone. unfold Facebook.parse_body.
  by rewrite (PyStrFacts.split_no_sep _ _ Hnone).
Qed.

Lemma facebook_parse_after_title (pre x : string) :
  PyStr.contains "Title:" pre = false →
  PyStr.contains "Title:" x = false →
  Facebook.parse_body (pre +:+ "Title:" +:+ x)
  = match PyStr.split1 PyStr.nl x with
    | [title_line; rest] =>
        Ok (PyStr.strip title_line,
            PyStr.strip (PyStr.replace "Article:" ""
                           (default "" (PyStr.split "Original Post:" rest !! 0%nat))))
    | _ => Raise ValueError
    end.
Proof.
  intros Hpre Hx. unfold Facebook.parse_body.
  pose proof (PyStrCuts.contains_first "T" "itle:" pre x eq_refl Hpre) as Hfind.
  rewrite (PyStrCuts.split_cut "Title:" _ pre x); [|done|done].
  rewrite (PyStrFacts.split_no_sep _ _ Hx). done.
Qed.

End ParseArticle.

(** X14.  The Facebook parser on the three shapes of a reply.  A reply
    without [Title:] is kept whole under the title [Untitled].  In a reply
    [pre ++ "Title:" ++ title ++ newline ++ body ++ "Original Post:" ++
    tail] with a single [Title:], the title is the rest of that line,
    stripped, and the summary is [body] with every [Article:] removed,
    stripped.  A reply whose [Title:] is not followed by a line end cannot
    be unpacked: the error is logged and the reply is kept whole under
    [Untitled]. *)
Theorem facebook_parse_reads_title_and_article
    (H : host) (pre title body tail : string) (s : Chat.state) :
  PyStr.contains "Title:" pre = false →
  PyStr.contains PyStr.nl title = false →
  PyStr.contains "Original Post:" body = false →
  (PyStr.contains "Title:"
     (title +:+ PyStr.nl +:+ body +:+ "Original Post:" +:+ tail) = false →
   Facebook.parse_chatgpt_response H
     (pre +:+ "Title:" +:+ title +:+ PyStr.nl +:+ body +:+ "Original Post:" +:+ tail) s
   = (PyStr.strip title, PyStr.strip (PyStr.replace "Article:" "" body), s))
  ∧ (PyStr.contains "Title:" title = false →
     Facebook.parse_chatgpt_response H (pre +:+ "Title:" +:+ title) s
     = ("Untitled", pre +:+ "Title:" +:+ title,
        Chat.emit {| Chat.lvl := Chat.ERROR;
                     Chat.msg := "Error parsing ChatGPT response: "
                                 +:+ exn_str H ValueError;
                     Chat.args := [] |} s))
  ∧ Facebook.parse_chatgpt_response H pre s = ("Untitled", pre, s).
Proof.
  intros Hpre Htitle Hbody. split_and!.
  - intros Hx. unfold Facebook.parse_chatgpt_response.
    rewrite (facebook_parse_after_title pre _ Hpre Hx).
    unfold PyStr.split1.
    rewrite (PyStrCuts.contains_first _ "" title _ eq_refl Htitle).
    rewrite (PyStrCuts.split_cut "Original Post:" _ body tail); [done|done|].
    by apply (PyStrCuts.contains_first "O" "riginal Post:").
  - intros Hx. unfold Facebook.parse_chatgpt_response.
    rewrite (facebook_parse_after_title pre _ Hpre Hx).
    unfold PyStr.split1. apply PyStrCuts.contains_false in Htitle. by rewrite Htitle.
  - unfold Facebook.parse_chatgpt_response. by rewrite (facebook_parse_plain _ Hpre).
Qed.

Lemma facebook_parse_reads_title_and_article_witness :
  Facebook.parse_chatgpt_response Sample.cet
    ("Latest post" +:+ PyStr.nl +:+ "Title:" +:+ " Page: topic" +:+ PyStr.nl
     +:+ (PyStr.nl +:+ "Article:" +:+ PyStr.nl +:+ "Three sentences." +:+ PyStr.nl)
     +:+ "Original Post:" +:+ " text") Chat.empty
  = ("Page: topic", "Three sentences.", Chat.empty).
Proof.
  pose proof (proj1 (facebook_parse_reads_title_and_article Sample.cet
                       ("Latest post" +:+ PyStr.nl) " Page: topic"
                       (PyStr.nl +:+ "Article:" +:+ PyStr.nl +:+ "Three sentences."
                        +:+ PyStr.nl)
                       " text" Chat.empty eq_refl eq_refl eq_refl) eq_refl) as Hcase.
  vm_compute in Hcase |- *. exact Hcase.
Defined.

(** ** The Facebook pipeline, step by step *)

Section FacebookSteps.
Import Models Facebook.

Variable H : host.
Variable key : option string.
Variable user : User.

(** The filtering loop is a filter: the decision on an item depends on
    the item and on the table, not on the items before it. *)
Lemma fb_filter_loop_filter (rows : list ScrapedFBPost) (today_date : Z)
    (items : list item) :
  filter_loop H rows today_date user items
  = List.filter (Reached.facebook_accepts H rows today_date user) items.
Proof.
  induction items as [|t items IH]; [done|].
  rewrite fb_filter_loop_cons, fb_loop_body_passes, IH. cbn [List.filter].
  unfold Reached.facebook_accepts.
  destruct (Reach.facebook_passes H today_date t); [|done].
  by destruct (query_first H rows (id user) _).
Qed.

Lemma fb_call_chatgpt_requests (svc : Chat.service) (prompt : string) (s : Chat.state) :
  Chat.requests (call_chatgpt H key svc prompt s).2
  = Chat.requests s ++ [chat_request key prompt].
Proof.
  unfold call_chatgpt. destruct (svc _ _) as [e|data]; [done|].
  by destruct (Chat.first_choice_len data).
Qed.

Lemma fb_parse_requests (response : string) (s : Chat.state) :
  Chat.requests (parse_chatgpt_response H response s).2 = Chat.requests s.
Proof.
  unfold parse_chatgpt_response. by destruct (parse_body response) as [[? ?]|].
Qed.

Lemma fb_key_in_kept (table table' : list ScrapedFBPost) (uid : Z) (k : string) :
  Forall2 (λ r r', user_id r' = user_id r ∧ post_id r' = post_id r) table table' →
  Reach.fb_key_in table uid k → Reach.fb_key_in table' uid k.
Proof. apply fb_key_in_same_keys. Qed.

(** Every iteration of the enrichment loop whose row is in the table
    sends one request. *)
Lemma fb_enrich_requests svc fb_lang (pd : list processed)
    (table : list ScrapedFBPost) (s : Chat.state) :
  (∀ data, data ∈ pd →
           Reach.fb_key_in table (id user) (column_text H (p_post_id data))) →
  length (Chat.requests (foldl (enrich_body H key svc fb_lang user) (table, s) pd).2)
  = (length (Chat.requests s) + length pd)%nat.
Proof.
  induction pd as [|data rest IH] using rev_ind; intros Hin.
  - cbn. lia.
  - rewrite foldl_app, length_app. cbn [foldl length].
    pose proof (fb_enrich_keeps_keys H user key svc fb_lang rest table s) as Hkeys.
    assert (∀ d, d ∈ rest →
              Reach.fb_key_in table (id user) (column_text H (p_post_id d))) as Hrest.
    { intros d Hd. apply Hin, elem_of_app. by left. }
    specialize (IH Hrest).
    destruct (foldl _ (table, s) rest) as [table1 s1]. cbn [fst snd] in *.
    assert (is_Some (query_first H table1 (id user) (p_post_id data))) as [[i r] Hq].
    { apply fb_query_first_is_Some. eapply fb_key_in_kept; [exact Hkeys|].
      apply Hin, elem_of_app. right. by apply list_elem_of_singleton. }
    unfold enrich_body. rewrite Hq.
    pose proof (fb_call_chatgpt_requests svc (prompt_for H fb_lang user r) s1) as Hcall.
    destruct (call_chatgpt H key svc _ s1) as [response s2]. cbn [snd] in Hcall.
    pose proof (fb_parse_requests response s2) as Hparse.
    destruct (parse_chatgpt_response H response s2) as [[title summary] s3].
    cbn [snd] in *. rewrite Hparse, Hcall, length_app, IH. cbn. lia.
Qed.

(** A row that comes after a row with the same key is never assigned
    to: the lookup always finds the earlier one. *)
Lemma fb_enrich_shadowed svc fb_lang (pd : list processed)
    (table : list ScrapedFBPost) (s : Chat.state) (i j : nat) (r r' : ScrapedFBPost) :
  (j < i)%nat → table !! j = Some r' → table !! i = Some r →
  Tally.fb_key r' = Tally.fb_key r →
  (foldl (enrich_body H key svc fb_lang user) (table, s) pd).1 !! i = Some r.
Proof.
  intros Hji Hj Hi Hsame.
  induction pd as [|data rest IH] using rev_ind; [done|].
  rewrite foldl_app. cbn [foldl].
  pose proof (fb_enrich_keeps_keys H user key svc fb_lang rest table s) as Hkeys.
  destruct (foldl _ (table, s) rest) as [table1 s1]. cbn [fst] in *.
  unfold enrich_body.
  destruct (query_first H table1 (id user) (p_post_id data)) as [[k fb_post]|] eqn:Hq;
    [|done].
  destruct (call_chatgpt H key svc _ s1) as [response s2].
  destruct (parse_chatgpt_response H response s2) as [[title summary] s3]. cbn [fst].
  apply list_find_Some in Hq as (Hk & [Hu Hp] & Hfirst).
  destruct (decide (k = i)) as [->|Hne].
  - exfalso. rewrite IH in Hk. injection Hk as <-.
    destruct (Forall2_lookup_l _ _ _ _ _ Hkeys Hj) as (r1 & Hj1 & Hu1 & Hp1).
    apply (Hfirst j r1 Hj1 Hji). unfold Tally.fb_key in Hsame.
    injection Hsame as Hsu Hsp. split; congruence.
  - by rewrite list_lookup_insert_ne.
Qed.

(** When no iteration looks up a key the rows [rows0] hold, these rows
    come out as they went in. *)
Lemma fb_enrich_frame svc fb_lang (pd : list processed) (rows0 : list ScrapedFBPost)
    (table : list ScrapedFBPost) (s : Chat.state) :
  (∀ data, data ∈ pd →
           ¬ Reach.fb_key_in rows0 (id user) (column_text H (p_post_id data))) →
  take (length rows0) table = rows0 →
  take (length rows0) (foldl (enrich_body H key svc fb_lang user) (table, s) pd).1
  = rows0.
Proof.
  intros Hfresh Htake.
  induction pd as [|data rest IH] using rev_ind; [done|].
  rewrite foldl_app. cbn [foldl].
  assert (∀ d, d ∈ rest →
            ¬ Reach.fb_key_in rows0 (id user) (column_text H (p_post_id d))) as Hrest.
  { intros d Hd. apply Hfresh, elem_of_app. by left. }
  specialize (IH Hrest).
  destruct (foldl _ (table, s) rest) as [table1 s1]. cbn [fst] in *.
  unfold enrich_body.
  destruct (query_first H table1 (id user) (p_post_id data)) as [[k fb_post]|] eqn:Hq;
    [|done].
  destruct (call_chatgpt H key svc _ s1) as [response s2].
  destruct (parse_chatgpt_response H response s2) as [[title summary] s3]. cbn [fst].
  apply list_find_Some in Hq as (Hk & [Hu Hp] & _).
  destruct (decide (k < length rows0)%nat) as [Hlt|Hge].
  - exfalso. apply (Hfresh data); [apply elem_of_app; right; by apply list_elem_of_singleton|].
    exists fb_post. split_and!; try done.
    rewrite <-IH. apply list_elem_of_lookup. exists k.
    by rewrite lookup_take_lt.
  - rewrite take_insert_ge by lia. done.
Qed.

End FacebookSteps.

(** ** What a Facebook invocation leaves *)

Section FacebookRunFacts.
Import Models Facebook.

Variable H : host.
Variable key : option string.

(** The ways an invocation returns. *)
Lemma facebook_run_inv today_date act svc rows user r :
  scrape_and_store_fb_posts_for_user H key today_date act svc rows user = Ok r →
  r = stopped rows NoPages
  ∨ ∃ ri,
      (∃ e, act ri = ActorRaises e ∧ r = stopped rows ActorFailed)
      ∨ (act ri = ActorRun None ∧ r = stopped rows NoDataset)
      ∨ (act ri = ActorRun (Some (Ok [])) ∧ r = stopped rows NoItems)
      ∨ (∃ items,
           act ri = ActorRun (Some (Ok items))
           ∧ items ≠ []
           ∧ persist_and_enrich H key svc rows user
               (filter_loop H rows today_date user items) = Ok r).
Proof.
  unfold scrape_and_store_fb_posts_for_user.
  destruct (Py.empty (declared_pages user)); [intros [= <-]; by left|].
  intros Hrun. right. eexists.
  destruct (act _) as [e|[[items|]|]] eqn:Hact; try done.
  - left. exists e. split; [exact Hact|]. by injection Hrun as <-.
  - destruct (Py.empty items) eqn:Hi.
    + apply empty_nil in Hi as ->. right. right. left.
      split; [exact Hact|]. by injection Hrun as <-.
    + right. right. right. exists items. split; [exact Hact|].
      split; [by intros ->|done].
  - right. left. split; [exact Hact|]. by injection Hrun as <-.
Qed.

(** The second half of an invocation. *)
Lemma fb_persist_inv svc rows user new_items r :
  persist_and_enrich H key svc rows user new_items = Ok r →
  (new_items = [] ∧ r = stopped rows NothingNew)
  ∨ (new_items ≠ []
     ∧ ∃ pd, mapM process new_items = Ok pd
             ∧ ended r = Enriched
             ∧ accepted r = new_items
             ∧ (rows_after r, chat r)
               = foldl (enrich_body H key svc
                          (language_name (str_or (preferred_language_facebook user) "en"))
                          user)
                   (rows ++ (to_row H user <$> pd), Chat.empty) pd).
Proof.
  unfold persist_and_enrich. destruct (Py.empty new_items) eqn:Hempty.
  - apply empty_nil in Hempty as ->. intros [= <-]. by left.
  - destruct (mapM process new_items) as [pd|]; [|done]. cbn [mbind result_bind].
    destruct (foldl _ _ pd) as [table s] eqn:Hfold. intros [= <-]. right.
    split; [by intros ->|]. exists pd. by split_and!.
Qed.

Lemma mapM_process_raises (items : list item) (t : item) (e : exn) :
  t ∈ items → process t = Raise e → ∃ e', mapM process items = Raise e'.
Proof.
  intros Hin Ht. induction items as [|t' items IH]; [by apply elem_of_nil in Hin|].
  cbn [mapM]. apply elem_of_cons in Hin as [<-|Hin].
  - rewrite Ht. by exists e.
  - destruct (process t') as [data|e']; [|by exists e']. cbn [mbind result_bind].
    destruct (IH Hin) as [e' ->]. by exists e'.
Qed.

Lemma vget_or_raises (v : value) (k : string) (dflt : value) (e : exn) :
  Py.vget_or v k dflt = Raise e ↔ e = AttributeError ∧ ∀ d, v ≠ VDict d.
Proof.
  destruct v as [| | | | |d0]; cbn;
    try (split; [intros [= <-]; by split|by intros [-> _]]).
  split; [done|]. intros [_ Hd]. by destruct (Hd d0).
Qed.

Lemma user_not_dict (t : item) :
  (∀ d, Py.get_or "user" (VDict ∅) t ≠ VDict d)
  ↔ ∃ u, t !! "user" = Some u ∧ ∀ d, u ≠ VDict d.
Proof.
  unfold Py.get_or. destruct (t !! "user") as [u|]; cbn.
  - split; [intros Hu; by exists u|]. by intros (u' & [= <-] & Hu').
  - split; [intros Hu; by destruct (Hu ∅)|]. by intros (u' & [=] & _).
Qed.

Lemma thumbnail_raises (media : value) (e : exn) :
  match media with
  | VList (m :: _) => Py.vget_or m "thumbnail" (VStr "")
  | _ => Ok (VStr "")
  end = Raise e
  ↔ e = AttributeError ∧ ∃ m rest, media = VList (m :: rest) ∧ ∀ d, m ≠ VDict d.
Proof.
  destruct media as [| | | |[|m rest]|];
    try (split; [done|]; by intros [_ (m' & rest' & [=] & _)]).
  rewrite vget_or_raises. split.
  - intros [-> Hm]. split; [done|]. by exists m, rest.
  - by intros [-> (m' & rest' & [= <- <-] & Hm)].
Qed.

Lemma process_raises (t : item) (e : exn) :
  process t = Raise e ↔ e = AttributeError ∧ Reached.facebook_unreadable t.
Proof.
  unfold process, Reached.facebook_unreadable.
  destruct (match Py.get_or "media" (VList []) t with
            | VList (m :: _) => Py.vget_or m "thumbnail" (VStr "")
            | _ => Ok (VStr "")
            end) as [thumbnail|e0] eqn:Hth; cbn [mbind result_bind].
  - destruct (Py.vget_or (Py.get_or "user" (VDict ∅) t) "profilePic" (VStr ""))
      as [pic|e1] eqn:Hpic; cbn [mbind result_bind].
    + split; [done|]. intros [-> [Hm|Hu]].
      * assert (Ok thumbnail = Raise AttributeError) as Habs; [|done].
        rewrite <-Hth. by apply thumbnail_raises.
      * assert (Ok pic = Raise AttributeError) as Habs; [|done].
        rewrite <-Hpic. apply vget_or_raises. split; [done|]. by apply user_not_dict.
    + apply vget_or_raises in Hpic as [-> Hu]. split.
      * intros [= <-]. split; [done|]. right. by apply user_not_dict.
      * by intros [-> _].
  - apply thumbnail_raises in Hth as [-> Hm]. split.
    + intros [= <-]. split; [done|by left].
    + by intros [-> _].
Qed.

End FacebookRunFacts.

Lemma filter_sublist {A : Type} (f : A → bool) (l : list A) :
  sublist (List.filter f l) l.
Proof.
  induction l as [|x l IH]; [done|]. cbn [List.filter].
  destruct (f x); [by apply sublist_skip|by apply sublist_cons].
Qed.

Lemma elem_of_filter_bool {A : Type} (f : A → bool) (l : list A) (x : A) :
  x ∈ List.filter f l ↔ x ∈ l ∧ f x = true.
Proof.
  induction l as [|y l IH]; cbn [List.filter].
  - split; [by intros ?%elem_of_nil|by intros [?%elem_of_nil _]].
  - destruct (f y) eqn:Hy; rewrite ?elem_of_cons, IH; split.
    + intros [->|[? ?]]; split; auto.
    + intros [[->|?] ?]; auto.
    + intros [? ?]; split; auto.
    + intros [[->|?] Hx]; [by rewrite Hx in Hy|auto].
Qed.

(** ** Properties of a Facebook invocation *)

(** X15.  The filtering loop of the Facebook pipeline decides item by
    item: it keeps exactly the items that have an id, a timestamp dated
    today and no row with their key in the table, in the order of
    arrival, whatever comes before them in the dataset.  The loop over two
    datasets one after the other keeps what it keeps of each, and a new
    post the dataset holds twice is kept twice. *)
Theorem facebook_filter_decides_item_by_item
    (H : host) (rows : list Facebook.ScrapedFBPost) (today_date : Z)
    (user : Models.User) (items items' : list item) :
  Facebook.filter_loop H rows today_date user items
  = List.filter (Reached.facebook_accepts H rows today_date user) items
  ∧ Facebook.filter_loop H rows today_date user (items ++ items')
    = Facebook.filter_loop H rows today_date user items
      ++ Facebook.filter_loop H rows today_date user items'
  ∧ sublist (Facebook.filter_loop H rows today_date user items) items
  ∧ (∀ t, Reached.facebook_accepts H rows today_date user t = true →
          Facebook.filter_loop H rows today_date user [t; t] = [t; t]).
Proof.
  split_and!.
  - apply fb_filter_loop_filter.
  - rewrite !fb_filter_loop_filter. apply List.filter_app.
  - rewrite fb_filter_loop_filter. apply filter_sublist.
  - intros t Ht. rewrite fb_filter_loop_filter. cbn [List.filter]. by rewrite Ht.
Qed.

Lemma facebook_filter_decides_item_by_item_witness :
  Facebook.filter_loop Sample.cet [] Sample.D0 Sample.alice
    [Sample.post_utc; Sample.post_utc]
  = [Sample.post_utc; Sample.post_utc].
Proof.
  apply (proj2 (proj2 (proj2 (facebook_filter_decides_item_by_item Sample.cet []
                                Sample.D0 Sample.alice [] [])))).
  vm_compute. reflexivity.
Defined.

(** X16.  [process] fails, with an [AttributeError], exactly on an item
    whose [media] is a list that starts with something that is no dict, or
    whose [user] is present and no dict, null included.  One such post
    among the accepted ones loses the whole batch: the invocation does not
    return unless it stopped for want of pages, and nothing is inserted. *)
Theorem facebook_unreadable_post_loses_the_batch
    (H : host) (key : option string) (today_date : Z) (act : Facebook.actor)
    (svc : Chat.service) (rows : list Facebook.ScrapedFBPost) (user : Models.User)
    (items : list item) (t : item) :
  (∀ ri, act ri = ActorRun (Some (Ok items))) →
  t ∈ items →
  Reached.facebook_accepts H rows today_date user t = true →
  Reached.facebook_unreadable t →
  (∀ t' e, Facebook.process t' = Raise e
           ↔ e = AttributeError ∧ Reached.facebook_unreadable t')
  ∧ (∀ r, Facebook.scrape_and_store_fb_posts_for_user H key today_date act svc rows user
          = Ok r →
          Facebook.ended r = Facebook.NoPages ∧ Facebook.rows_after r = rows).
Proof.
  intros Hact Hin Hacc Hbad. split; [apply process_raises|]. intros r Hrun.
  destruct (facebook_run_inv _ _ _ _ _ _ _ _ Hrun) as [->|(ri & Hcases)]; [done|].
  rewrite Hact in Hcases.
  destruct Hcases as [(e0 & [=] & _)|[[[=] _]|[[[= Hnil] _]|Hok]]].
  - rewrite Hnil in Hin. by apply elem_of_nil in Hin.
  - destruct Hok as (items' & [= <-] & _ & Hpersist).
    assert (t ∈ Facebook.filter_loop H rows today_date user items) as Hkept.
    { rewrite fb_filter_loop_filter. by apply elem_of_filter_bool. }
    apply fb_persist_inv in Hpersist as [[Hnone _]|(_ & pd & Hmap & _)].
    + rewrite Hnone in Hkept. by apply elem_of_nil in Hkept.
    + destruct (mapM_process_raises _ t AttributeError Hkept) as [e' He'].
      { by apply process_raises. }
      by rewrite He' in Hmap.
Qed.

Lemma facebook_unreadable_post_loses_the_batch_witness :
  Facebook.scrape_and_store_fb_posts_for_user Sample.cet None Sample.D0
    (Sample.fb_actor [Sample.post_utc; Probe.null_user_post]) Sample.svc_unauthorized []
    Sample.alice
  = Raise AttributeError
  ∧ Facebook.process Probe.null_user_post = Raise AttributeError.
Proof.
  split; [vm_compute; reflexivity|].
  assert (Reached.facebook_accepts Sample.cet [] Sample.D0 Sample.alice
            Probe.null_user_post = true) as Hacc.
  { vm_compute. reflexivity. }
  assert (Reached.facebook_unreadable Probe.null_user_post) as Hbad.
  { right. exists VNull. split; [vm_compute; reflexivity|discriminate]. }
  apply (proj1 (facebook_unreadable_post_loses_the_batch Sample.cet None Sample.D0
                  (Sample.fb_actor [Sample.post_utc; Probe.null_user_post])
                  Sample.svc_unauthorized [] Sample.alice
                  [Sample.post_utc; Probe.null_user_post] Probe.null_user_post
                  (λ _, eq_refl)
                  (list_elem_of_further _ _ _ (list_elem_of_here _ _))
                  Hacc Hbad)).
  by split.
Defined.

Section FacebookRunShape.
Import Models Facebook.

Variable H : host.
Variable key : option string.

Lemma mapM_process_blank (items : list item) (pd : list processed) :
  mapM process items = Ok pd →
  Forall (λ data, p_posttitle data = "" ∧ p_chatgpt_output data = "") pd.
Proof.
  revert pd. induction items as [|t items IH]; intros pd.
  - intros [= <-]. constructor.
  - cbn [mapM]. destruct (process t) as [data|] eqn:Hdata; [|done].
    cbn [mbind result_bind]. destruct (mapM process items) as [rest|]; [|done].
    cbn [mbind result_bind mret result_ret]. intros [= <-]. constructor; [|by apply IH].
    revert Hdata. unfold process.
    destruct (match Py.get_or "media" _ t with VList (m :: _) => _ | _ => _ end); [|done].
    cbn [mbind result_bind]. destruct (Py.vget_or _ _ _); [|done].
    cbn [mbind result_bind]. by intros [= <-].
Qed.

(** What the enrichment phase leaves, for the accepted items
    [new_items] mapped to [pd]. *)
Lemma fb_enriched_shape svc user (rows : list ScrapedFBPost) (new_items : list item)
    (pd : list processed) (fb_lang : string) :
  mapM process new_items = Ok pd →
  let initial := rows ++ (to_row H user <$> pd) in
  let final := foldl (enrich_body H key svc fb_lang user) (initial, Chat.empty) pd in
  length pd = length new_items
  ∧ Forall2 (λ r r', user_id r' = user_id r ∧ post_id r' = post_id r) initial final.1
  ∧ length (Chat.requests final.2) = length new_items
  ∧ ((∀ t, t ∈ new_items →
           ¬ Reach.fb_key_in rows (id user) (column_text H (native_id t))) →
     take (length rows) final.1 = rows).
Proof.
  intros Hmap initial final.
  pose proof (mapM_process _ _ Hmap) as Hids.
  pose proof (Forall2_length _ _ _ Hids) as Hlen.
  split; [done|]. split; [apply fb_enrich_keeps_keys|]. split.
  - unfold final. rewrite fb_enrich_requests; [cbn; lia|].
    intros data Hdata. unfold initial. apply fb_key_in_app. right.
    exists (to_row H user data). split_and!; try done.
    apply list_elem_of_fmap. by exists data.
  - intros Hfresh. unfold final. apply fb_enrich_frame.
    + intros data Hdata. apply list_elem_of_lookup in Hdata as [i Hi].
      destruct (Forall2_lookup_r _ _ _ _ _ Hids Hi) as (t & Ht & ->).
      apply Hfresh. by eapply list_elem_of_lookup_2.
    + unfold initial. by rewrite take_app_length.
Qed.

End FacebookRunShape.

(** X17.  A Facebook invocation adds one row per accepted post and sends
    one request per accepted post; the rows it found keep their place and
    their key.  It reaches the enrichment phase exactly when it accepted a
    post.  When the table keeps the native id of every accepted post as
    the text the filter looked up, the rows it found come out unchanged:
    the enrichment assigns to new rows only. *)
Theorem facebook_run_adds_a_row_per_accepted_post
    (H : host) (key : option string) (today_date : Z) (act : Facebook.actor)
    (svc : Chat.service) (rows : list Facebook.ScrapedFBPost) (user : Models.User)
    (r : Facebook.run_end) :
  Facebook.scrape_and_store_fb_posts_for_user H key today_date act svc rows user = Ok r →
  length (Facebook.rows_after r) = (length rows + length (Facebook.accepted r))%nat
  ∧ Forall2 (λ a b, Tally.fb_key b = Tally.fb_key a) rows
      (take (length rows) (Facebook.rows_after r))
  ∧ length (Chat.requests (Facebook.chat r)) = length (Facebook.accepted r)
  ∧ (Facebook.ended r = Facebook.Enriched ↔ Facebook.accepted r ≠ [])
  ∧ (Forall (Reach.id_kept_as_text H) (Facebook.accepted r) →
     take (length rows) (Facebook.rows_after r) = rows).
Proof.
  intros Hrun.
  assert (∀ s, s ≠ Facebook.Enriched →
            let r := Facebook.stopped rows s in
            length (Facebook.rows_after r) = (length rows + length (Facebook.accepted r))%nat
            ∧ Forall2 (λ a b, Tally.fb_key b = Tally.fb_key a) rows
                (take (length rows) (Facebook.rows_after r))
            ∧ length (Chat.requests (Facebook.chat r)) = length (Facebook.accepted r)
            ∧ (Facebook.ended r = Facebook.Enriched ↔ Facebook.accepted r ≠ [])
            ∧ (Forall (Reach.id_kept_as_text H) (Facebook.accepted r) →
               take (length rows) (Facebook.rows_after r) = rows)) as Hstopped.
  { intros s Hs. cbn. rewrite firstn_all.
    split; [lia|]. split; [by apply Forall2_reflexive|]. split; [done|].
    split; [|done]. split; [done|]. by intros ?. }
  destruct (facebook_run_inv _ _ _ _ _ _ _ _ Hrun) as [->|(ri & Hcases)];
    [by apply Hstopped|].
  destruct Hcases as [(e0 & _ & ->)|[[_ ->]|[[_ ->]|Hok]]]; try by apply Hstopped.
  destruct Hok as (items & Hact & _ & Hpersist).
  pose proof (fb_filter_loop_filter H user rows today_date items) as Hfilter.
  apply fb_persist_inv in Hpersist as [[_ ->]|(Hne & pd & Hmap & Hend & Hacc & Hfold)];
    [by apply Hstopped|].
  destruct (fb_enriched_shape H key svc user rows _ pd
              (language_name (str_or (Models.preferred_language_facebook user) "en")) Hmap)
    as (Hlen & Hkeys & Hreq & Hframe).
  rewrite <-Hfold in Hkeys, Hreq, Hframe. cbn [fst snd] in Hkeys, Hreq, Hframe.
  rewrite Hacc, Hend.
  assert (length (Facebook.rows_after r)
          = (length rows + length (Facebook.filter_loop H rows today_date user items))%nat)
    as Hrows.
  { apply Forall2_length in Hkeys. rewrite <-Hkeys, length_app, length_fmap. lia. }
  split_and!; try done.
  - apply Forall2_same_length_lookup_2.
    { rewrite length_take. lia. }
    intros i a b Ha Hb. apply lookup_take_Some in Hb as [Hb Hi].
    destruct (Forall2_lookup_r _ _ _ _ _ Hkeys Hb) as (a' & Ha' & Hu & Hp).
    rewrite lookup_app_l in Ha' by done. rewrite Ha in Ha'. injection Ha' as <-.
    unfold Tally.fb_key. by rewrite Hu, Hp.
  - intros Hkept. apply Hframe. intros t Ht.
    pose proof (proj1 (Forall_forall _ _) Hkept t Ht) as Hid.
    unfold Reach.id_kept_as_text in Hid. rewrite Hid.
    rewrite Hfilter in Ht. apply elem_of_filter_bool in Ht as [_ Ht].
    unfold Reached.facebook_accepts in Ht. apply andb_true_iff in Ht as [_ Ht].
    intros Hin.
    assert (is_Some (Facebook.query_first H rows (Models.id user)
                       (VStr (py_str H (Facebook.native_id t))))) as [x Hx].
    { by apply fb_query_first_is_Some. }
    by rewrite Hx in Ht.
Qed.

Lemma facebook_run_adds_a_row_per_accepted_post_witness :
  ∃ r, Facebook.scrape_and_store_fb_posts_for_user Sample.cet None Sample.D0
         (Sample.fb_actor [Sample.post_utc; Sample.post_east]) Sample.svc_unauthorized []
         Sample.alice = Ok r
       ∧ length (Facebook.rows_after r) = 2%nat
       ∧ length (Chat.requests (Facebook.chat r)) = length (Facebook.accepted r).
Proof.
  destruct (Facebook.scrape_and_store_fb_posts_for_user Sample.cet None Sample.D0
              (Sample.fb_actor [Sample.post_utc; Sample.post_east])
              Sample.svc_unauthorized [] Sample.alice) as [r|e] eqn:Hrun.
  - exists r. split; [done|].
    destruct (facebook_run_adds_a_row_per_accepted_post _ _ _ _ _ _ _ r Hrun)
      as (_ & _ & Hreq & _).
    split; [|done]. vm_compute in Hrun. by injection Hrun as <-.
  - vm_compute in Hrun. discriminate Hrun.
Defined.

(** X18.  The enrichment loop of the Facebook pipeline looks each row up
    again by its key and assigns to the first match, so a row that comes
    after a row with the same key is never enriched: when the table an
    invocation leaves holds two rows with one key, the later of the two
    is a row the invocation found, unchanged, or a row it added, with an
    empty title and an empty summary. *)
Theorem facebook_later_row_of_a_key_is_left_alone
    (H : host) (key : option string) (today_date : Z) (act : Facebook.actor)
    (svc : Chat.service) (rows : list Facebook.ScrapedFBPost) (user : Models.User)
    (r : Facebook.run_end) (i j : nat) (ri rj : Facebook.ScrapedFBPost) :
  Facebook.scrape_and_store_fb_posts_for_user H key today_date act svc rows user = Ok r →
  (j < i)%nat →
  Facebook.rows_after r !! j = Some rj →
  Facebook.rows_after r !! i = Some ri →
  Tally.fb_key rj = Tally.fb_key ri →
  ((i < length rows)%nat → rows !! i = Some ri)
  ∧ ((length rows ≤ i)%nat →
     Facebook.posttitle ri = "" ∧ Facebook.chatgpt_output ri = "").
Proof.
  intros Hrun Hji Hj Hi Hsame.
  assert (Facebook.rows_after r = rows →
          ((i < length rows)%nat → rows !! i = Some ri)
          ∧ ((length rows ≤ i)%nat →
             Facebook.posttitle ri = "" ∧ Facebook.chatgpt_output ri = "")) as Hstopped.
  { intros Hrows. rewrite Hrows in Hi. split; [done|].
    intros Hge. apply lookup_lt_Some in Hi. lia. }
  destruct (facebook_run_inv _ _ _ _ _ _ _ _ Hrun) as [->|(ri0 & Hcases)];
    [by apply Hstopped|].
  destruct Hcases as [(e0 & _ & ->)|[[_ ->]|[[_ ->]|Hok]]]; try by apply Hstopped.
  destruct Hok as (items & Hact & _ & Hpersist).
  apply fb_persist_inv in Hpersist as [[_ ->]|(Hne & pd & Hmap & Hend & Hacc & Hfold)];
    [by apply Hstopped|].
  pose proof (fb_enrich_keeps_keys H user key svc
                (language_name (str_or (Models.preferred_language_facebook user) "en"))
                pd (rows ++ (Facebook.to_row H user <$> pd)) Chat.empty) as Hkeys.
  rewrite <-Hfold in Hkeys. cbn [fst] in Hkeys.
  destruct (Forall2_lookup_r _ _ _ _ _ Hkeys Hj) as (rj0 & Hj0 & Huj & Hpj).
  destruct (Forall2_lookup_r _ _ _ _ _ Hkeys Hi) as (ri1 & Hi0 & Hui & Hpi).
  pose proof (fb_enrich_shadowed H key user svc
                (language_name (str_or (Models.preferred_language_facebook user) "en"))
                pd _ Chat.empty i j ri1 rj0 Hji Hj0 Hi0) as Hshadow.
  rewrite <-Hfold in Hshadow. cbn [fst] in Hshadow.
  rewrite Hshadow in Hi.
  2:{ unfold Tally.fb_key in *. injection Hsame as Hsu Hsp. f_equal; congruence. }
  injection Hi as <-. split.
  - intros Hlt. by rewrite lookup_app_l in Hi0.
  - intros Hge. rewrite lookup_app_r in Hi0 by done.
    apply list_lookup_fmap_Some in Hi0 as (data & -> & Hdata).
    pose proof (mapM_process_blank _ _ Hmap) as Hblank.
    eapply Forall_lookup_1 in Hblank; [|done]. done.
Qed.

Lemma facebook_later_row_of_a_key_is_left_alone_witness :
  ∃ r first second,
    Facebook.scrape_and_store_fb_posts_for_user Sample.cet None Sample.D0
      (Sample.fb_actor [Sample.post_utc; Sample.post_utc]) Sample.svc_unauthorized []
      Sample.alice = Ok r
    ∧ Facebook.rows_after r = [first; second]
    ∧ Facebook.posttitle first = "Untitled"
    ∧ Facebook.posttitle second = "" ∧ Facebook.chatgpt_output second = "".
Proof.
  destruct (Facebook.scrape_and_store_fb_posts_for_user Sample.cet None Sample.D0
              (Sample.fb_actor [Sample.post_utc; Sample.post_utc])
              Sample.svc_unauthorized [] Sample.alice) as [r|e] eqn:Hrun.
  - assert (∃ first second,
              Facebook.rows_after r = [first; second]
              ∧ Tally.fb_key first = Tally.fb_key second
              ∧ Facebook.posttitle first = "Untitled") as (first & second & Hrows & Hk & Ht).
    { vm_compute in Hrun. injection Hrun as <-. by eexists _, _. }
    exists r, first, second. split; [done|]. split; [done|]. split; [done|].
    apply (proj2 (facebook_later_row_of_a_key_is_left_alone _ _ _ _ _ _ _ r 1 0
                    second first Hrun (le_n 1)
                    ltac:(by rewrite Hrows) ltac:(by rewrite Hrows) Hk)).
    cbn. lia.
  - vm_compute in Hrun. discriminate Hrun.
Defined.

(** ** The sweep over the users *)

Section Sweeps.
Import Models.

Variable H : host.

(** What one Twitter invocation does to the table. *)
Lemma twitter_run_appends cfg today act svc rows user r :
  Twitter.scrape_and_store_tweets_for_user H cfg today act svc rows user = Ok r →
  ∃ added,
    Twitter.rows_after r = rows ++ added
    ∧ Forall (λ r', user_id r' = id user) added
    ∧ (autoflush H = true →
       NoDup (Tally.key <$> rows) → NoDup (Tally.key <$> rows ++ added)).
Proof.
  intros Hrun.
  destruct (twitter_run_inv _ _ _ _ _ _ _ _ Hrun)
    as [->|(handles & ri & _ & _ & _ & Hcases)].
  { exists []. rewrite app_nil_r. by split_and!. }
  destruct Hcases as [(e & _ & ->)|[[_ ->]|[[_ ->]|Hloop]]];
    try (exists []; rewrite app_nil_r; by split_and!).
  destruct Hloop as (items & st & _ & _ & Hloop & ->).
  pose proof (filter_loop_init_unset _ _ _ _ _ _ _ Hloop) as Hun.
  destruct (persist_tally H cfg svc rows user st Hun) as (-> & _ & Hall & _).
  pose proof (ingested_same_keys _ _ _ Hall) as Hkeys.
  apply filter_loop_cases in Hloop as (kept & extra & Hnew & _ & Hacc & _ & _ & Hdup).
  cbn in Hnew. rewrite Hnew in Hall.
  eexists. split; [done|]. split.
  - apply Forall_lookup_2. intros i r' Hr'.
    destruct (Forall2_lookup_r _ _ _ _ _ Hall Hr') as (r0 & Hr0 & Hing & _).
    destruct (Forall2_lookup_r _ _ _ _ _ Hacc Hr0) as (t & _ & Ht).
    apply accepted_fields in Ht as (Hu & _). by rewrite <-Hing in Hu.
  - intros Hflush Hnodup. rewrite fmap_app, Hkeys, <-fmap_app.
    apply Hdup; [done|]. cbn. by rewrite app_nil_r.
Qed.

Lemma twitter_main_appends cfg today act svc k rows users table err :
  Sweep.twitter_main H cfg today act svc k rows users = (table, err) →
  ∃ added,
    table = rows ++ added
    ∧ Forall (λ r', ∃ u, u ∈ users ∧ user_id r' = id u) added
    ∧ (autoflush H = true →
       NoDup (Tally.key <$> rows) → NoDup (Tally.key <$> table)).
Proof.
  revert k rows. induction users as [|user users IH]; intros k rows.
  - intros [= <- <-]. exists []. rewrite app_nil_r. by split_and!.
  - cbn [Sweep.twitter_main].
    destruct (Twitter.scrape_and_store_tweets_for_user H cfg (today k) (act k) (svc k)
                rows user) as [r|e] eqn:Hrun.
    + destruct (twitter_run_appends _ _ _ _ _ _ _ Hrun) as (added & -> & Hu & Hdup).
      intros (added' & -> & Hu' & Hdup')%IH.
      exists (added ++ added'). rewrite app_assoc. split_and!; try done.
      * apply Forall_app. split.
        -- eapply Forall_impl; [exact Hu|]. intros r' Hr'. exists user.
           split; [apply elem_of_cons; by left|done].
        -- eapply Forall_impl; [exact Hu'|]. intros r' (u & Hin & Hr'). exists u.
           split; [apply elem_of_cons; by right|done].
      * intros Hflush Hnodup. apply Hdup'; [done|]. by apply Hdup.
    + intros [= <- <-]. exists []. rewrite app_nil_r. by split_and!.
Qed.

Lemma twitter_main_stops cfg today act svc k rows before user after table e :
  Sweep.twitter_main H cfg today act svc k rows before = (table, None) →
  Twitter.scrape_and_store_tweets_for_user H cfg (today (k + length before)%nat)
    (act (k + length before)%nat) (svc (k + length before)%nat) table user = Raise e →
  Sweep.twitter_main H cfg today act svc k rows (before ++ user :: after)
  = (table, Some e).
Proof.
  revert k rows. induction before as [|u before IH]; intros k rows.
  - intros [= <-]. cbn [length app Sweep.twitter_main]. rewrite Nat.add_0_r.
    by intros ->.
  - cbn [length app Sweep.twitter_main].
    destruct (Twitter.scrape_and_store_tweets_for_user H cfg (today k) (act k) (svc k)
                rows u) as [r|e']; [|done].
    intros Hbefore Hraise. apply IH; [done|].
    by replace (S k + length before)%nat with (k + S (length before))%nat by lia.
Qed.

(** What one Facebook invocation does to the table. *)
Lemma facebook_run_grows key today_date act svc rows user r :
  Facebook.scrape_and_store_fb_posts_for_user H key today_date act svc rows user = Ok r →
  ∃ kept added,
    Facebook.rows_after r = kept ++ added
    ∧ Forall2 (λ a b, Tally.fb_key b = Tally.fb_key a) rows kept
    ∧ Forall (λ r', Facebook.user_id r' = id user) added.
Proof.
  intros Hrun.
  assert (∃ kept added,
            rows = kept ++ added
            ∧ Forall2 (λ a b, Tally.fb_key b = Tally.fb_key a) rows kept
            ∧ Forall (λ r', Facebook.user_id r' = id user) added) as Hstopped.
  { exists rows, []. rewrite app_nil_r. split_and!; try done.
    by apply Forall2_reflexive. }
  destruct (facebook_run_inv _ _ _ _ _ _ _ _ Hrun) as [->|(ri & Hcases)]; [done|].
  destruct Hcases as [(e0 & _ & ->)|[[_ ->]|[[_ ->]|Hok]]]; try done.
  destruct Hok as (items & Hact & _ & Hpersist).
  apply fb_persist_inv in Hpersist as [[_ ->]|(Hne & pd & Hmap & Hend & Hacc & Hfold)];
    [done|].
  pose proof (fb_enrich_keeps_keys H user key svc
                (language_name (str_or (preferred_language_facebook user) "en"))
                pd (rows ++ (Facebook.to_row H user <$> pd)) Chat.empty) as Hkeys.
  rewrite <-Hfold in Hkeys. cbn [fst] in Hkeys.
  apply Forall2_app_inv_l in Hkeys as (kept & added & Hkept & Hadded & ->).
  exists kept, added. split_and!; try done.
  - eapply Forall2_impl; [exact Hkept|]. intros a b [Hu Hp]. unfold Tally.fb_key.
    by rewrite Hu, Hp.
  - apply Forall_lookup_2. intros i r' Hr'.
    destruct (Forall2_lookup_r _ _ _ _ _ Hadded Hr') as (r0 & Hr0 & Hu & _).
    apply list_lookup_fmap_Some in Hr0 as (data & -> & _). by rewrite Hu.
Qed.

Lemma facebook_main_grows key today_date act svc k rows users table err :
  Sweep.facebook_main H key today_date act svc k rows users = (table, err) →
  ∃ kept added,
    table = kept ++ added
    ∧ Forall2 (λ a b, Tally.fb_key b = Tally.fb_key a) rows kept
    ∧ Forall (λ r', ∃ u, u ∈ users ∧ Facebook.user_id r' = id u) added.
Proof.
  revert k rows. induction users as [|user users IH]; intros k rows.
  - intros [= <- <-]. exists rows, []. rewrite app_nil_r. split_and!; try done.
    by apply Forall2_reflexive.
  - cbn [Sweep.facebook_main].
    destruct (Facebook.scrape_and_store_fb_posts_for_user H key (today_date k) (act k)
                (svc k) rows user) as [r|e] eqn:Hrun.
    + destruct (facebook_run_grows _ _ _ _ _ _ _ Hrun) as (kept & added & -> & Hk & Hu).
      intros (kept' & added' & -> & Hk' & Hu')%IH.
      apply Forall2_app_inv_l in Hk' as (kept1 & added1 & Hkept1 & Hadded1 & ->).
      exists kept1, (added1 ++ added'). rewrite app_assoc. split_and!; try done.
      * apply Forall2_same_length_lookup_2.
        { apply Forall2_length in Hk, Hkept1. lia. }
        intros i a b Ha Hb.
        destruct (Forall2_lookup_l _ _ _ _ _ Hk Ha) as (a' & Ha' & Haa').
        destruct (Forall2_lookup_l _ _ _ _ _ Hkept1 Ha') as (b' & Hb' & Hab').
        rewrite Hb in Hb'. injection Hb' as <-. by rewrite Hab'.
      * apply Forall_app. split.
        -- apply Forall_lookup_2. intros i r' Hr'.
           destruct (Forall2_lookup_r _ _ _ _ _ Hadded1 Hr') as (r0 & Hr0 & Hsame).
           eapply Forall_lookup_1 in Hu; [|done]. exists user.
           split; [apply elem_of_cons; by left|].
           unfold Tally.fb_key in Hsame. injection Hsame as Hsu _. by rewrite Hsu.
        -- eapply Forall_impl; [exact Hu'|]. intros r' (u & Hin & Hr'). exists u.
           split; [apply elem_of_cons; by right|done].
    + intros [= <- <-]. exists rows, []. rewrite app_nil_r. split_and!; try done.
      by apply Forall2_reflexive.
Qed.

End Sweeps.

(** X19.  [main] of the Twitter scraper only appends to the table: what
    it leaves is the table it found followed by records of the users it
    swept, and, when the session flushes before a query, a table in which
    every key occurs once is left as such a table.  An invocation that
    raises ends the sweep: the table is the one the invocations before it
    left and the users after it are not visited. *)
Theorem twitter_main_only_appends
    (H : host) (cfg : Twitter.config) (today : nat → Z) (act : nat → Twitter.actor)
    (svc : nat → Chat.service) (rows : list Models.ScrapedTweet)
    (users : list Models.User) (table : list Models.ScrapedTweet) (err : option exn) :
  Sweep.twitter_main H cfg today act svc 0 rows users = (table, err) →
  (∃ added,
     table = rows ++ added
     ∧ Forall (λ r', ∃ u, u ∈ users ∧ Models.user_id r' = Models.id u) added)
  ∧ (autoflush H = true → NoDup (Tally.key <$> rows) → NoDup (Tally.key <$> table))
  ∧ (∀ before user after table' e,
       users = before ++ user :: after →
       Sweep.twitter_main H cfg today act svc 0 rows before = (table', None) →
       Twitter.scrape_and_store_tweets_for_user H cfg (today (length before))
         (act (length before)) (svc (length before)) table' user = Raise e →
       table = table' ∧ err = Some e).
Proof.
  intros Hmain.
  destruct (twitter_main_appends _ _ _ _ _ _ _ _ _ _ Hmain) as (added & Ht & Hu & Hdup).
  split; [by exists added|]. split; [done|].
  intros before user after table' e -> Hbefore Hraise.
  rewrite (twitter_main_stops H cfg today act svc 0 rows before user after table' e
             Hbefore Hraise) in Hmain.
  by injection Hmain as <- <-.
Qed.

Lemma twitter_main_only_appends_witness :
  ∃ table,
    Sweep.twitter_main Sample.cet (Sample.cfg None 1) (λ _, Sample.D0)
      (λ k, match k with
            | O => Sample.tw_actor [Sample.item_A]
            | _ => Sample.tw_actor [Probe.legacy_text_item]
            end)
      (λ _, Sample.svc_down) 0 [Sample.record_C] [Sample.alice; Sample.alice; Sample.alice]
    = (table, Some AttributeError)
    ∧ Tally.key <$> table = [(1, "C"); (1, "A")]
    ∧ NoDup (Tally.key <$> table).
Proof.
  destruct (Sweep.twitter_main Sample.cet (Sample.cfg None 1) (λ _, Sample.D0)
              (λ k, match k with
                    | O => Sample.tw_actor [Sample.item_A]
                    | _ => Sample.tw_actor [Probe.legacy_text_item]
                    end)
              (λ _, Sample.svc_down) 0 [Sample.record_C]
              [Sample.alice; Sample.alice; Sample.alice]) as [table err] eqn:Hmain.
  exists table.
  pose proof (proj1 (proj2 (twitter_main_only_appends _ _ _ _ _ _ _ _ _ Hmain)) eq_refl)
    as Hdup.
  vm_compute in Hmain. injection Hmain as <- <-.
  split; [done|]. split; [done|]. apply Hdup. apply NoDup_singleton.
Defined.

(** X20.  [main] of the Facebook scraper never removes a row and never
    changes the key of a row: the table it leaves begins with as many
    rows as it found, with the same keys in the same places, and
    continues with rows of the users it swept. *)
Theorem facebook_main_keeps_rows_and_keys
    (H : host) (key : option string) (today_date : nat → Z)
    (act : nat → Facebook.actor) (svc : nat → Chat.service)
    (rows : list Facebook.ScrapedFBPost) (users : list Models.User)
    (table : list Facebook.ScrapedFBPost) (err : option exn) :
  Sweep.facebook_main H key today_date act svc 0 rows users = (table, err) →
  ∃ kept added,
    table = kept ++ added
    ∧ Forall2 (λ a b, Tally.fb_key b = Tally.fb_key a) rows kept
    ∧ Forall (λ r', ∃ u, u ∈ users ∧ Facebook.user_id r' = Models.id u) added.
Proof. apply facebook_main_grows. Qed.

Lemma facebook_main_keeps_rows_and_keys_witness :
  ∃ table kept added,
    Sweep.facebook_main Sample.cet None (λ _, Sample.D0)
      (λ _, Sample.fb_actor [Sample.post_utc]) (λ _, Sample.svc_unauthorized) 0 []
      [Sample.alice; Sample.alice]
    = (table, None)
    ∧ Facebook.post_id <$> table = ["p2"]
    ∧ table = kept ++ added.
Proof.
  destruct (Sweep.facebook_main Sample.cet None (λ _, Sample.D0)
              (λ _, Sample.fb_actor [Sample.post_utc]) (λ _, Sample.svc_unauthorized) 0 []
              [Sample.alice; Sample.alice]) as [table err] eqn:Hmain.
  destruct (facebook_main_keeps_rows_and_keys _ _ _ _ _ _ _ _ _ Hmain)
    as (kept & added & Htable & _).
  exists table, kept, added.
  vm_compute in Hmain. injection Hmain as <- <-. by split_and!.
Defined.

(** ** The timestamp normalizer and the instant *)

Section InstantKept.

Variable H : host.

Lemma astimezone_utc_instant (dt dt' : datetime) :
  astimezone_utc H dt = Some dt' →
  tzoff dt' = Some 0
  ∧ DT.in_range (wall dt') = true
  ∧ (is_Some (tzoff dt) → DT.instant dt' = DT.instant dt).
Proof.
  unfold astimezone_utc.
  destruct (tzoff dt) as [off|] eqn:Hoff; cbn.
  - destruct (DT.in_range (wall dt - off)) eqn:Hr; [|done]. intros [= <-]. cbn.
    split_and!; try done. intros _. unfold DT.instant. rewrite Hoff. cbn. lia.
  - destruct (local_utcoffset H (wall dt)) as [off|]; [|done]. cbn.
    destruct (DT.in_range (wall dt - off)) eqn:Hr; [|done]. intros [= <-]. cbn.
    by split_and!.
Qed.

End InstantKept.

(** X21.  Whatever [_parse_timestamp] returns is aware and in UTC, and
    comes from a non-empty str that one of the two parsers accepted; when
    the parser's reading carries an offset, the result is the same
    instant: the conversion to UTC moves the wall clock, never the
    moment. *)
Theorem parse_timestamp_keeps_the_instant (H : host) (v : value) (dt : datetime) :
  _parse_timestamp H v = Some dt →
  tzoff dt = Some 0
  ∧ ∃ s src,
      v = VStr s
      ∧ s ≠ ""
      ∧ (fromisoformat H (PyStr.replace "Z" "+00:00" s) = Some src
         ∨ dtparse H s = Some src)
      ∧ (is_Some (tzoff src) → DT.instant dt = DT.instant src).
Proof.
  intros Hparse. split; [by eapply parse_timestamp_aware|].
  revert Hparse. unfold _parse_timestamp.
  destruct (negb (Py.truthy v)) eqn:Hv; [done|].
  destruct v as [| | |s| |]; try done.
  assert (s ≠ "") as Hs.
  { apply truthy_str. by apply negb_false_iff in Hv. }
  destruct (fromisoformat H (PyStr.replace "Z" "+00:00" s)) as [src|] eqn:Hiso; cbn.
  - destruct (astimezone_utc H src) as [dt'|] eqn:Hconv.
    + intros [= <-]. exists s, src. do 2 (split; [done|]). split; [by left|].
      by apply astimezone_utc_instant in Hconv as (_ & _ & ?).
    + destruct (dtparse H s) as [src'|] eqn:Hdu; [|done].
      destruct (tzoff src') as [off|] eqn:Hoff.
      * intros Hconv'. exists s, src'. do 2 (split; [done|]). split; [by right|].
        intros _. apply astimezone_utc_instant in Hconv' as (_ & _ & Hi).
        apply Hi. by rewrite Hoff.
      * intros [= <-]. exists s, src'. do 2 (split; [done|]). split; [by right|].
        rewrite Hoff. by intros [? ?].
  - destruct (dtparse H s) as [src'|] eqn:Hdu; [|done].
    destruct (tzoff src') as [off|] eqn:Hoff.
    + intros Hconv'. exists s, src'. do 2 (split; [done|]). split; [by right|].
      intros _. apply astimezone_utc_instant in Hconv' as (_ & _ & Hi).
      apply Hi. by rewrite Hoff.
    + intros [= <-]. exists s, src'. do 2 (split; [done|]). split; [by right|].
      rewrite Hoff. by intros [? ?].
Qed.

Lemma parse_timestamp_keeps_the_instant_witness :
  _parse_timestamp Sample.cet (VStr "2024-01-10T02:00:00+05:00")
  = Some (Sample.utc (Sample.at_ (Sample.D0 - 1) 21 0 0))
  ∧ tzoff (Sample.utc (Sample.at_ (Sample.D0 - 1) 21 0 0)) = Some 0.
Proof.
  assert (_parse_timestamp Sample.cet (VStr "2024-01-10T02:00:00+05:00")
          = Some (Sample.utc (Sample.at_ (Sample.D0 - 1) 21 0 0))) as Hparse.
  { vm_compute. reflexivity. }
  split; [done|].
  exact (proj1 (parse_timestamp_keeps_the_instant _ _ _ Hparse)).
Defined.

(** ** A reply that carries a choice *)

Section WellFormedReply.

Variable H : host.

Lemma first_choice_content (d m mm : item) (rest : list value) (content : string) :
  d !! "choices" = Some (VList (VDict m :: rest)) →
  m !! "message" = Some (VDict mm) →
  mm !! "content" = Some (VStr content) →
  Chat.first_choice (VDict d) = Ok (PyStr.strip content).
Proof.
  intros Hd Hm Hmm. unfold Chat.first_choice. cbn [Py.contains_key].
  rewrite Hd. rewrite bool_decide_eq_true_2 by by eexists.
  cbn [mbind result_bind Py.index_key]. rewrite Hd.
  cbn [mbind result_bind Py.truthy Py.empty negb Py.index_zero Py.index_key].
  rewrite Hm. cbn [mbind result_bind Py.index_key]. by rewrite Hmm.
Qed.

Lemma first_choice_len_content (d m mm : item) (rest : list value) (content : string) :
  d !! "choices" = Some (VList (VDict m :: rest)) →
  m !! "message" = Some (VDict mm) →
  mm !! "content" = Some (VStr content) →
  Chat.first_choice_len (VDict d) = Ok (PyStr.strip content).
Proof.
  intros Hd Hm Hmm. unfold Chat.first_choice_len. cbn [Py.contains_key].
  rewrite Hd. rewrite bool_decide_eq_true_2 by by eexists.
  cbn [mbind result_bind Py.index_key]. rewrite Hd.
  cbn [mbind result_bind Py.len length Nat.ltb Nat.leb Py.index_zero Py.index_key].
  rewrite Hm. cbn [mbind result_bind Py.index_key]. by rewrite Hmm.
Qed.

End WellFormedReply.

(** X22.  When the service answers with a body whose first choice
    carries a message with a str content, [call_chatgpt] returns that
    content stripped, having sent one request, the one built from the
    prompt, and logged the body: in the Twitter pipeline when the
    credential is set, in the Facebook pipeline always.  Without a
    credential the Twitter client returns its fixed text and sends and
    logs nothing. *)
Theorem call_chatgpt_returns_the_stripped_content
    (H : host) (cfg : Twitter.config) (key : option string) (svc : Chat.service)
    (prompt : string) (s : Chat.state) (d m mm : item) (rest : list value)
    (content : string) :
  d !! "choices" = Some (VList (VDict m :: rest)) →
  m !! "message" = Some (VDict mm) →
  mm !! "content" = Some (VStr content) →
  (str_falsy (Twitter.OPENAI_API_KEY cfg) = false →
   svc (length (Chat.requests s)) (Twitter.chat_request cfg prompt)
   = Chat.PostJson (VDict d) →
   Twitter.call_chatgpt H cfg svc prompt s
   = (PyStr.strip content,
      {| Chat.requests := Chat.requests s ++ [Twitter.chat_request cfg prompt];
         Chat.log := Chat.log s ++ [Outcome.response_record H (VDict d)] |}))
  ∧ (svc (length (Chat.requests s)) (Facebook.chat_request key prompt)
     = Chat.PostJson (VDict d) →
     Facebook.call_chatgpt H key svc prompt s
     = (PyStr.strip content,
        {| Chat.requests := Chat.requests s ++ [Facebook.chat_request key prompt];
           Chat.log := Chat.log s ++ [Outcome.response_record H (VDict d)] |}))
  ∧ (str_falsy (Twitter.OPENAI_API_KEY cfg) = true →
     Twitter.call_chatgpt H cfg svc prompt s = ("OpenAI API key not set.", s)).
Proof.
  intros Hd Hm Hmm.
  pose proof (first_choice_content d m mm rest content Hd Hm Hmm) as Hchoice.
  split_and!.
  - intros Hkey Hsvc. unfold Twitter.call_chatgpt. by rewrite Hkey, Hsvc, Hchoice.
  - intros Hsvc. unfold Facebook.call_chatgpt.
    by rewrite Hsvc, (first_choice_len_content d m mm rest content Hd Hm Hmm).
  - intros Hkey. unfold Twitter.call_chatgpt. by rewrite Hkey.
Qed.

Lemma call_chatgpt_returns_the_stripped_content_witness :
  fst (Twitter.call_chatgpt Sample.cet (Sample.cfg (Some "sk") 1)
         (λ _ _, Sample.reply " A summary. ") "prompt" Chat.empty)
  = "A summary.".
Proof.
  pose proof (proj1 (call_chatgpt_returns_the_stripped_content Sample.cet
                       (Sample.cfg (Some "sk") 1) None (λ _ _, Sample.reply " A summary. ")
                       "prompt" Chat.empty
                       {[ "choices" :=
                            VList [ VDict {[ "message" :=
                                               VDict {[ "content" := VStr " A summary. " ]} ]} ] ]}
                       {[ "message" := VDict {[ "content" := VStr " A summary. " ]} ]}
                       {[ "content" := VStr " A summary. " ]} [] " A summary. "
                       eq_refl eq_refl eq_refl) eq_refl eq_refl) as Hcall.
  rewrite Hcall. vm_compute. reflexivity.
Defined.

(** ** The language table *)

(** X23.  The language table holds every code once, so the name of a
    code is the one written beside it; a code outside the table, and
    with it a user without a preferred language or with an empty one, gets
    [English]. *)
Theorem language_name_reads_the_table :
  NoDup (language_map.*1)
  ∧ (∀ code name, (code, name) ∈ language_map → language_name code = name)
  ∧ (∀ code, code ∉ language_map.*1 → language_name code = "English")
  ∧ (∀ x, str_falsy x = true → language_name (str_or x "en") = "English").
Proof.
  assert (NoDup (language_map.*1)) as Hnodup.
  { apply (bool_decide_unpack _). vm_compute. reflexivity. }
  split_and!.
  - done.
  - intros code name Hin. unfold language_name.
    by rewrite (elem_of_list_to_map_1 _ _ _ Hnodup Hin).
  - intros code Hout. unfold language_name.
    by rewrite (not_elem_of_list_to_map_1 _ _ Hout).
  - intros x Hx. assert (str_or x "en" = "en") as ->.
    { unfold str_or, str_falsy in *. destruct x as [s|]; [|done].
      apply negb_true_iff in Hx. by rewrite Hx. }
    vm_compute. reflexivity.
Qed.

(** ** What the Twitter pipeline sends *)

Section TwitterRequests.
Import Models Twitter.

Variable H : host.
Variable cfg : config.

Lemma prompt_for_ingested (lang_name : string) (r : ScrapedTweet) :
  prompt_for H lang_name (Tally.ingested r) = prompt_for H lang_name r.
Proof. done. Qed.

Lemma persist_requests svc rows user st :
  Forall Outcome.unset (new_items st) →
  ended (persist_and_enrich H cfg svc rows user st) = Enriched →
  Chat.requests (chat (persist_and_enrich H cfg svc rows user st))
  = (λ r', chat_request cfg
             (prompt_for H (language_name (str_or (preferred_language user) "en")) r'))
      <$> inserted (persist_and_enrich H cfg svc rows user st).
Proof.
  intros Hun Hend.
  destruct (persist_tally H cfg svc rows user st Hun) as (_ & _ & Hall & _).
  revert Hend Hall. unfold persist_and_enrich.
  destruct (Py.empty (new_items st)); [done|].
  destruct (str_falsy (OPENAI_API_KEY cfg)) eqn:Hkey; [done|].
  pose proof (enrich_loop_keyed H cfg svc
                (language_name (str_or (preferred_language user) "en"))
                (new_items st) 0 Chat.empty Hkey) as Hkeyed.
  destruct (enrich_loop _ _ _ _ _ _ _) as [[out n'] s'].
  destruct Hkeyed as (_ & Hreq & _). cbn. intros _ Hall. rewrite Hreq. cbn.
  clear Hreq Hun. induction Hall as [|r0 r' l l' [Hing _] _ IH]; [done|].
  cbn [fmap list_fmap]. f_equal; [|done]. cbn.
  by rewrite <-Hing, prompt_for_ingested.
Qed.

End TwitterRequests.

(** X24.  An invocation of the Twitter pipeline that reaches the
    enrichment phase sends exactly the requests of the records it
    inserted, in their order: each carries the prompt built from that
    record in the language of the user, the credential in its header and
    the configured model.  No request is ever about a record the table
    already held. *)
Theorem twitter_requests_are_the_prompts_of_the_inserted
    (H : host) (cfg : Twitter.config) (today : Z) (act : Twitter.actor)
    (svc : Chat.service) (rows : list Models.ScrapedTweet) (user : Models.User)
    (r : Twitter.run_end) :
  Twitter.scrape_and_store_tweets_for_user H cfg today act svc rows user = Ok r →
  Twitter.ended r = Twitter.Enriched →
  Chat.requests (Twitter.chat r)
  = (λ r', Twitter.chat_request cfg
             (Twitter.prompt_for H
                (language_name (str_or (Models.preferred_language user) "en")) r'))
      <$> Twitter.inserted r
  ∧ Forall (λ q, Chat.authorization q = Chat.bearer (Twitter.OPENAI_API_KEY cfg)
                 ∧ Chat.model q = Twitter.CHATGPT_MODEL cfg
                 ∧ Chat.temperature q = "0.3")
      (Chat.requests (Twitter.chat r)).
Proof.
  intros Hrun Hend.
  assert (Chat.requests (Twitter.chat r)
          = (λ r', Twitter.chat_request cfg
                     (Twitter.prompt_for H
                        (language_name (str_or (Models.preferred_language user) "en")) r'))
              <$> Twitter.inserted r) as Hreq.
  { destruct (twitter_run_inv _ _ _ _ _ _ _ _ Hrun)
      as [->|(handles & ri & _ & _ & _ & Hcases)]; [done|].
    destruct Hcases as [(e & _ & ->)|[[_ ->]|[[_ ->]|Hloop]]]; try done.
    destruct Hloop as (items & st & _ & _ & Hloop & ->).
    apply persist_requests; [|done]. by eapply filter_loop_init_unset. }
  split; [done|]. rewrite Hreq. apply Forall_fmap, Forall_forall. by intros r' _.
Qed.

Lemma twitter_requests_are_the_prompts_of_the_inserted_witness :
  ∃ r, Twitter.scrape_and_store_tweets_for_user Sample.cet (Sample.cfg (Some "sk") 1)
         Sample.D0 (Sample.tw_actor [Sample.item_A; Sample.item_B]) Sample.svc_first_fails
         [Sample.record_C] Sample.alice = Ok r
       ∧ Chat.authorization <$> Chat.requests (Twitter.chat r) = ["Bearer sk"]
       ∧ length (Chat.requests (Twitter.chat r)) = length (Twitter.inserted r).
Proof.
  destruct (Twitter.scrape_and_store_tweets_for_user Sample.cet (Sample.cfg (Some "sk") 1)
              Sample.D0 (Sample.tw_actor [Sample.item_A; Sample.item_B])
              Sample.svc_first_fails [Sample.record_C] Sample.alice) as [r|e] eqn:Hrun.
  - exists r. split; [done|].
    assert (Twitter.ended r = Twitter.Enriched) as Hend.
    { vm_compute in Hrun. by injection Hrun as <-. }
    destruct (twitter_requests_are_the_prompts_of_the_inserted _ _ _ _ _ _ _ r Hrun Hend)
      as [Hreq _].
    split; [vm_compute in Hrun; by injection Hrun as <-|].
    by rewrite Hreq, length_fmap.
  - vm_compute in Hrun. discriminate Hrun.
Defined.
